(** * Halide generator framework (Generator.h): configuration values,
    argument descriptors, lifecycle flags, registry and metadata rows.

    The development follows the header the way it is written: every C++
    class becomes a module with a record for the object's fields and one
    function per method; [user_assert] / [internal_assert] become operations
    of a small error-and-state monad in which the object survives a failed
    assertion (Halide reports errors by throwing when built with exceptions),
    so that "what did the object look like after the failure" is a question
    the model can answer. *)

From Stdlib Require Import ZArith Lia Bool List Ascii String Sorted OrdersEx.
From stdpp Require Import base option list strings gmap.

Local Open Scope string_scope.
Local Open Scope Z_scope.

(** ** Errors and the state monad of a C++ object *)

(** Error.h: [user_assert], [user_error] report a mistake of the caller,
    [internal_assert], [internal_error] a broken invariant of the library.
    A message is the literal text of the source; the values the source
    streams behind it are left out. *)
Inductive error : Type :=
| UserError (msg : string)
| InternalError (msg : string).

Inductive outcome (A : Type) : Type :=
| Ok (a : A)
| Err (e : error).
Arguments Ok {A} a.
Arguments Err {A} e.

Definition is_ok {A} (o : outcome A) : bool :=
  match o with Ok _ => true | Err _ => false end.

(** A method of an object of type [S] returning an [A]: it yields the
    outcome and the object as the call left it, also when it failed. *)
Definition M (S A : Type) : Type := S -> outcome A * S.

Definition ret {S A} (a : A) : M S A := fun s => (Ok a, s).

Definition bind {S A B} (m : M S A) (k : A -> M S B) : M S B :=
  fun s => match m s with
           | (Ok a, s') => k a s'
           | (Err e, s') => (Err e, s')
           end.

Definition get {S} : M S S := fun s => (Ok s, s).
Definition put {S} (s : S) : M S unit := fun _ => (Ok tt, s).
Definition throw {S A} (e : error) : M S A := fun s => (Err e, s).

Definition user_assert {S} (c : bool) (msg : string) : M S unit :=
  if c then ret tt else throw (UserError msg).
Definition internal_assert {S} (c : bool) (msg : string) : M S unit :=
  if c then ret tt else throw (InternalError msg).
Definition user_error {S A} (msg : string) : M S A := throw (UserError msg).

Declare Scope obj_scope.
Delimit Scope obj_scope with obj.
Notation "x <- m ;; k" := (bind m (fun x => k))
  (at level 100, m at next level, right associativity) : obj_scope.
Notation "m ;; k" := (bind m (fun _ => k))
  (at level 100, right associativity) : obj_scope.
Local Open Scope obj_scope.

(** ** Character streams ([std::istringstream], [std::ostringstream]) *)

(** The read side of a string stream: the characters not yet consumed and
    the fail bit.  [eofbit] is not kept apart: the only reader of it in the
    header is [iss.get() == EOF], which holds exactly when nothing is left. *)
Record istringstream : Type := mk_iss { rdbuf : string; failbit : bool }.

Definition iss_open (s : string) : istringstream :=
  {| rdbuf := s; failbit := false |}.

(** [iss.get()]: the next character, or [None] for [EOF] (and the fail bit). *)
Definition iss_get (iss : istringstream) : option ascii * istringstream :=
  if failbit iss then (None, iss)
  else match rdbuf iss with
       | EmptyString => (None, {| rdbuf := EmptyString; failbit := true |})
       | String c r => (Some c, {| rdbuf := r; failbit := false |})
       end.

(** [std::isspace] in the "C" locale: space, \t \n \v \f \r. *)
Definition isspace (c : ascii) : bool :=
  let n := N_of_ascii c in
  (n =? 32)%N || ((9 <=? n)%N && (n <=? 13)%N).

(** The sentry of a formatted input function ([skipws] is set by default). *)
Fixpoint skipws (s : string) : string :=
  match s with
  | String c r => if isspace c then skipws r else s
  | EmptyString => EmptyString
  end.

Definition digit_of (c : ascii) : option N :=
  let n := N_of_ascii c in
  if (48 <=? n)%N && (n <=? 57)%N then Some (n - 48)%N else None.

Definition digit_char (d : N) : ascii := ascii_of_N (48 + d).

(** The digit loop of [num_get] in base ten: [acc] is [None] until a digit
    has been seen. *)
Fixpoint get_digits (s : string) (acc : option N) : option N * string :=
  match s with
  | String c r =>
      match digit_of c with
      | Some d => get_digits r (Some (10 * default 0%N acc + d)%N)
      | None => (acc, s)
      end
  | EmptyString => (acc, s)
  end.

(** [num_put] in base ten: the digits of [n], most significant first, in
    front of [acc]. *)
Fixpoint put_digits (fuel : nat) (n : N) (acc : string) : string :=
  let acc' := String (digit_char (n mod 10)) acc in
  match fuel with
  | O => acc'
  | S fuel' => if (n / 10 =? 0)%N then acc' else put_digits fuel' (n / 10) acc'
  end.

Definition print_N (n : N) : string := put_digits (N.size_nat n) n EmptyString.

(** ** The integral types a [GeneratorParam] or an [Input] can have *)

Inductive int_type : Type :=
| int8_t | int16_t | int32_t | int64_t
| uint8_t | uint16_t | uint32_t | uint64_t.

Definition is_unsigned (t : int_type) : bool :=
  match t with
  | uint8_t | uint16_t | uint32_t | uint64_t => true
  | _ => false
  end.

Definition sizeof (t : int_type) : Z :=
  match t with
  | int8_t | uint8_t => 1
  | int16_t | uint16_t => 2
  | int32_t | uint32_t => 4
  | int64_t | uint64_t => 8
  end.

Definition bits (t : int_type) : Z := sizeof t * 8.

(** [std::numeric_limits<T>::lowest()] and [::max()]. *)
Definition numeric_lowest (t : int_type) : Z :=
  if is_unsigned t then 0 else - 2 ^ (bits t - 1).
Definition numeric_max (t : int_type) : Z :=
  if is_unsigned t then 2 ^ bits t - 1 else 2 ^ (bits t - 1) - 1.

Definition in_range (t : int_type) (v : Z) : Prop :=
  numeric_lowest t <= v <= numeric_max t.

(** Conversion of an integer to [T]: the value modulo [2 ^ bits], read back
    in the type's range. *)
Definition wrap (t : int_type) (v : Z) : Z :=
  let m := v mod 2 ^ bits t in
  if is_unsigned t then m
  else if m <? 2 ^ (bits t - 1) then m else m - 2 ^ bits t.

(** [int8_t] and [uint8_t] are [signed char] and [unsigned char]: the
    stream operators treat them as characters, not as numbers. *)
Definition is_char_type (t : int_type) : bool :=
  match t with int8_t | uint8_t => true | _ => false end.

(** The optional sign in front of the digits. *)
Definition get_sign (s : string) : bool * string :=
  match s with
  | String "-" r => (true, r)
  | String "+" r => (false, r)
  | _ => (false, s)
  end.

(** [iss >> t] for a type wider than a character: white space, an optional
    sign, decimal digits.  No digit, or a magnitude the type cannot hold,
    sets the fail bit.  A minus sign in front of an unsigned value negates
    modulo [2 ^ bits]. *)
Definition extract_number (t : int_type) (iss : istringstream)
  : Z * istringstream :=
  let '(negative, s1) := get_sign (skipws (rdbuf iss)) in
  match get_digits s1 None with
  | (None, rest) => (0, {| rdbuf := rest; failbit := true |})
  | (Some n, rest) =>
      let limit :=
        if negative && negb (is_unsigned t) then - numeric_lowest t
        else numeric_max t in
      if (Z.of_N n <=? limit) then
        (wrap t (if negative then - Z.of_N n else Z.of_N n),
         {| rdbuf := rest; failbit := false |})
      else
        ((if negative && negb (is_unsigned t)
          then numeric_lowest t else numeric_max t),
         {| rdbuf := rest; failbit := true |})
  end.

(** [iss >> c] for a character type: white space, then one character. *)
Definition extract_char (t : int_type) (iss : istringstream)
  : Z * istringstream :=
  match skipws (rdbuf iss) with
  | EmptyString => (0, {| rdbuf := EmptyString; failbit := true |})
  | String c r =>
      (wrap t (Z.of_N (N_of_ascii c)), {| rdbuf := r; failbit := false |})
  end.

(** [iss >> t]. A stream that has already failed extracts nothing. *)
Definition extract (t : int_type) (iss : istringstream) : Z * istringstream :=
  if failbit iss then (0, iss)
  else if is_char_type t then extract_char t iss else extract_number t iss.

(** [oss << v] followed by [oss.str()]. *)
Definition insert_number (v : Z) : string :=
  if v <? 0 then String "-" (print_N (Z.abs_N v)) else print_N (Z.to_N v).

Definition insert_char (v : Z) : string :=
  String (ascii_of_N (Z.to_N (v mod 256))) EmptyString.

Definition insert (t : int_type) (v : Z) : string :=
  if is_char_type t then insert_char v else insert_number v.

(** ** [std::map<std::string, T>]

    The entries in ascending key order, one per key; [enum_to_string]
    walks them in that order, so the order is part of the model. *)
Module std_map.

Definition t (V : Type) : Type := list (string * V).

(** [m.insert({k, v})]: a key already present keeps its value. *)
Fixpoint insert {V} (k : string) (v : V) (m : t V) : t V :=
  match m with
  | [] => [(k, v)]
  | (k', v') :: m' =>
      match String_as_OT.compare k k' with
      | Lt => (k, v) :: m
      | Eq => m
      | Gt => (k', v') :: insert k v m'
      end
  end.

(** Construction from an initializer list: the pairs are inserted in turn. *)
Definition of_list {V} (l : list (string * V)) : t V :=
  fold_left (fun m kv => insert (fst kv) (snd kv) m) l [].

(** [m.find(k)]; [None] stands for [m.end()]. *)
Fixpoint find {V} (k : string) (m : t V) : option V :=
  match m with
  | [] => None
  | (k', v') :: m' => if String.eqb k k' then Some v' else find k m'
  end.

(** The class invariant: keys strictly ascending. *)
Definition sorted {V} (m : t V) : Prop :=
  StronglySorted String_as_OT.lt (map fst m).

End std_map.

(** ** [enum_to_string], [enum_from_string] *)

Section EnumStrings.
Context {T : Type} `{EqDecision T}.

Fixpoint enum_to_string_loop (enum_map : std_map.t T) (t : T) : option string :=
  match enum_map with
  | [] => None
  | (key, value) :: rest =>
      if bool_decide (t = value) then Some key else enum_to_string_loop rest t
  end.

Definition enum_to_string (enum_map : std_map.t T) (t : T) : outcome string :=
  match enum_to_string_loop enum_map t with
  | Some key => Ok key
  | None => Err (UserError "Enumeration value not found.")
  end.

Definition enum_from_string (enum_map : std_map.t T) (s : string) : outcome T :=
  match std_map.find s enum_map with
  | Some v => Ok v
  | None => Err (UserError "Enumeration value not found: ")
  end.

End EnumStrings.

(** ** The operators a [GeneratorParam_Arithmetic<T>] uses of [T] *)

(** [operator>=] and [operator<=]. *)
Class Ordered (T : Type) : Type := { ge : T -> T -> bool; le : T -> T -> bool }.

(** [operator>>] from a [std::istringstream], [operator<<] into a
    [std::ostringstream]. *)
Class Streamed (T : Type) : Type := {
  op_extract : istringstream -> T * istringstream;
  op_insert : T -> string
}.

#[global] Instance Z_ordered : Ordered Z := {| ge := Z.geb; le := Z.leb |}.

#[global] Instance bool_ordered : Ordered bool :=
  {| ge := fun a b => implb b a; le := fun a b => implb a b |}.

(** Values of the integral type [t] are carried as [Z]; the stream operators
    are those of [t]. *)
Definition int_streamed (t : int_type) : Streamed Z :=
  {| op_extract := extract t; op_insert := insert t |}.

(** ** [GeneratorParamImpl<T>] *)
Module GeneratorParamImpl.

Record t (T : Type) : Type := mk { name : string; value_ : T }.
Arguments mk {T} name value_.
Arguments name {T} _.
Arguments value_ {T} _.

Definition value {T} (p : t T) : T := value_ p.

Definition set {T} (new_value : T) : M (t T) unit :=
  fun p => (Ok tt, {| name := name p; value_ := new_value |}).

End GeneratorParamImpl.

(** ** [GeneratorParam_Arithmetic<T>] *)
Module GeneratorParam_Arithmetic.

Record t (T : Type) : Type :=
  mk { base : GeneratorParamImpl.t T; min : T; max : T }.
Arguments mk {T} base min max.
Arguments base {T} _.
Arguments min {T} _.
Arguments max {T} _.

(** The object with [v] as its value and everything else as in [p]. *)
Definition with_value {T} (p : t T) (v : T) : t T :=
  {| base := GeneratorParamImpl.mk (GeneratorParamImpl.name (base p)) v;
     min := min p; max := max p |}.

Section Template.
Context {T : Type} {ord : Ordered T}.

Definition value (p : t T) : T := GeneratorParamImpl.value (base p).

(** A method of the base class run on the base part of the object. *)
Definition on_base {A} (m : M (GeneratorParamImpl.t T) A) : M (t T) A :=
  fun p => let '(r, b) := m (base p) in
           (r, {| base := b; min := min p; max := max p |}).

Definition set (new_value : T) : M (t T) unit :=
  p <- get ;;
  user_assert (ge new_value (min p) && le new_value (max p))
              "Value out of range: " ;;
  on_base (GeneratorParamImpl.set new_value).

(** The constructor: the fields are initialised, then [set(value)] runs.
    A failed constructor leaves no object. *)
Definition make (name : string) (value min max : T) : outcome (t T) :=
  let p := {| base := GeneratorParamImpl.mk name value;
              min := min; max := max |} in
  match set value p with
  | (Ok _, p') => Ok p'
  | (Err e, _) => Err e
  end.

Context (io : Streamed T).

Definition set_from_string (new_value_string : string) : M (t T) unit :=
  let iss := iss_open new_value_string in
  let '(t, iss) := op_extract iss in
  user_assert (negb (failbit iss) && bool_decide (fst (iss_get iss) = None))
              "Unable to parse: " ;;
  set t.

Definition to_string (p : t T) : string := op_insert (value p).

End Template.

(** [get_c_type] for the integral types. *)
Definition get_c_type (ty : int_type) : string :=
  (if is_unsigned ty then "u" else "") +:+ "int" +:+
  insert_number (sizeof ty * 8) +:+ "_t".

End GeneratorParam_Arithmetic.

(** ** [GeneratorParam_Bool<T>], a [GeneratorParam_Arithmetic<bool>] *)
Module GeneratorParam_Bool.

Definition t : Type := GeneratorParam_Arithmetic.t bool.

(** The two-argument constructor: the bounds default to
    [numeric_limits<bool>::lowest()] and [::max()]. *)
Definition make (name : string) (value : bool) : outcome t :=
  GeneratorParam_Arithmetic.make name value false true.

Definition set_from_string (new_value_string : string) : M t unit :=
  v <- (if String.eqb new_value_string "true" then ret true
        else if String.eqb new_value_string "false" then ret false
        else (user_assert false "Unable to parse bool: " ;; ret false)) ;;
  GeneratorParam_Arithmetic.set v.

Definition to_string (p : t) : string :=
  if GeneratorParam_Arithmetic.value p then "true" else "false".

End GeneratorParam_Bool.

(** ** [GeneratorParam_Enum<T>] *)
Module GeneratorParam_Enum.

Record t (T : Type) : Type :=
  mk { base : GeneratorParamImpl.t T; enum_map : std_map.t T }.
Arguments mk {T} base enum_map.
Arguments base {T} _.
Arguments enum_map {T} _.

Section Template.
Context {T : Type} `{EqDecision T}.

Definition make (name : string) (value : T) (enum_map : std_map.t T) : t T :=
  {| base := GeneratorParamImpl.mk name value; enum_map := enum_map |}.

Definition value (p : t T) : T := GeneratorParamImpl.value (base p).

(** [set] is the one of [GeneratorParamImpl]: it checks nothing. *)
Definition set (new_value : T) : M (t T) unit :=
  fun p => let '(r, b) := GeneratorParamImpl.set new_value (base p) in
           (r, {| base := b; enum_map := enum_map p |}).

Definition set_from_string (new_value_string : string) : M (t T) unit :=
  p <- get ;;
  let it := std_map.find new_value_string (enum_map p) in
  user_assert (bool_decide (it <> None)) "Enumeration value not found: " ;;
  match it with
  | Some second => set second
  | None => ret tt
  end.

Definition to_string (p : t T) : outcome string :=
  enum_to_string (enum_map p) (value p).

End Template.
End GeneratorParam_Enum.

(** The enum of test/generator/wraptest_generator.cpp and the table its
    [bag_type] parameter is declared with. *)
Inductive BagType : Type := Paper | Plastic.

#[global] Instance BagType_eq_dec : EqDecision BagType.
Proof. solve_decision. Defined.

Definition bag_type_map : std_map.t BagType :=
  std_map.of_list [("paper", Paper); ("plastic", Plastic)].

Definition bag_type : GeneratorParam_Enum.t BagType :=
  GeneratorParam_Enum.make "bag_type" Paper bag_type_map.

(** ** [GeneratorParamBase]: the virtual interface

    One constructor per class of the header that the model covers.  The
    floating-point instances of [GeneratorParam_Arithmetic] and
    [GeneratorParam_Target] are left out: their text forms are those of
    [double] and of [Target], which this header does not define.  An enum,
    a [Type] or a [LoopLevel] parameter carries the values of its table as
    integers. *)
Inductive GeneratorParamBase : Type :=
| GP_Arithmetic (ty : int_type) (p : GeneratorParam_Arithmetic.t Z)
| GP_Bool (p : GeneratorParam_Bool.t)
| GP_Enum (p : GeneratorParam_Enum.t Z).

Definition param_name (g : GeneratorParamBase) : string :=
  match g with
  | GP_Arithmetic _ p =>
      GeneratorParamImpl.name (GeneratorParam_Arithmetic.base p)
  | GP_Bool p => GeneratorParamImpl.name (GeneratorParam_Arithmetic.base p)
  | GP_Enum p => GeneratorParamImpl.name (GeneratorParam_Enum.base p)
  end.

(** The current value, booleans as 0 and 1. *)
Definition param_value (g : GeneratorParamBase) : Z :=
  match g with
  | GP_Arithmetic _ p => GeneratorParam_Arithmetic.value p
  | GP_Bool p => if GeneratorParam_Arithmetic.value p then 1 else 0
  | GP_Enum p => GeneratorParam_Enum.value p
  end.

(** Virtual dispatch of [set_from_string]. *)
Definition set_from_string (s : string) : M GeneratorParamBase unit :=
  fun g =>
    match g with
    | GP_Arithmetic ty p =>
        let '(r, p') :=
          GeneratorParam_Arithmetic.set_from_string (int_streamed ty) s p in
        (r, GP_Arithmetic ty p')
    | GP_Bool p =>
        let '(r, p') := GeneratorParam_Bool.set_from_string s p in
        (r, GP_Bool p')
    | GP_Enum p =>
        let '(r, p') := GeneratorParam_Enum.set_from_string s p in
        (r, GP_Enum p')
    end.

(** Virtual dispatch of [to_string]. *)
Definition to_string (g : GeneratorParamBase) : outcome string :=
  match g with
  | GP_Arithmetic ty p =>
      Ok (GeneratorParam_Arithmetic.to_string (int_streamed ty) p)
  | GP_Bool p => Ok (GeneratorParam_Bool.to_string p)
  | GP_Enum p => GeneratorParam_Enum.to_string p
  end.

(** ** Argument descriptors: [IOKind], [FuncOrExpr], [ArgWithParam], [GIOBase] *)

Inductive IOKind : Type := Scalar | Function.

#[global] Instance IOKind_eq_dec : EqDecision IOKind.
Proof. solve_decision. Defined.

(** Type.h: the type code and the width are what the header and the
    metadata use of a [Type]. *)
Inductive halide_type_code_t : Type :=
| halide_type_int | halide_type_uint | halide_type_float | halide_type_handle.

Record halide_type_t : Type :=
  mk_type { code : halide_type_code_t; type_bits : Z }.

#[global] Instance halide_type_code_eq_dec : EqDecision halide_type_code_t.
Proof. solve_decision. Defined.

#[global] Instance halide_type_eq_dec : EqDecision halide_type_t.
Proof. solve_decision. Defined.

(** [Func] and [Expr] are handles of Func.h and Expr.h, outside this
    header: a [Func] is known by its name and the types of its values; an
    [Expr] is a typed constant or the read of a named parameter. *)
Record Func : Type := mk_Func { func_name : string; func_types : list halide_type_t }.

Inductive Expr : Type :=
| IntImm (ty : halide_type_t) (v : Z)
| ParamRead (ty : halide_type_t) (name : string).

Definition expr_type (e : Expr) : halide_type_t :=
  match e with IntImm ty _ => ty | ParamRead ty _ => ty end.

#[global] Instance Func_eq_dec : EqDecision Func.
Proof. solve_decision. Defined.

#[global] Instance Expr_eq_dec : EqDecision Expr.
Proof. solve_decision. Defined.

(** [FuncOrExpr]: the kind says which of the two members holds the value;
    the other one is default-constructed and never read. *)
Inductive FuncOrExpr : Type :=
| OfFunc (f : Func)
| OfExpr (e : Expr).

Module FuncOrExpr_.

Definition kind (x : FuncOrExpr) : IOKind :=
  match x with OfFunc _ => Function | OfExpr _ => Scalar end.

Definition func (x : FuncOrExpr) : outcome Func :=
  match x with
  | OfFunc f => Ok f
  | OfExpr _ => Err (InternalError "Expected Func, got Expr")
  end.

Definition expr (x : FuncOrExpr) : outcome Expr :=
  match x with
  | OfExpr e => Ok e
  | OfFunc _ => Err (InternalError "Expected Expr, got Func")
  end.

End FuncOrExpr_.

(** [ArgWithParam<T>]: a value, or a pointer to the [GeneratorParam<T>]
    to read the value from.  The pointer is the parameter's name; [deref]
    reads the parameter it names in the generator that owns both.  The
    constructor from a parameter also copies the parameter's value of that
    moment into [value_], which is what a name that resolves to nothing
    falls back to. *)
Module ArgWithParam.

Record t (T : Type) : Type := mk { value_ : T; param_ : option string }.
Arguments mk {T} value_ param_.
Arguments value_ {T} _.
Arguments param_ {T} _.

Definition of_value {T} (v : T) : t T := {| value_ := v; param_ := None |}.

Definition of_param {T} (deref : string -> option T) (dflt : T)
  (param : string) : t T :=
  {| value_ := default dflt (deref param); param_ := Some param |}.

Definition value {T} (deref : string -> option T) (a : t T) : T :=
  match param_ a with
  | Some param => default (value_ a) (deref param)
  | None => value_ a
  end.

End ArgWithParam.

Module GIOBase.

Record t : Type := mk {
  array_size_ : ArgWithParam.t Z;   (* always 1 if is_array() == false *)
  name_ : string;
  kind_ : IOKind;
  types_ : list (ArgWithParam.t halide_type_t);
  dimensions_ : ArgWithParam.t Z;
  (* Exactly one will have nonzero length *)
  funcs_ : list Func;
  exprs_ : list Expr;
  (* std::is_array<T>::value of the GeneratorInput<T> or GeneratorOutput<T> *)
  is_array_ : bool
}.

Section Reading.
(** The current values of the generator's [GeneratorParam<int>] and
    [GeneratorParam<Type>] members, by name. *)
Context (ints : string -> option Z) (types : string -> option halide_type_t).

(** [(size_t) array_size_.value()], [size_t] being 64 bits wide. *)
Definition array_size (g : t) : Z :=
  wrap uint64_t (ArgWithParam.value ints (array_size_ g)).

Definition is_array (g : t) : bool := is_array_ g.
Definition name (g : t) : string := name_ g.
Definition kind (g : t) : IOKind := kind_ g.
Definition type_size (g : t) : Z := Z.of_nat (length (types_ g)).

Definition type_at (i : nat) (g : t) : outcome halide_type_t :=
  match nth_error (types_ g) i with
  | Some a => Ok (ArgWithParam.value types a)
  | None => Err (InternalError "i < types_.size()")
  end.

Definition type (g : t) : outcome halide_type_t :=
  if type_size g =? 1 then type_at 0 g
  else Err (InternalError "Expected type_size() == 1").

Definition dimensions (g : t) : Z := ArgWithParam.value ints (dimensions_ g).

Definition funcs (g : t) : outcome (list Func) :=
  if (Z.of_nat (length (funcs_ g)) =? array_size g)
     && bool_decide (exprs_ g = [])
  then Ok (funcs_ g)
  else Err (InternalError "funcs_.size() == array_size() && exprs_.empty()").

Definition exprs (g : t) : outcome (list Expr) :=
  if (Z.of_nat (length (exprs_ g)) =? array_size g)
     && bool_decide (funcs_ g = [])
  then Ok (exprs_ g)
  else Err (InternalError "exprs_.size() == array_size() && funcs_.empty()").

(** Modelled from the spec: [GIOBase::array_name], declared in the header
    and defined outside it.  "{name}_{i}", zero-indexed, for the i-th
    element of an array; a descriptor that is not an array has one element,
    which carries the plain name (as the rows [input], [b], ... of the
    metadata test do). *)
Definition array_name (i : nat) (g : t) : string :=
  if is_array g then name g +:+ "_" +:+ print_N (N.of_nat i) else name g.

(** All results of a list of accessor calls, or the first error. *)
Fixpoint collect {A B} (f : A -> outcome B) (l : list A) : outcome (list B) :=
  match l with
  | [] => Ok []
  | x :: l' =>
      match f x with
      | Ok y => match collect f l' with Ok ys => Ok (y :: ys) | Err e => Err e end
      | Err e => Err e
      end
  end.

Definition of_outcome {A} (o : outcome A) : M t A := fun g => (o, g).

Definition with_values (g : t) (fs : list Func) (es : list Expr) : t :=
  {| array_size_ := array_size_ g; name_ := name_ g; kind_ := kind_ g;
     types_ := types_ g; dimensions_ := dimensions_ g;
     funcs_ := fs; exprs_ := es; is_array_ := is_array_ g |}.

(** The declared types of a descriptor, parameters resolved. *)
Definition declared_types (g : t) : list halide_type_t :=
  map (ArgWithParam.value types) (types_ g).

(** Modelled from the spec: the element types of a supplied handle are the
    declared ones. *)
Definition type_matches (g : t) (x : FuncOrExpr) : bool :=
  match x with
  | OfFunc f => bool_decide (func_types f = declared_types g)
  | OfExpr e => bool_decide ([expr_type e] = declared_types g)
  end.

(** Modelled from the spec: binding ([GeneratorInputBase::set_inputs],
    defined outside the header).  The handles of one descriptor are
    supplied together.  Their number must be the resolved multiplicity
    ([BindError::ArityMismatch]) and the element types of each must be the
    declared ones ([BindError::TypeMismatch]); they are then read with the
    accessor of the descriptor's kind, [FuncOrExpr::func] or
    [FuncOrExpr::expr], into the list of that kind, and the other list is
    empty. *)
Definition bind_values (inputs : list FuncOrExpr) : M t unit :=
  g <- get ;;
  user_assert (Z.of_nat (length inputs) =? array_size g)
              "BindError::ArityMismatch" ;;
  user_assert (forallb (type_matches g) inputs)
              "BindError::TypeMismatch" ;;
  match kind g with
  | Function =>
      fs <- of_outcome (collect FuncOrExpr_.func inputs) ;;
      put (with_values g fs [])
  | Scalar =>
      es <- of_outcome (collect FuncOrExpr_.expr inputs) ;;
      put (with_values g [] es)
  end.

(** The invariant the comment on [funcs_] and [exprs_] states, with the
    length the accessors ask for: exactly one of the two lists is
    non-empty, and it has [array_size()] elements. *)
Definition exactly_one_populated (g : t) : Prop :=
  (funcs_ g <> [] /\ exprs_ g = []
   /\ Z.of_nat (length (funcs_ g)) = array_size g)
  \/ (exprs_ g <> [] /\ funcs_ g = []
      /\ Z.of_nat (length (exprs_ g)) = array_size g).

End Reading.

(** Modelled from the spec: the constructor, declared in the header and
    defined outside it.  It stores its arguments; a descriptor is declared
    first and bound later, so both lists start empty. *)
Definition make (array_size : ArgWithParam.t Z) (name : string) (kind : IOKind)
  (types : list (ArgWithParam.t halide_type_t))
  (dimensions : ArgWithParam.t Z) (is_array : bool) : t :=
  {| array_size_ := array_size; name_ := name; kind_ := kind;
     types_ := types; dimensions_ := dimensions;
     funcs_ := []; exprs_ := []; is_array_ := is_array |}.

End GIOBase.

Definition UInt (bits : Z) : halide_type_t := mk_type halide_type_uint bits.
Definition Int (bits : Z) : halide_type_t := mk_type halide_type_int bits.
Definition Float (bits : Z) : halide_type_t := mk_type halide_type_float bits.
Definition Handle : halide_type_t := mk_type halide_type_handle 64.

(** [Input<Func[]> input{ array_count, "input", input_type, 3 }] of
    test/generator/wraptest_generator.cpp, where [array_count] and
    [input_type] are generator parameters with the defaults 2 and
    [UInt(8)]. *)
Definition wraptest_input : GIOBase.t :=
  GIOBase.make (ArgWithParam.mk 2 (Some "array_count")) "input" Function
    [ArgWithParam.mk (UInt 8) (Some "input_type")] (ArgWithParam.of_value 3) true.

(** The parameters of that generator as a caller left them: [array_count]
    set to [n], [input_type] at its default [UInt(8)]. *)
Definition array_count_is (n : Z) (param : string) : option Z :=
  if String.eqb param "array_count" then Some n else None.
Definition wraptest_types (param : string) : option halide_type_t :=
  if String.eqb param "input_type" then Some (UInt 8) else None.

(** ** Metadata records (HalideRuntime.h) and the checks of
    test/generator/metadata_tester_aottest.cpp *)

(** The element types of a scalar input: [bool], the integral types,
    [float], [double] and [void *]. *)
Inductive scalar_type : Type :=
| ty_bool
| ty_int (t : int_type)
| ty_float
| ty_double
| ty_handle.

(** [type_of<T>()]. *)
Definition type_of (T : scalar_type) : halide_type_t :=
  match T with
  | ty_bool => UInt 1
  | ty_int t => if is_unsigned t then UInt (bits t) else Int (bits t)
  | ty_float => Float 32
  | ty_double => Float 64
  | ty_handle => Handle
  end.

(** [std::is_arithmetic<T>]: everything but the pointer. *)
Definition is_arithmetic (T : scalar_type) : bool :=
  match T with ty_handle => false | _ => true end.

(** [halide_scalar_value_t]: a union of [b], [i8] ... [u64], [f32], [f64]
    and [handle] in eight bytes.  The model keeps the eight bytes as one
    number, the members sharing their low bytes as on the little-endian
    targets; a floating-point member is its IEEE bit pattern. *)
Record halide_scalar_value_t : Type := mk_scalar { raw : Z }.

Definition u_b (s : halide_scalar_value_t) : Z := raw s mod 2 ^ 8.
Definition u_int (t : int_type) (s : halide_scalar_value_t) : Z := wrap t (raw s).
Definition u_f32 (s : halide_scalar_value_t) : Z := raw s mod 2 ^ 32.
Definition u_f64 (s : halide_scalar_value_t) : Z := raw s mod 2 ^ 64.
Definition u_handle (s : halide_scalar_value_t) : Z := raw s mod 2 ^ 64.

(** [==] of two floating-point numbers given by their bit patterns of
    [1 + w] bits: a NaN equals nothing, the two zeros are equal, and
    otherwise the patterns decide. *)
Definition float_eq (w inf : Z) (x y : Z) : bool :=
  let nan z := inf <? z mod 2 ^ w in
  let zero z := z mod 2 ^ w =? 0 in
  negb (nan x) && negb (nan y) && ((zero x && zero y) || (x =? y)).

Definition f32_eq : Z -> Z -> bool := float_eq 31 0x7F800000.
Definition f64_eq : Z -> Z -> bool := float_eq 63 0x7FF0000000000000.

(** [make_scalar<T>(v)] of the test: a zeroed union with the member of [T]
    set to [v] (for [float] and [double], [v] is the bit pattern). *)
Definition make_scalar (T : scalar_type) (v : Z) : halide_scalar_value_t :=
  match T with
  | ty_bool => mk_scalar (if v =? 0 then 0 else 1)
  | ty_int t => mk_scalar (v mod 2 ^ bits t)
  | ty_float => mk_scalar (v mod 2 ^ 32)
  | ty_double => mk_scalar (v mod 2 ^ 64)
  | ty_handle => mk_scalar (v mod 2 ^ 64)
  end.

Inductive halide_argument_kind_t : Type :=
| halide_argument_kind_input_scalar
| halide_argument_kind_input_buffer
| halide_argument_kind_output_buffer.

#[global] Instance halide_argument_kind_eq_dec : EqDecision halide_argument_kind_t.
Proof. solve_decision. Defined.

(** [halide_filter_argument_t]; a null [def], [min] or [max] is [None]. *)
Record halide_filter_argument_t : Type := mk_argument {
  arg_name : string;
  arg_kind : halide_argument_kind_t;
  arg_dimensions : Z;
  arg_type : halide_type_t;
  arg_def : option halide_scalar_value_t;
  arg_min : option halide_scalar_value_t;
  arg_max : option halide_scalar_value_t
}.

Record halide_filter_metadata_t : Type := mk_metadata {
  num_arguments : Z;
  arguments : list halide_filter_argument_t;
  target : string;
  md_name : string
}.

(** The numbers of the [halide_type_code_t] enumerators. *)
Definition type_code_number (c : halide_type_code_t) : Z :=
  match c with
  | halide_type_int => 0
  | halide_type_uint => 1
  | halide_type_float => 2
  | halide_type_handle => 3
  end.

(** [scalar_union_equal].  The inner switches have no default and the outer
    cases no [break]: a width that a case does not list falls through to
    the next case.  [None] is the [exit(-1)] after the switch. *)
Definition scalar_union_equal (type_code type_bits : Z)
  (e a : halide_scalar_value_t) : option bool :=
  let case_handle := Some (u_handle e =? u_handle a) in
  let case_float :=
    if type_bits =? 32 then Some (f32_eq (u_f32 e) (u_f32 a))
    else if type_bits =? 64 then Some (f64_eq (u_f64 e) (u_f64 a))
    else case_handle in
  let case_uint :=
    if type_bits =? 1 then Some (u_b e =? u_b a)
    else if type_bits =? 8 then Some (u_int uint8_t e =? u_int uint8_t a)
    else if type_bits =? 16 then Some (u_int uint16_t e =? u_int uint16_t a)
    else if type_bits =? 32 then Some (u_int uint32_t e =? u_int uint32_t a)
    else if type_bits =? 64 then Some (u_int uint64_t e =? u_int uint64_t a)
    else case_float in
  let case_int :=
    if type_bits =? 8 then Some (u_int int8_t e =? u_int int8_t a)
    else if type_bits =? 16 then Some (u_int int16_t e =? u_int int16_t a)
    else if type_bits =? 32 then Some (u_int int32_t e =? u_int int32_t a)
    else if type_bits =? 64 then Some (u_int int64_t e =? u_int int64_t a)
    else case_uint in
  if type_code =? type_code_number halide_type_int then case_int
  else if type_code =? type_code_number halide_type_uint then case_uint
  else if type_code =? type_code_number halide_type_float then case_float
  else if type_code =? type_code_number halide_type_handle then case_handle
  else None.

Definition scalar_union_ptr_equal (type_code type_bits : Z)
  (e a : option halide_scalar_value_t) : option bool :=
  match e with
  | Some e' =>
      match a with
      | Some a' => scalar_union_equal type_code type_bits e' a'
      | None => Some false
      end
  | None =>
      match a with
      | Some _ => Some false
      | None => Some true
      end
  end.

(** [EXPECT_SCALAR_UNION_EQ]: [true] when the check lets the test go on. *)
Definition EXPECT_SCALAR_UNION_EQ (type_code type_bits : Z)
  (exp act : option halide_scalar_value_t) : bool :=
  match scalar_union_ptr_equal type_code type_bits exp act with
  | Some true => true
  | _ => false
  end.

(** [match_argument]: [true] when no check in it exits. *)
Definition match_argument (e a : halide_filter_argument_t) : bool :=
  String.eqb (arg_name e) (arg_name a)
  && (arg_dimensions e =? arg_dimensions a)
  && bool_decide (arg_kind e = arg_kind a)
  && bool_decide (code (arg_type e) = code (arg_type a))
  && (type_bits (arg_type e) =? type_bits (arg_type a))
  && (arg_dimensions e =? arg_dimensions a)
  && EXPECT_SCALAR_UNION_EQ (type_code_number (code (arg_type e)))
       (type_bits (arg_type e)) (arg_def e) (arg_def a)
  && EXPECT_SCALAR_UNION_EQ (type_code_number (code (arg_type e)))
       (type_bits (arg_type e)) (arg_min e) (arg_min a)
  && EXPECT_SCALAR_UNION_EQ (type_code_number (code (arg_type e)))
       (type_bits (arg_type e)) (arg_max e) (arg_max a).

(** [strstr(haystack, needle) != NULL]. *)
Fixpoint strstr (haystack needle : string) : bool :=
  String.prefix needle haystack
  || match haystack with
     | EmptyString => false
     | String _ rest => strstr rest needle
     end.

(** [kExpectedArguments] of [check_metadata]. *)
Definition kExpectedArguments : list halide_filter_argument_t := [
  {| arg_name := "__user_context"; arg_kind := halide_argument_kind_input_scalar; arg_dimensions := 0;
     arg_type := mk_type halide_type_handle 64;
     arg_def := None;
     arg_min := None;
     arg_max := None |};
  {| arg_name := "input"; arg_kind := halide_argument_kind_input_buffer; arg_dimensions := 3;
     arg_type := mk_type halide_type_uint 8;
     arg_def := None;
     arg_min := None;
     arg_max := None |};
  {| arg_name := "b"; arg_kind := halide_argument_kind_input_scalar; arg_dimensions := 0;
     arg_type := mk_type halide_type_uint 1;
     arg_def := (Some (make_scalar ty_bool 1));
     arg_min := None;
     arg_max := None |};
  {| arg_name := "i8"; arg_kind := halide_argument_kind_input_scalar; arg_dimensions := 0;
     arg_type := mk_type halide_type_int 8;
     arg_def := (Some (make_scalar (ty_int int8_t) 8));
     arg_min := (Some (make_scalar (ty_int int8_t) (-8)));
     arg_max := (Some (make_scalar (ty_int int8_t) 127)) |};
  {| arg_name := "i16"; arg_kind := halide_argument_kind_input_scalar; arg_dimensions := 0;
     arg_type := mk_type halide_type_int 16;
     arg_def := (Some (make_scalar (ty_int int16_t) 16));
     arg_min := (Some (make_scalar (ty_int int16_t) (-16)));
     arg_max := (Some (make_scalar (ty_int int16_t) 127)) |};
  {| arg_name := "i32"; arg_kind := halide_argument_kind_input_scalar; arg_dimensions := 0;
     arg_type := mk_type halide_type_int 32;
     arg_def := (Some (make_scalar (ty_int int32_t) 32));
     arg_min := (Some (make_scalar (ty_int int32_t) (-32)));
     arg_max := (Some (make_scalar (ty_int int32_t) 127)) |};
  {| arg_name := "i64"; arg_kind := halide_argument_kind_input_scalar; arg_dimensions := 0;
     arg_type := mk_type halide_type_int 64;
     arg_def := (Some (make_scalar (ty_int int64_t) 64));
     arg_min := (Some (make_scalar (ty_int int64_t) (-64)));
     arg_max := (Some (make_scalar (ty_int int64_t) 127)) |};
  {| arg_name := "u8"; arg_kind := halide_argument_kind_input_scalar; arg_dimensions := 0;
     arg_type := mk_type halide_type_uint 8;
     arg_def := (Some (make_scalar (ty_int uint8_t) 80));
     arg_min := (Some (make_scalar (ty_int uint8_t) 8));
     arg_max := (Some (make_scalar (ty_int uint8_t) 255)) |};
  {| arg_name := "u16"; arg_kind := halide_argument_kind_input_scalar; arg_dimensions := 0;
     arg_type := mk_type halide_type_uint 16;
     arg_def := (Some (make_scalar (ty_int uint16_t) 160));
     arg_min := (Some (make_scalar (ty_int uint16_t) 16));
     arg_max := (Some (make_scalar (ty_int uint16_t) 2550)) |};
  {| arg_name := "u32"; arg_kind := halide_argument_kind_input_scalar; arg_dimensions := 0;
     arg_type := mk_type halide_type_uint 32;
     arg_def := (Some (make_scalar (ty_int uint32_t) 320));
     arg_min := (Some (make_scalar (ty_int uint32_t) 32));
     arg_max := (Some (make_scalar (ty_int uint32_t) 2550)) |};
  {| arg_name := "u64"; arg_kind := halide_argument_kind_input_scalar; arg_dimensions := 0;
     arg_type := mk_type halide_type_uint 64;
     arg_def := (Some (make_scalar (ty_int uint64_t) 640));
     arg_min := (Some (make_scalar (ty_int uint64_t) 64));
     arg_max := (Some (make_scalar (ty_int uint64_t) 2550)) |};
  {| arg_name := "f32"; arg_kind := halide_argument_kind_input_scalar; arg_dimensions := 0;
     arg_type := mk_type halide_type_float 32;
     arg_def := (Some (make_scalar ty_float 1107328605)) (* 32.1234f *);
     arg_min := (Some (make_scalar ty_float 3309830649)) (* -3200.1234f *);
     arg_max := (Some (make_scalar ty_float 1162347001)) (* 3200.1234f *) |};
  {| arg_name := "f64"; arg_kind := halide_argument_kind_input_scalar; arg_dimensions := 0;
     arg_type := mk_type halide_type_float 64;
     arg_def := (Some (make_scalar ty_double 4634221608750284800)) (* 64.25 *);
     arg_min := (Some (make_scalar ty_double 13887131200851542016)) (* -6400.25 *);
     arg_max := (Some (make_scalar ty_double 4663759163996766208)) (* 6400.25 *) |};
  {| arg_name := "h"; arg_kind := halide_argument_kind_input_scalar; arg_dimensions := 0;
     arg_type := mk_type halide_type_handle 64;
     arg_def := None;
     arg_min := None;
     arg_max := None |};
  {| arg_name := "input_not_nod"; arg_kind := halide_argument_kind_input_buffer; arg_dimensions := 3;
     arg_type := mk_type halide_type_uint 8;
     arg_def := None;
     arg_min := None;
     arg_max := None |};
  {| arg_name := "input_nod"; arg_kind := halide_argument_kind_input_buffer; arg_dimensions := 3;
     arg_type := mk_type halide_type_uint 8;
     arg_def := None;
     arg_min := None;
     arg_max := None |};
  {| arg_name := "input_not"; arg_kind := halide_argument_kind_input_buffer; arg_dimensions := 3;
     arg_type := mk_type halide_type_uint 8;
     arg_def := None;
     arg_min := None;
     arg_max := None |};
  {| arg_name := "array_input_0"; arg_kind := halide_argument_kind_input_buffer; arg_dimensions := 3;
     arg_type := mk_type halide_type_uint 8;
     arg_def := None;
     arg_min := None;
     arg_max := None |};
  {| arg_name := "array_input_1"; arg_kind := halide_argument_kind_input_buffer; arg_dimensions := 3;
     arg_type := mk_type halide_type_uint 8;
     arg_def := None;
     arg_min := None;
     arg_max := None |};
  {| arg_name := "array2_input_0"; arg_kind := halide_argument_kind_input_buffer; arg_dimensions := 3;
     arg_type := mk_type halide_type_uint 8;
     arg_def := None;
     arg_min := None;
     arg_max := None |};
  {| arg_name := "array2_input_1"; arg_kind := halide_argument_kind_input_buffer; arg_dimensions := 3;
     arg_type := mk_type halide_type_uint 8;
     arg_def := None;
     arg_min := None;
     arg_max := None |};
  {| arg_name := "array_i8_0"; arg_kind := halide_argument_kind_input_scalar; arg_dimensions := 0;
     arg_type := mk_type halide_type_int 8;
     arg_def := (Some (make_scalar (ty_int int8_t) 0));
     arg_min := None;
     arg_max := None |};
  {| arg_name := "array_i8_1"; arg_kind := halide_argument_kind_input_scalar; arg_dimensions := 0;
     arg_type := mk_type halide_type_int 8;
     arg_def := (Some (make_scalar (ty_int int8_t) 0));
     arg_min := None;
     arg_max := None |};
  {| arg_name := "array2_i8_0"; arg_kind := halide_argument_kind_input_scalar; arg_dimensions := 0;
     arg_type := mk_type halide_type_int 8;
     arg_def := (Some (make_scalar (ty_int int8_t) 0));
     arg_min := None;
     arg_max := None |};
  {| arg_name := "array2_i8_1"; arg_kind := halide_argument_kind_input_scalar; arg_dimensions := 0;
     arg_type := mk_type halide_type_int 8;
     arg_def := (Some (make_scalar (ty_int int8_t) 0));
     arg_min := None;
     arg_max := None |};
  {| arg_name := "array_i16_0"; arg_kind := halide_argument_kind_input_scalar; arg_dimensions := 0;
     arg_type := mk_type halide_type_int 16;
     arg_def := (Some (make_scalar (ty_int int16_t) 16));
     arg_min := None;
     arg_max := None |};
  {| arg_name := "array_i16_1"; arg_kind := halide_argument_kind_input_scalar; arg_dimensions := 0;
     arg_type := mk_type halide_type_int 16;
     arg_def := (Some (make_scalar (ty_int int16_t) 16));
     arg_min := None;
     arg_max := None |};
  {| arg_name := "array2_i16_0"; arg_kind := halide_argument_kind_input_scalar; arg_dimensions := 0;
     arg_type := mk_type halide_type_int 16;
     arg_def := (Some (make_scalar (ty_int int16_t) 16));
     arg_min := None;
     arg_max := None |};
  {| arg_name := "array2_i16_1"; arg_kind := halide_argument_kind_input_scalar; arg_dimensions := 0;
     arg_type := mk_type halide_type_int 16;
     arg_def := (Some (make_scalar (ty_int int16_t) 16));
     arg_min := None;
     arg_max := None |};
  {| arg_name := "array_i32_0"; arg_kind := halide_argument_kind_input_scalar; arg_dimensions := 0;
     arg_type := mk_type halide_type_int 32;
     arg_def := (Some (make_scalar (ty_int int32_t) 32));
     arg_min := (Some (make_scalar (ty_int int32_t) (-32)));
     arg_max := (Some (make_scalar (ty_int int32_t) 127)) |};
  {| arg_name := "array_i32_1"; arg_kind := halide_argument_kind_input_scalar; arg_dimensions := 0;
     arg_type := mk_type halide_type_int 32;
     arg_def := (Some (make_scalar (ty_int int32_t) 32));
     arg_min := (Some (make_scalar (ty_int int32_t) (-32)));
     arg_max := (Some (make_scalar (ty_int int32_t) 127)) |};
  {| arg_name := "array2_i32_0"; arg_kind := halide_argument_kind_input_scalar; arg_dimensions := 0;
     arg_type := mk_type halide_type_int 32;
     arg_def := (Some (make_scalar (ty_int int32_t) 32));
     arg_min := (Some (make_scalar (ty_int int32_t) (-32)));
     arg_max := (Some (make_scalar (ty_int int32_t) 127)) |};
  {| arg_name := "array2_i32_1"; arg_kind := halide_argument_kind_input_scalar; arg_dimensions := 0;
     arg_type := mk_type halide_type_int 32;
     arg_def := (Some (make_scalar (ty_int int32_t) 32));
     arg_min := (Some (make_scalar (ty_int int32_t) (-32)));
     arg_max := (Some (make_scalar (ty_int int32_t) 127)) |};
  {| arg_name := "array_h_0"; arg_kind := halide_argument_kind_input_scalar; arg_dimensions := 0;
     arg_type := mk_type halide_type_handle 64;
     arg_def := None;
     arg_min := None;
     arg_max := None |};
  {| arg_name := "array_h_1"; arg_kind := halide_argument_kind_input_scalar; arg_dimensions := 0;
     arg_type := mk_type halide_type_handle 64;
     arg_def := None;
     arg_min := None;
     arg_max := None |};
  {| arg_name := "output.0"; arg_kind := halide_argument_kind_output_buffer; arg_dimensions := 3;
     arg_type := mk_type halide_type_float 32;
     arg_def := None;
     arg_min := None;
     arg_max := None |};
  {| arg_name := "output.1"; arg_kind := halide_argument_kind_output_buffer; arg_dimensions := 3;
     arg_type := mk_type halide_type_float 32;
     arg_def := None;
     arg_min := None;
     arg_max := None |};
  {| arg_name := "output_scalar"; arg_kind := halide_argument_kind_output_buffer; arg_dimensions := 0;
     arg_type := mk_type halide_type_float 32;
     arg_def := None;
     arg_min := None;
     arg_max := None |};
  {| arg_name := "array_outputs_0"; arg_kind := halide_argument_kind_output_buffer; arg_dimensions := 3;
     arg_type := mk_type halide_type_float 32;
     arg_def := None;
     arg_min := None;
     arg_max := None |};
  {| arg_name := "array_outputs_1"; arg_kind := halide_argument_kind_output_buffer; arg_dimensions := 3;
     arg_type := mk_type halide_type_float 32;
     arg_def := None;
     arg_min := None;
     arg_max := None |};
  {| arg_name := "array_outputs2_0"; arg_kind := halide_argument_kind_output_buffer; arg_dimensions := 3;
     arg_type := mk_type halide_type_float 32;
     arg_def := None;
     arg_min := None;
     arg_max := None |};
  {| arg_name := "array_outputs2_1"; arg_kind := halide_argument_kind_output_buffer; arg_dimensions := 3;
     arg_type := mk_type halide_type_float 32;
     arg_def := None;
     arg_min := None;
     arg_max := None |};
  {| arg_name := "array_outputs3_0"; arg_kind := halide_argument_kind_output_buffer; arg_dimensions := 0;
     arg_type := mk_type halide_type_float 32;
     arg_def := None;
     arg_min := None;
     arg_max := None |};
  {| arg_name := "array_outputs3_1"; arg_kind := halide_argument_kind_output_buffer; arg_dimensions := 0;
     arg_type := mk_type halide_type_float 32;
     arg_def := None;
     arg_min := None;
     arg_max := None |}
].

(** The loop of [check_metadata] over [md.arguments[i]], [i] from [i0] up:
    [n] iterations, each against the next expected row. *)
Fixpoint match_arguments (n : nat)
  (expected actual : list halide_filter_argument_t) : bool :=
  match n with
  | O => true
  | S n' =>
      match expected, actual with
      | e :: expected', a :: actual' =>
          match_argument e a && match_arguments n' expected' actual'
      | _, _ => false
      end
  end.

(** [check_metadata]: [true] when the function returns, [false] when one
    of its checks exits. *)
Definition check_metadata (md : halide_filter_metadata_t)
  (expect_ucon_at_0 : bool) : bool :=
  (strstr (target md) "x86" || strstr (target md) "powerpc"
   || strstr (target md) "arm")
  && (let kExpectedArgumentCount := Z.of_nat (length kExpectedArguments) in
      (kExpectedArgumentCount - (if expect_ucon_at_0 then 0 else 1)
       =? num_arguments md)
      && match_arguments (Z.to_nat (num_arguments md))
           (drop (if expect_ucon_at_0 then 0 else 1)%nat kExpectedArguments)
           (arguments md)).

(** ** [GeneratorInput<T>] and [GeneratorOutput<T>] *)

(** [Internal::Parameter] (InternalParameter.h, outside the header): what the
    header sets of one and what a metadata row shows of it.  [scalar] is
    the stored value of a scalar parameter, zero until [set_scalar]. *)
Module InternalParameter.

Record t : Type := mk {
  type : halide_type_t;
  is_buffer : bool;
  dimensions : Z;
  name : string;
  scalar : Z;
  min_value : option Z;
  max_value : option Z
}.

Definition set_scalar (v : Z) (p : t) : t :=
  {| type := type p; is_buffer := is_buffer p; dimensions := dimensions p;
     name := name p; scalar := v;
     min_value := min_value p; max_value := max_value p |}.

Definition set_min_value (e : Z) (p : t) : t :=
  {| type := type p; is_buffer := is_buffer p; dimensions := dimensions p;
     name := name p; scalar := scalar p;
     min_value := Some e; max_value := max_value p |}.

Definition set_max_value (e : Z) (p : t) : t :=
  {| type := type p; is_buffer := is_buffer p; dimensions := dimensions p;
     name := name p; scalar := scalar p;
     min_value := min_value p; max_value := Some e |}.

End InternalParameter.

(** [GeneratorInput<T>] with its base [GeneratorInputBase].  [TBase] is the
    element type, [None] for [Func].  A value of [TBase] is carried as a
    number: the value of an integer, 0 or 1 for a bool, the bit pattern of
    a [float] or [double], the address of a pointer.  [min_] and [max_] are
    [Expr]s that are either undefined ([None]) or the constant the
    constructor made of its argument. *)
Module GeneratorInput.

Record t : Type := mk {
  base : GIOBase.t;
  parameters_ : list InternalParameter.t;
  TBase : option scalar_type;
  def_ : Z;
  min_ : option Z;
  max_ : option Z
}.

(** [ArraySizeArg(1)] of the constructors of a [T] that is no array. *)
Definition one : ArgWithParam.t Z := ArgWithParam.of_value 1.

(** The constructors with default, minimum and maximum: of a scalar
    ([array_size = one], [is_array = false]), of a [T[]] with the given
    [array_size], of a [T[N]] with [ArraySizeArg(N)]. *)
Definition with_def_min_max (T : scalar_type) (array_size : ArgWithParam.t Z)
  (is_array : bool) (n : string) (def min max : Z) : t :=
  {| base := GIOBase.make array_size n Scalar
               [ArgWithParam.of_value (type_of T)] (ArgWithParam.of_value 0)
               is_array;
     parameters_ := []; TBase := Some T;
     def_ := def; min_ := Some min; max_ := Some max |}.

(** The constructors with a default only: [min_] and [max_] stay
    default-constructed, that is undefined. *)
Definition with_def (T : scalar_type) (array_size : ArgWithParam.t Z)
  (is_array : bool) (n : string) (def : Z) : t :=
  {| base := GIOBase.make array_size n Scalar
               [ArgWithParam.of_value (type_of T)] (ArgWithParam.of_value 0)
               is_array;
     parameters_ := []; TBase := Some T;
     def_ := def; min_ := None; max_ := None |}.

(** The constructors with a name only: they delegate with
    [static_cast<T>(0)] as the default. *)
Definition with_name (T : scalar_type) (array_size : ArgWithParam.t Z)
  (is_array : bool) (n : string) : t :=
  with_def T array_size is_array n 0.

(** The constructors of a [Func] input: name, type, dimensions. *)
Definition of_func (array_size : ArgWithParam.t Z) (is_array : bool)
  (n : string) (ty : ArgWithParam.t halide_type_t) (d : ArgWithParam.t Z) : t :=
  {| base := GIOBase.make array_size n Function [ty] d is_array;
     parameters_ := []; TBase := None;
     def_ := 0; min_ := None; max_ := None |}.

Definition with_parameters (g : t) (ps : list InternalParameter.t) : t :=
  {| base := base g; parameters_ := ps; TBase := TBase g;
     def_ := def_ g; min_ := min_ g; max_ := max_ g |}.

(** [set_def_min_max_impl]: for a scalar element type every parameter gets
    the default, and the bounds that are defined; for [Func], nothing. *)
Definition set_def_min_max (g : t) : t :=
  match TBase g with
  | Some _ =>
      with_parameters g
        (map (fun p =>
                let p := InternalParameter.set_scalar (def_ g) p in
                let p := match min_ g with
                         | Some e => InternalParameter.set_min_value e p
                         | None => p
                         end in
                match max_ g with
                | Some e => InternalParameter.set_max_value e p
                | None => p
                end)
             (parameters_ g))
  | None => g
  end.

Section Reading.
Context (ints : string -> option Z) (types : string -> option halide_type_t).

(** Modelled from the spec: [init_parameters] and [init_internals],
    declared in the header and defined outside it.  One parameter per
    element, named by [array_name], of the descriptor's type, kind and
    dimensions; then [set_def_min_max].  Every constructor of an input takes
    one type, so [type()] succeeds; [Handle] fills the other branch. *)
Definition init_parameters (g : t) : t :=
  with_parameters g
    (map (fun i =>
            {| InternalParameter.type :=
                 match GIOBase.type types (base g) with
                 | Ok ty => ty
                 | Err _ => Handle
                 end;
               InternalParameter.is_buffer :=
                 bool_decide (GIOBase.kind (base g) = Function);
               InternalParameter.dimensions := GIOBase.dimensions ints (base g);
               InternalParameter.name := GIOBase.array_name i (base g);
               InternalParameter.scalar := 0;
               InternalParameter.min_value := None;
               InternalParameter.max_value := None |})
         (seq 0 (Z.to_nat (GIOBase.array_size ints (base g))))).

Definition init_internals (g : t) : t := set_def_min_max (init_parameters g).

End Reading.
End GeneratorInput.

(** [GeneratorOutput<T>]: every accessor of it reads [funcs()], so the
    descriptor is of kind [Function] in every case. *)
Module GeneratorOutput.

(** The constructors of a scalar output of type [T], of a [T[]], of a
    [T[N]]: one type, no dimension. *)
Definition of_scalar (T : scalar_type) (array_size : ArgWithParam.t Z)
  (is_array : bool) (n : string) : GIOBase.t :=
  GIOBase.make array_size n Function [ArgWithParam.of_value (type_of T)]
    (ArgWithParam.of_value 0) is_array.

(** The constructors of a [Func] output: name, type or types (a tuple),
    dimensions. *)
Definition of_func (array_size : ArgWithParam.t Z) (is_array : bool)
  (n : string) (t : list (ArgWithParam.t halide_type_t))
  (d : ArgWithParam.t Z) : GIOBase.t :=
  GIOBase.make array_size n Function t d is_array.

End GeneratorOutput.

(** ** The metadata emitter *)

(** What the emitter reads of a generator instance: whether the target
    asks for the user context argument, the current values of the integer
    and type parameters, and the declared inputs and outputs in declaration
    order. *)
Record Declarations : Type := mk_decls {
  has_user_context : bool;
  int_params : string -> option Z;
  type_params : string -> option halide_type_t;
  filter_inputs : list GeneratorInput.t;
  filter_outputs : list GIOBase.t;
  target_string : string;
  function_name : string
}.

(** The raw scalar of a value of type [ty]. *)
Definition scalar_of (ty : halide_type_t) (v : Z) : halide_scalar_value_t :=
  mk_scalar (v mod 2 ^ type_bits ty).

(** Modelled from the spec: the emitter is outside the header and outside
    src.  The row of the implicit context argument, as the first row of
    [kExpectedArguments] has it. *)
Definition user_context_row : halide_filter_argument_t :=
  {| arg_name := "__user_context";
     arg_kind := halide_argument_kind_input_scalar;
     arg_dimensions := 0; arg_type := Handle;
     arg_def := None; arg_min := None; arg_max := None |}.

(** Modelled from the spec: the row of one input element.  Kind,
    dimensions and type are the parameter's; [min] and [max] are present
    when the parameter has them.  [default] is absent for a buffer and for a
    handle and otherwise the stored scalar, which [set_def_min_max] always
    sets: this is what the expected rows of the test show ([h], [array_h_0]
    without a default, [array_i8_0] with the default 0). *)
Definition input_row (p : InternalParameter.t) : halide_filter_argument_t :=
  let ty := InternalParameter.type p in
  {| arg_name := InternalParameter.name p;
     arg_kind := if InternalParameter.is_buffer p
                 then halide_argument_kind_input_buffer
                 else halide_argument_kind_input_scalar;
     arg_dimensions := InternalParameter.dimensions p;
     arg_type := ty;
     arg_def := if InternalParameter.is_buffer p
                   || bool_decide (code ty = halide_type_handle)
                then None else Some (scalar_of ty (InternalParameter.scalar p));
     arg_min := if InternalParameter.is_buffer p then None
                else scalar_of ty <$> InternalParameter.min_value p;
     arg_max := if InternalParameter.is_buffer p then None
                else scalar_of ty <$> InternalParameter.max_value p |}.

Section Emitter.
Context (d : Declarations).

(** Modelled from the spec: the rows of one input, its elements in
    ascending index order. *)
Definition input_rows (g : GeneratorInput.t) : list halide_filter_argument_t :=
  map input_row
    (GeneratorInput.parameters_
       (GeneratorInput.init_internals (int_params d) (type_params d) g)).

(** Modelled from the spec: the rows of one output, its elements in
    ascending index order; an element with several types (a tuple) has one
    row per type, named [name.0], [name.1], ... as the rows [output.0] and
    [output.1] of the test are. *)
Definition output_element_rows (g : GIOBase.t) (i : nat)
  : list halide_filter_argument_t :=
  let tys := GIOBase.declared_types (type_params d) g in
  imap (fun j ty =>
          {| arg_name :=
               if (1 <? Z.of_nat (length tys))
               then GIOBase.array_name i g +:+ "." +:+ print_N (N.of_nat j)
               else GIOBase.array_name i g;
             arg_kind := halide_argument_kind_output_buffer;
             arg_dimensions := GIOBase.dimensions (int_params d) g;
             arg_type := ty;
             arg_def := None; arg_min := None; arg_max := None |})
       tys.

(** Modelled from the spec: the rows of one output, element after
    element. *)
Definition output_rows (g : GIOBase.t) : list halide_filter_argument_t :=
  flat_map (output_element_rows g)
    (seq 0 (Z.to_nat (GIOBase.array_size (int_params d) g))).

(** Modelled from the spec: the argument table.  The context argument
    first when there is one, then the inputs in declaration order, then the
    outputs in declaration order. *)
Definition metadata_arguments : list halide_filter_argument_t :=
  (if has_user_context d then [user_context_row] else [])
  ++ flat_map input_rows (filter_inputs d)
  ++ flat_map output_rows (filter_outputs d).

(** The number of rows of one input and of one output. *)
Definition input_row_count (g : GeneratorInput.t) : nat :=
  Z.to_nat (GIOBase.array_size (int_params d) (GeneratorInput.base g)).

Definition output_row_count (g : GIOBase.t) : nat :=
  (Z.to_nat (GIOBase.array_size (int_params d) g) * length (GIOBase.types_ g))%nat.

(** The number of rows in front of the rows of the [k]-th input, and of
    the [k]-th output. *)
Definition input_offset (k : nat) : nat :=
  ((if has_user_context d then 1 else 0)
   + sum_list (map input_row_count (take k (filter_inputs d))))%nat.

Definition output_offset (k : nat) : nat :=
  (input_offset (length (filter_inputs d))
   + sum_list (map output_row_count (take k (filter_outputs d))))%nat.

End Emitter.

(** ** [GeneratorBase] and the class template [Generator<T>] *)

(** The members of [GeneratorBase] that this header reads or writes, and
    [body] for everything else of the object: the [target] parameter, the
    vectors of parameters, inputs and outputs, and the members the derived
    class [T] declares.  The methods of [T] and the methods of
    [GeneratorBase] that are defined outside the header work on [body]. *)
Module GeneratorBase.

Record t (Body : Type) : Type := mk {
  build_pipeline_called : bool;
  generate_called : bool;
  schedule_called : bool;
  wrapper_class_name : string;
  body : Body
}.
Arguments mk {Body} _ _ _ _ _.
Arguments build_pipeline_called {Body} _.
Arguments generate_called {Body} _.
Arguments schedule_called {Body} _.
Arguments wrapper_class_name {Body} _.
Arguments body {Body} _.

Section Methods.
Context {Body : Type}.

(** The in-class initialisers: no flag is set, no wrapper name. *)
Definition make (b : Body) : t Body :=
  {| build_pipeline_called := false; generate_called := false;
     schedule_called := false; wrapper_class_name := EmptyString; body := b |}.

Definition on_body {A} (m : M Body A) : M (t Body) A :=
  fun g => let '(r, b) := m (body g) in
           (r, {| build_pipeline_called := build_pipeline_called g;
                  generate_called := generate_called g;
                  schedule_called := schedule_called g;
                  wrapper_class_name := wrapper_class_name g;
                  body := b |}).

Definition set_build_pipeline_called (v : bool) : M (t Body) unit :=
  fun g => (Ok tt, {| build_pipeline_called := v;
                      generate_called := generate_called g;
                      schedule_called := schedule_called g;
                      wrapper_class_name := wrapper_class_name g;
                      body := body g |}).

Definition set_generate_called (v : bool) : M (t Body) unit :=
  fun g => (Ok tt, {| build_pipeline_called := build_pipeline_called g;
                      generate_called := v;
                      schedule_called := schedule_called g;
                      wrapper_class_name := wrapper_class_name g;
                      body := body g |}).

Definition set_schedule_called (v : bool) : M (t Body) unit :=
  fun g => (Ok tt, {| build_pipeline_called := build_pipeline_called g;
                      generate_called := generate_called g;
                      schedule_called := v;
                      wrapper_class_name := wrapper_class_name g;
                      body := body g |}).

Definition set_wrapper_class_name (n : string) : M (t Body) unit :=
  g <- get ;;
  internal_assert (bool_decide (wrapper_class_name g = EmptyString))
                  "wrapper_class_name.empty()" ;;
  put {| build_pipeline_called := build_pipeline_called g;
         generate_called := generate_called g;
         schedule_called := schedule_called g;
         wrapper_class_name := n;
         body := body g |}.

End Methods.
End GeneratorBase.

Module Generator.
Section Template.
Context {Body Pipeline : Type}.

(** What [T] defines, which the header detects at compile time: a
    [build()] method (a [schedule()] beside it is a [static_assert]
    failure), or [generate()] and [schedule()]. *)
Inductive methods : Type :=
| WithBuild (build : M Body Pipeline)
| WithGenerate (generate schedule : M Body unit).

(** [GeneratorBase::pre_build], [pre_generate] and [produce_pipeline],
    defined outside the header. *)
Context (pre_build pre_generate : M Body unit) (produce_pipeline : M Body Pipeline).

Import GeneratorBase.

Definition call_generate_impl (T : methods) : M (t Body) unit :=
  match T with
  | WithBuild _ => user_error "Unimplemented"
  | WithGenerate generate _ =>
      g <- get ;;
      user_assert (negb (generate_called g))
        "You may not call the generate() method more than once per instance." ;;
      on_body pre_generate ;;
      on_body generate ;;
      set_generate_called true
  end.

Definition call_schedule_impl (T : methods) : M (t Body) unit :=
  match T with
  | WithBuild _ => user_error "Unimplemented"
  | WithGenerate _ schedule =>
      g <- get ;;
      user_assert (generate_called g)
        "You must call the generate() method before calling the schedule() method." ;;
      user_assert (negb (schedule_called g))
        "You may not call the schedule() method more than once per instance." ;;
      on_body schedule ;;
      set_schedule_called true
  end.

Definition build_pipeline_impl (T : methods) : M (t Body) Pipeline :=
  match T with
  | WithBuild build =>
      g <- get ;;
      internal_assert (negb (build_pipeline_called g)) "!build_pipeline_called" ;;
      on_body pre_build ;;
      p <- on_body build ;;
      set_build_pipeline_called true ;;
      ret p
  | WithGenerate _ _ =>
      g <- get ;;
      internal_assert (negb (build_pipeline_called g)) "!build_pipeline_called" ;;
      call_generate_impl T ;;
      call_schedule_impl T ;;
      set_build_pipeline_called true ;;
      on_body produce_pipeline
  end.

Definition build_pipeline := build_pipeline_impl.
Definition call_generate := call_generate_impl.
Definition call_schedule := call_schedule_impl.

End Template.
End Generator.

(** The names of [kExpectedArguments], in the order of the table. *)
Definition expected_argument_names : list string :=
  [
   "__user_context"; "input"; "b"; "i8"; "i16"; "i32"; "i64"; "u8";
   "u16"; "u32"; "u64"; "f32"; "f64"; "h"; "input_not_nod"; "input_nod";
   "input_not"; "array_input_0"; "array_input_1"; "array2_input_0";
   "array2_input_1"; "array_i8_0"; "array_i8_1"; "array2_i8_0";
   "array2_i8_1"; "array_i16_0"; "array_i16_1"; "array2_i16_0";
   "array2_i16_1"; "array_i32_0"; "array_i32_1"; "array2_i32_0";
   "array2_i32_1"; "array_h_0"; "array_h_1"; "output.0"; "output.1";
   "output_scalar"; "array_outputs_0"; "array_outputs_1";
   "array_outputs2_0"; "array_outputs2_1"; "array_outputs3_0";
   "array_outputs3_1"
  ].

(** ** Emitting the metadata of an instance *)

(** Modelled from the spec: the state [Built] of an instance, reached by
    [build()] in the one protocol and by [schedule()] in the other. *)
Definition built {Body} (g : GeneratorBase.t Body) : bool :=
  GeneratorBase.build_pipeline_called g || GeneratorBase.schedule_called g.

(** Modelled from the spec: [emit_metadata], outside the header and outside
    src.  It fails with [EmitError::NotBuilt] unless the instance is built;
    the record holds the argument table, its length, the target string and
    the name. *)
Definition emit_metadata (g : GeneratorBase.t Declarations)
  : outcome halide_filter_metadata_t :=
  if built g then
    let d := GeneratorBase.body g in
    Ok {| num_arguments := Z.of_nat (length (metadata_arguments d));
          arguments := metadata_arguments d;
          target := target_string d;
          md_name := function_name d |}
  else Err (UserError "EmitError::NotBuilt").

(** The generator of the metadata test (its source is outside src): the
    declarations that the call of [metadata_tester] in
    test/generator/metadata_tester_aottest.cpp and the rows of
    [kExpectedArguments] correspond to, the sizes of the [T[]] members
    coming from a parameter [array_count] of value 2.  Floating-point
    defaults and bounds are given by their bit patterns. *)
Definition array_count : ArgWithParam.t Z := ArgWithParam.mk 2 (Some "array_count").
Definition fixed (n : Z) : ArgWithParam.t Z := ArgWithParam.of_value n.
Definition u8x3 (array_size : ArgWithParam.t Z) (is_array : bool) (n : string)
  : GeneratorInput.t :=
  GeneratorInput.of_func array_size is_array n
    (ArgWithParam.of_value (UInt 8)) (fixed 3).

Definition metadata_tester_inputs : list GeneratorInput.t := [
  u8x3 GeneratorInput.one false "input";
  GeneratorInput.with_def ty_bool GeneratorInput.one false "b" 1;
  GeneratorInput.with_def_min_max (ty_int int8_t) GeneratorInput.one false "i8" 8 (-8) 127;
  GeneratorInput.with_def_min_max (ty_int int16_t) GeneratorInput.one false "i16" 16 (-16) 127;
  GeneratorInput.with_def_min_max (ty_int int32_t) GeneratorInput.one false "i32" 32 (-32) 127;
  GeneratorInput.with_def_min_max (ty_int int64_t) GeneratorInput.one false "i64" 64 (-64) 127;
  GeneratorInput.with_def_min_max (ty_int uint8_t) GeneratorInput.one false "u8" 80 8 255;
  GeneratorInput.with_def_min_max (ty_int uint16_t) GeneratorInput.one false "u16" 160 16 2550;
  GeneratorInput.with_def_min_max (ty_int uint32_t) GeneratorInput.one false "u32" 320 32 2550;
  GeneratorInput.with_def_min_max (ty_int uint64_t) GeneratorInput.one false "u64" 640 64 2550;
  GeneratorInput.with_def_min_max ty_float GeneratorInput.one false "f32"
    1107328605 3309830649 1162347001;
  GeneratorInput.with_def_min_max ty_double GeneratorInput.one false "f64"
    4634221608750284800 13887131200851542016 4663759163996766208;
  GeneratorInput.with_def ty_handle GeneratorInput.one false "h" 0;
  u8x3 GeneratorInput.one false "input_not_nod";
  u8x3 GeneratorInput.one false "input_nod";
  u8x3 GeneratorInput.one false "input_not";
  u8x3 array_count true "array_input";
  u8x3 (fixed 2) true "array2_input";
  GeneratorInput.with_name (ty_int int8_t) array_count true "array_i8";
  GeneratorInput.with_name (ty_int int8_t) (fixed 2) true "array2_i8";
  GeneratorInput.with_def (ty_int int16_t) array_count true "array_i16" 16;
  GeneratorInput.with_def (ty_int int16_t) (fixed 2) true "array2_i16" 16;
  GeneratorInput.with_def_min_max (ty_int int32_t) array_count true "array_i32" 32 (-32) 127;
  GeneratorInput.with_def_min_max (ty_int int32_t) (fixed 2) true "array2_i32" 32 (-32) 127;
  GeneratorInput.with_def ty_handle array_count true "array_h" 0
].

Definition metadata_tester_outputs : list GIOBase.t := [
  GeneratorOutput.of_func GeneratorInput.one false "output"
    [ArgWithParam.of_value (Float 32); ArgWithParam.of_value (Float 32)] (fixed 3);
  GeneratorOutput.of_scalar ty_float GeneratorInput.one false "output_scalar";
  GeneratorOutput.of_func array_count true "array_outputs"
    [ArgWithParam.of_value (Float 32)] (fixed 3);
  GeneratorOutput.of_func (fixed 2) true "array_outputs2"
    [ArgWithParam.of_value (Float 32)] (fixed 3);
  GeneratorOutput.of_scalar ty_float (fixed 2) true "array_outputs3"
].

Definition metadata_tester (user_context : bool) : Declarations :=
  {| has_user_context := user_context;
     int_params := array_count_is 2;
     type_params := fun _ => None;
     filter_inputs := metadata_tester_inputs;
     filter_outputs := metadata_tester_outputs;
     target_string := "x86-64-sse41";
     function_name :=
       if user_context then "metadata_tester_ucon" else "metadata_tester" |}.

(** The generator of the spec's ordering example: a scalar input
    [count : int32], an array input [pixels[2]] of [uint8] buffers with
    three dimensions, a scalar output [sum : float32]. *)
Definition ordering_example : Declarations :=
  {| has_user_context := false;
     int_params := fun _ => None;
     type_params := fun _ => None;
     filter_inputs :=
       [GeneratorInput.with_name (ty_int int32_t) GeneratorInput.one false "count";
        u8x3 (fixed 2) true "pixels"];
     filter_outputs :=
       [GeneratorOutput.of_scalar ty_float GeneratorInput.one false "sum"];
     target_string := "host";
     function_name := "ordering_example" |}.

(** ** [SimpleGeneratorFactory] and [GeneratorRegistry] *)

(** [std::map<std::string, std::string>], the textual overrides. *)
Abbreviation GeneratorParamValues := (gmap string string).

(** [GeneratorFactory]: the interface has the one method [create]. *)
Definition GeneratorFactory (Body : Type) : Type :=
  GeneratorParamValues -> outcome (GeneratorBase.t Body).

Module SimpleGeneratorFactory.
Section WithBody.
Context {Body : Type}.

(** [GeneratorBase::set_generator_param_values], defined outside the
    header. *)
Context (set_generator_param_values :
           GeneratorParamValues -> M (GeneratorBase.t Body) unit).

(** [GeneratorCreateFunc]: a function pointer, possibly null, to a function
    returning a [unique_ptr], possibly null. *)
Definition GeneratorCreateFunc : Type :=
  option (unit -> option (GeneratorBase.t Body)).

Record t : Type := mk {
  create_func : unit -> option (GeneratorBase.t Body);
  wrapper_class_name : string
}.

Definition make (create_func : GeneratorCreateFunc) (wrapper_class_name : string)
  : outcome t :=
  match create_func with
  | Some f => Ok {| create_func := f; wrapper_class_name := wrapper_class_name |}
  | None => Err (InternalError "create_func != nullptr")
  end.

Definition create (f : t) : GeneratorFactory Body :=
  fun params =>
    match create_func f tt with
    | None => Err (InternalError "g.get() != nullptr")
    | Some g =>
        match (GeneratorBase.set_wrapper_class_name (wrapper_class_name f) ;;
               set_generator_param_values params) g with
        | (Ok _, g') => Ok g'
        | (Err e, _) => Err e
        end
    end.

End WithBody.
End SimpleGeneratorFactory.

(** Modelled from the spec: the methods of [GeneratorRegistry] are declared
    in the header and defined outside it.  A name-to-factory map;
    [register_factory] fails with [RegistryError::DuplicateName] when the
    name is present, [create] fails with [RegistryError::NotFound] when it
    is absent and otherwise runs the factory found.  The mutex is not
    modelled: every method here is one critical section. *)
Module GeneratorRegistry.
Section WithBody.
Context {Body : Type}.

Record t : Type := mk { factories : gmap string (GeneratorFactory Body) }.

Definition empty : t := {| factories := ∅ |}.

Definition register_factory (name : string) (factory : GeneratorFactory Body)
  : M t unit :=
  r <- get ;;
  user_assert (bool_decide (factories r !! name = None))
              "RegistryError::DuplicateName" ;;
  put {| factories := <[name := factory]> (factories r) |}.

Definition unregister_factory (name : string) : M t unit :=
  r <- get ;;
  put {| factories := delete name (factories r) |}.

Definition enumerate (r : t) : list string :=
  map fst (map_to_list (factories r)).

Definition create (name : string) (params : GeneratorParamValues) (r : t)
  : outcome (GeneratorBase.t Body) :=
  match factories r !! name with
  | Some factory => factory params
  | None => Err (UserError "RegistryError::NotFound")
  end.

End WithBody.
End GeneratorRegistry.

(** A generator with [generate()] and [schedule()] whose body is the log
    of the methods that ran on it, and one with [build()]. *)
Definition logging (name : string) : M (list string) unit :=
  fun log => (Ok tt, (log ++ [name])%list).

Definition phased_example : @Generator.methods (list string) string :=
  Generator.WithGenerate (logging "generate") (logging "schedule").

Definition one_shot_example : @Generator.methods (list string) string :=
  Generator.WithBuild (fun log => (Ok "pipeline", (log ++ ["build"])%list)).

(** A registry entry for the examples: the body of an instance is the list
    of override maps applied to it, and [create_func] makes an instance
    with an empty one. *)
Definition recording_overrides (params : GeneratorParamValues)
  : M (GeneratorBase.t (list GeneratorParamValues)) unit :=
  GeneratorBase.on_body (fun applied => (Ok tt, (applied ++ [params])%list)).

Definition wraptest_factory
  : @SimpleGeneratorFactory.t (list GeneratorParamValues) :=
  SimpleGeneratorFactory.mk (fun _ => Some (GeneratorBase.make []))
                            "WrapNS1::WrapNS2::Wrapper".

(** ** The objects a program can hold *)

(** A [GeneratorParam_Arithmetic<T>] as a program can have one: made by the
    constructor and then changed through [set] and [set_from_string] only
    (the members are private), whether those calls succeed or fail. *)
Inductive constructed {T : Type} {ord : Ordered T} (io : Streamed T)
  : GeneratorParam_Arithmetic.t T -> Prop :=
| constructed_make (name : string) (value min max : T) p :
    GeneratorParam_Arithmetic.make name value min max = Ok p ->
    constructed io p
| constructed_set (v : T) p :
    constructed io p ->
    constructed io (snd (GeneratorParam_Arithmetic.set v p))
| constructed_set_from_string (s : string) p :
    constructed io p ->
    constructed io (snd (GeneratorParam_Arithmetic.set_from_string io s p)).

(** ** [to_func_or_expr_vector] *)

(** The two converting constructors of [FuncOrExpr], which are not
    explicit: the types a [FuncOrExpr] is made of implicitly. *)
Class IntoFuncOrExpr (T : Type) : Type := { into_FuncOrExpr : T -> FuncOrExpr }.

#[global] Instance Func_into_FuncOrExpr : IntoFuncOrExpr Func :=
  {| into_FuncOrExpr := OfFunc |}.
#[global] Instance Expr_into_FuncOrExpr : IntoFuncOrExpr Expr :=
  {| into_FuncOrExpr := OfExpr |}.

(** The overload for one value. *)
Definition to_func_or_expr_vector {T} `{IntoFuncOrExpr T} (t : T)
  : list FuncOrExpr :=
  [into_FuncOrExpr t].

(** The overload for a [std::vector<T>]: the loop of [push_back]. *)
Definition to_func_or_expr_vector_of_vector {T} `{IntoFuncOrExpr T}
  (v : list T) : list FuncOrExpr :=
  fold_left (fun r f => (r ++ [into_FuncOrExpr f])%list) v [].

(** ** The lifecycle flags of an instance *)

(** [build_pipeline_called], [generate_called], [schedule_called]. *)
Definition flags {Body} (g : GeneratorBase.t Body) : bool * bool * bool :=
  (GeneratorBase.build_pipeline_called g, GeneratorBase.generate_called g,
   GeneratorBase.schedule_called g).

(** A [generate()] that fails after it has started its work. *)
Definition failing_generate : M (list string) unit :=
  fun log => (Err (UserError "generate() failed"), (log ++ ["generate"])%list).

(** ** [GeneratorWrapper] *)

(** The wrapper holds a shared pointer [generator__] to an instance; the
    methods below are those of a wrapper whose pointer is set, which is what
    the protected constructor leaves, and they act on the instance pointed
    to.  (A default-constructed or moved-from wrapper holds a null pointer,
    and the methods dereference it without a check.) *)
Module GeneratorWrapper.
Section WithBody.
Context {Body Pipeline Realization Target LoopLevels : Type}.

(** Defined outside the header: [GeneratorBase::set_generator_param_values]
    with its two maps, [GeneratorBase::set_inputs], and
    [get_first_output().realize(..., get_target())].  Like [pre_generate],
    they work on the part of the instance that is not the three flags.
    [set_target] is [GeneratorParamImpl<Target>::set] on the member
    [target], an assignment. *)
Context (set_generator_param_values :
           GeneratorParamValues -> LoopLevels -> M Body unit)
        (set_inputs : list (list FuncOrExpr) -> M Body unit)
        (realize_first_output : M Body Realization)
        (set_target : Target -> Body -> Body)
        (pre_generate : M Body unit).

(** The virtual [call_generate] and [call_schedule] are those of the
    [Generator<T>] the instance is. *)
Context (T : @Generator.methods Body Pipeline).

Definition schedule (schedule_params : GeneratorParamValues)
  (schedule_params_looplevels : LoopLevels) : M (GeneratorBase.t Body) unit :=
  GeneratorBase.on_body
    (set_generator_param_values schedule_params schedule_params_looplevels) ;;
  Generator.call_schedule T.

Definition check_scheduled (m : string) : M (GeneratorBase.t Body) unit :=
  g <- get ;;
  user_assert (GeneratorBase.schedule_called g)
              "Must call schedule() before calling ".

Definition realize : M (GeneratorBase.t Body) Realization :=
  check_scheduled "realize" ;;
  GeneratorBase.on_body realize_first_output.

(** The protected constructor.  [generator_factory] is a [std::function]
    returning the new instance or failing (one that returns a null pointer
    is left out: the constructor dereferences what it gets without a
    check); a constructor that fails leaves no wrapper. *)
Definition make (context_target : Target)
  (generator_factory : GeneratorFactory Body)
  (generator_params : GeneratorParamValues)
  (inputs : list (list FuncOrExpr)) : outcome (GeneratorBase.t Body) :=
  match generator_factory generator_params with
  | Err e => Err e
  | Ok generator__ =>
      match (GeneratorBase.on_body
               (fun b => (Ok tt, set_target context_target b)) ;;
             GeneratorBase.on_body (set_inputs inputs) ;;
             Generator.call_generate pre_generate T) generator__ with
      | (Ok _, g) => Ok g
      | (Err e, _) => Err e
      end
  end.

End WithBody.
End GeneratorWrapper.

(** ** [RegisterGeneratorAndWrapper<WrapperClass>] *)

Module RegisterGeneratorAndWrapper.
Section WithBody.
Context {Body : Type}.
Context (set_generator_param_values :
           GeneratorParamValues -> M (GeneratorBase.t Body) unit).

(** The function-local statics of [init_create_func] and
    [init_wrapper_class_name], one pair per [WrapperClass].  Each is
    initialised by the first call of its function; [None] is a static that
    has not been initialised yet.  What is stored is a function pointer and
    a [const char *], either of which can be null (the inner [None]). *)
Record statics : Type := mk_statics {
  create_func_storage : option (@SimpleGeneratorFactory.GeneratorCreateFunc Body);
  init_wrapper_class_name_storage : option (option string)
}.

Definition uninitialised : statics :=
  {| create_func_storage := None; init_wrapper_class_name_storage := None |}.

Definition init_create_func (f : @SimpleGeneratorFactory.GeneratorCreateFunc Body)
  (s : statics) : @SimpleGeneratorFactory.GeneratorCreateFunc Body * statics :=
  match create_func_storage s with
  | Some stored => (stored, s)
  | None =>
      (f, {| create_func_storage := Some f;
             init_wrapper_class_name_storage :=
               init_wrapper_class_name_storage s |})
  end.

Definition init_wrapper_class_name (n : option string) (s : statics)
  : option string * statics :=
  match init_wrapper_class_name_storage s with
  | Some stored => (stored, s)
  | None =>
      (n, {| create_func_storage := create_func_storage s;
             init_wrapper_class_name_storage := Some n |})
  end.

(** [create].  The outer [None] of the result is undefined behaviour: the
    call of a method through the null pointer that [f()] returned, or the
    construction of a [std::string] from a null [const char *]. *)
Definition create (s : statics)
  : option (outcome (GeneratorBase.t Body)) * statics :=
  let '(f, s) := init_create_func None s in
  match f with
  | None =>
      (Some (Err (UserError
         "RegisterGeneratorAndWrapper was not initialized; this is probably a wrong value for wrapper_class_name.")),
       s)
  | Some f =>
      match f tt with
      | None => (None, s)
      | Some g =>
          let '(n, s) := init_wrapper_class_name None s in
          match n with
          | None => (None, s)
          | Some n =>
              match GeneratorBase.set_wrapper_class_name n g with
              | (Ok _, g') => (Some (Ok g'), s)
              | (Err e, _) => (Some (Err e), s)
              end
          end
      end
  end.

(** The constructor, as [HALIDE_REGISTER_GENERATOR] with three arguments
    calls it: [wrapper_class_name] is a string literal.  It acts on the
    statics and on the registry. *)
Definition constructor
  (create_func : @SimpleGeneratorFactory.GeneratorCreateFunc Body)
  (registry_name wrapper_class_name : string)
  : M (statics * @GeneratorRegistry.t Body) unit :=
  fun '(s, r) =>
    let '(_, s) := init_create_func create_func s in
    let '(_, s) := init_wrapper_class_name (Some wrapper_class_name) s in
    match SimpleGeneratorFactory.make create_func wrapper_class_name with
    | Err e => (Err e, (s, r))
    | Ok f =>
        let '(o, r') :=
          GeneratorRegistry.register_factory registry_name
            (SimpleGeneratorFactory.create set_generator_param_values f) r in
        (o, (s, r'))
    end.

End WithBody.
End RegisterGeneratorAndWrapper.

(** ** The accessors of [Input<T[]>] and [Output<T[]>] *)

(** What a call of an accessor ends with: the value returned, or what was
    thrown, a Halide error or the [std::out_of_range] of
    [std::vector::at]. *)
Inductive exception : Type :=
| halide_error (e : error)
| std_out_of_range.

Inductive result (A : Type) : Type :=
| Returned (a : A)
| Thrown (x : exception).
Arguments Returned {A} a.
Arguments Thrown {A} x.

(** [GeneratorBase] names [GeneratorInput<T>] [Input<T>].  [ValueType] is
    [Func] for an input of [Func]s and [Expr] otherwise, and
    [get_values<ValueType>()] is [funcs()] or [exprs()] accordingly.  The
    accessors [size], [at] and [operator Func] of [GeneratorOutput<T>] are
    the same functions over [funcs()]. *)
Module Input.
Section Template.
Context {ValueType : Type} (get_values : GIOBase.t -> outcome (list ValueType)).

Definition size (g : GIOBase.t) : outcome Z :=
  match get_values g with
  | Ok v => Ok (Z.of_nat (length v))
  | Err e => Err e
  end.

(** [at(i)]: [get_values<ValueType>().at(i)]. *)
Definition at_ (i : nat) (g : GIOBase.t) : result ValueType :=
  match get_values g with
  | Ok v =>
      match nth_error v i with
      | Some x => Returned x
      | None => Thrown std_out_of_range
      end
  | Err e => Thrown (halide_error e)
  end.

(** [operator Expr] of a scalar input and [operator Func] of a [Func]
    input or output: [get_values().at(0)]. *)
Definition operator_ValueType (g : GIOBase.t) : result ValueType := at_ 0 g.

End Template.
End Input.

(** * Properties *)

Example insert_int32_neg : insert int32_t (-1205) = "-1205".
Proof. reflexivity. Qed.
Example extract_int32_neg :
  extract int32_t (iss_open "  -1205x") = (-1205, mk_iss "x" false).
Proof. reflexivity. Qed.
Example extract_int16_overflow :
  failbit (snd (extract int16_t (iss_open "32768"))) = true.
Proof. reflexivity. Qed.
Example extract_int8_is_a_char :
  extract int8_t (iss_open "11") = (49, mk_iss "1" false).
Proof. reflexivity. Qed.

(** ** Decimal text of integers *)

Lemma digit_of_digit_char (d : N) :
  (d < 10)%N -> digit_of (digit_char d) = Some d.
Proof.
  intros Hd.
  assert (Hcases : d = 0%N \/ d = 1%N \/ d = 2%N \/ d = 3%N \/ d = 4%N \/
                   d = 5%N \/ d = 6%N \/ d = 7%N \/ d = 8%N \/ d = 9%N) by lia.
  repeat (destruct Hcases as [-> | Hcases]; [reflexivity |]).
  subst d. reflexivity.
Qed.

Lemma digit_char_not_space (d : N) :
  (d < 10)%N -> isspace (digit_char d) = false.
Proof.
  intros Hd.
  assert (Hcases : d = 0%N \/ d = 1%N \/ d = 2%N \/ d = 3%N \/ d = 4%N \/
                   d = 5%N \/ d = 6%N \/ d = 7%N \/ d = 8%N \/ d = 9%N) by lia.
  repeat (destruct Hcases as [-> | Hcases]; [reflexivity |]).
  subst d. reflexivity.
Qed.

(** The text of a number starts with a digit. *)
Lemma put_digits_head (fuel : nat) (n : N) (acc : string) :
  exists d r, (d < 10)%N /\ put_digits fuel n acc = String (digit_char d) r.
Proof.
  revert n acc. induction fuel as [| fuel IH]; intros n acc; simpl.
  - exists (n mod 10)%N, acc. split; [apply N.mod_lt; lia | reflexivity].
  - destruct (n / 10 =? 0)%N.
    + exists (n mod 10)%N, acc. split; [apply N.mod_lt; lia | reflexivity].
    + apply IH.
Qed.

(** Reading back what [put_digits] wrote continues from the accumulator
    shifted by the digits written. *)
Lemma get_put_digits (fuel : nat) :
  forall (n : N) (rest : string),
    (n < 10 ^ N.of_nat (S fuel))%N ->
    exists k : N, forall a : option N,
      get_digits (put_digits fuel n rest) a
      = get_digits rest (Some (10 ^ k * default 0%N a + n)%N).
Proof.
  induction fuel as [| fuel IH]; intros n rest Hn.
  - exists 1%N. intros a. simpl.
    assert (Hsmall : (n mod 10 = n)%N) by (apply N.mod_small; simpl in Hn; lia).
    rewrite Hsmall, digit_of_digit_char by (simpl in Hn; lia).
    do 2 f_equal; lia.
  - cbn [put_digits].
    pose proof (N.div_mod n 10 ltac:(lia)) as Hdm.
    pose proof (N.mod_lt n 10 ltac:(lia)) as Hmod.
    destruct (N.eqb_spec (n / 10) 0) as [Hz | Hnz].
    + exists 1%N. intros a. simpl.
      rewrite digit_of_digit_char by assumption.
      do 2 f_equal; lia.
    + assert (Hq : (n / 10 < 10 ^ N.of_nat (S fuel))%N).
      { apply N.Div0.div_lt_upper_bound.
        replace (N.of_nat (S (S fuel))) with (N.succ (N.of_nat (S fuel))) in Hn by lia.
        rewrite N.pow_succ_r' in Hn. lia. }
      destruct (IH (n / 10)%N (String (digit_char (n mod 10)) rest) Hq) as [k Hk].
      exists (N.succ k). intros a. rewrite Hk. simpl.
      rewrite digit_of_digit_char by assumption.
      do 2 f_equal; rewrite ?N.pow_succ_r'; lia.
Qed.

Lemma pos_size_bound (p : positive) :
  (N.pos p < 2 ^ N.of_nat (Pos.size_nat p))%N.
Proof.
  induction p as [p IHp | p IHp |]; cbn [Pos.size_nat].
  - rewrite Nat2N.inj_succ, N.pow_succ_r'. lia.
  - rewrite Nat2N.inj_succ, N.pow_succ_r'. lia.
  - reflexivity.
Qed.

Lemma size_nat_bound (n : N) : (n < 10 ^ N.of_nat (S (N.size_nat n)))%N.
Proof.
  assert (H2 : (n < 2 ^ N.of_nat (N.size_nat n))%N).
  { destruct n as [| p]; [reflexivity | apply pos_size_bound]. }
  eapply N.lt_le_trans; [exact H2 |].
  etransitivity; [apply N.pow_le_mono_l with (b := 10%N); lia |].
  apply N.pow_le_mono_r; lia.
Qed.

Lemma get_digits_print_N (n : N) : get_digits (print_N n) None = (Some n, EmptyString).
Proof.
  unfold print_N.
  destruct (get_put_digits (N.size_nat n) n EmptyString (size_nat_bound n)) as [k Hk].
  rewrite Hk. simpl. do 2 f_equal; lia.
Qed.

Lemma print_N_head (n : N) :
  exists d r, (d < 10)%N /\ print_N n = String (digit_char d) r.
Proof. apply put_digits_head. Qed.

Lemma get_sign_digit (d : N) (r : string) :
  (d < 10)%N ->
  get_sign (String (digit_char d) r) = (false, String (digit_char d) r).
Proof.
  intros Hd.
  assert (Hcases : d = 0%N \/ d = 1%N \/ d = 2%N \/ d = 3%N \/ d = 4%N \/
                   d = 5%N \/ d = 6%N \/ d = 7%N \/ d = 8%N \/ d = 9%N) by lia.
  repeat (destruct Hcases as [-> | Hcases]; [reflexivity |]).
  subst d. reflexivity.
Qed.

Lemma wrap_in_range (t : int_type) (v : Z) : in_range t v -> wrap t v = v.
Proof.
  unfold in_range, wrap, numeric_lowest, numeric_max, bits.
  destruct t; cbn; intros Hv;
    try (apply Z.mod_small; lia);
    match goal with
    | |- context [Z.ltb ?a ?b] => destruct (Z.ltb_spec a b)
    end; Z.div_mod_to_equations; lia.
Qed.

(** What [operator<<] wrote for a value of a type wider than a character,
    [operator>>] reads back entirely, without failing. *)
Lemma extract_insert_number (t : int_type) (v : Z) :
  is_char_type t = false -> in_range t v ->
  extract t (iss_open (insert t v)) = (v, mk_iss EmptyString false).
Proof.
  intros Hchar Hv. unfold extract, insert, iss_open. cbn [failbit rdbuf].
  rewrite Hchar. unfold extract_number, insert_number. cbn [rdbuf].
  destruct (Z.ltb_spec v 0) as [Hneg | Hpos].
  - cbn [skipws]. change (isspace "-") with false. cbn [get_sign].
    rewrite get_digits_print_N.
    assert (Hs : is_unsigned t = false).
    { destruct t; try reflexivity; unfold in_range in Hv; cbn in Hv; lia. }
    rewrite Hs. cbn [negb andb].
    assert (Habs : Z.of_N (Z.abs_N v) = - v) by lia.
    rewrite Habs.
    destruct (Z.leb_spec (- v) (- numeric_lowest t)) as [_ | Hbad].
    + rewrite Z.opp_involutive, wrap_in_range by assumption. reflexivity.
    + unfold in_range in Hv. lia.
  - destruct (print_N_head (Z.to_N v)) as (d & r & Hd & Hhead).
    rewrite Hhead. cbn [skipws]. rewrite digit_char_not_space by assumption.
    rewrite get_sign_digit by assumption. rewrite <- Hhead.
    rewrite get_digits_print_N. cbn [andb].
    rewrite Z2N.id by assumption.
    destruct (Z.leb_spec v (numeric_max t)) as [_ | Hbad].
    + rewrite wrap_in_range by assumption. reflexivity.
    + unfold in_range in Hv. lia.
Qed.

(** ** [GeneratorParam_Arithmetic]: the bounds check *)

Section ArithmeticFacts.
Context {T : Type} {ord : Ordered T}.
Import GeneratorParam_Arithmetic.

(** [set] checks, then writes: the whole method in one equation. *)
Lemma set_unfold (v : T) (p : t T) :
  set v p =
  if ge v (min p) && le v (max p) then (Ok tt, with_value p v)
  else (Err (UserError "Value out of range: "), p).
Proof.
  unfold set, bind, get, user_assert.
  destruct (ge v (min p) && le v (max p)); reflexivity.
Qed.


Context (io : Streamed T).

Lemma set_from_string_unfold (s : string) (p : t T) :
  set_from_string io s p =
  let r := op_extract (iss_open s) in
  if negb (failbit (snd r)) && bool_decide (fst (iss_get (snd r)) = None)
  then set (fst r) p
  else (Err (UserError "Unable to parse: "), p).
Proof.
  unfold set_from_string, bind, user_assert.
  destruct (op_extract (iss_open s)) as [v iss]. cbn [fst snd].
  destruct (negb (failbit iss) && bool_decide (fst (iss_get iss) = None));
    reflexivity.
Qed.


End ArithmeticFacts.


(** C3. An arithmetic configuration value with bounds [min] and [max]:
    [set(v)] with [v < min] or [v > max] fails and leaves the object as it
    was; [set(v)] with [min <= v <= max] succeeds and stores [v], touching
    nothing else.  For a value declared with [min = 0], [max = 10], of any
    integral type: [set(11)] and [set_from_string("11")] fail without
    changing the object, [set(10)] and [set(0)] succeed. *)
Theorem arithmetic_set_enforces_bounds :
  (forall (p : GeneratorParam_Arithmetic.t Z) (v : Z),
      v < GeneratorParam_Arithmetic.min p \/ v > GeneratorParam_Arithmetic.max p ->
      exists e, GeneratorParam_Arithmetic.set v p = (Err e, p))
  /\ (forall (p : GeneratorParam_Arithmetic.t Z) (v : Z),
      GeneratorParam_Arithmetic.min p <= v <= GeneratorParam_Arithmetic.max p ->
      GeneratorParam_Arithmetic.set v p
      = (Ok tt, GeneratorParam_Arithmetic.with_value p v)
      /\ GeneratorParam_Arithmetic.value
           (GeneratorParam_Arithmetic.with_value p v) = v)
  /\ (forall (ty : int_type) (name : string) (v0 : Z),
      0 <= v0 <= 10 ->
      exists p0,
        GeneratorParam_Arithmetic.make name v0 0 10 = Ok p0
        /\ GeneratorParam_Arithmetic.value p0 = v0
        /\ (exists e, GeneratorParam_Arithmetic.set 11 p0 = (Err e, p0))
        /\ (exists e, GeneratorParam_Arithmetic.set_from_string
                        (int_streamed ty) "11" p0 = (Err e, p0))
        /\ GeneratorParam_Arithmetic.set 10 p0
           = (Ok tt, GeneratorParam_Arithmetic.with_value p0 10)
        /\ GeneratorParam_Arithmetic.set 0 p0
           = (Ok tt, GeneratorParam_Arithmetic.with_value p0 0)).
Proof.
  split; [| split].
  - intros p v Hv. rewrite set_unfold. cbn [ge le Z_ordered].
    destruct (Z.geb_spec v (GeneratorParam_Arithmetic.min p));
      destruct (Z.leb_spec v (GeneratorParam_Arithmetic.max p));
      cbn [andb]; try lia; eexists; reflexivity.
  - intros p v Hv. rewrite set_unfold. cbn [ge le Z_ordered].
    destruct (Z.geb_spec v (GeneratorParam_Arithmetic.min p));
      destruct (Z.leb_spec v (GeneratorParam_Arithmetic.max p));
      cbn [andb]; try lia. split; reflexivity.
  - intros ty name v0 Hv0.
    exists (GeneratorParam_Arithmetic.mk (GeneratorParamImpl.mk name v0) 0 10).
    split; [| split; [reflexivity | split; [| split; [| split]]]].
    + unfold GeneratorParam_Arithmetic.make. rewrite set_unfold.
      cbn [ge le Z_ordered GeneratorParam_Arithmetic.min
              GeneratorParam_Arithmetic.max].
      destruct (Z.geb_spec v0 0); destruct (Z.leb_spec v0 10);
        cbn [andb]; try lia. reflexivity.
    + eexists. reflexivity.
    + rewrite set_from_string_unfold. destruct ty; eexists; reflexivity.
    + reflexivity.
    + reflexivity.
Qed.

(** The C3 theorem at a 32-bit value declared as [{"x", 5, 0, 10}]. *)
Lemma arithmetic_set_enforces_bounds_witness :
  let p0 := GeneratorParam_Arithmetic.mk (GeneratorParamImpl.mk "x" 5) 0 10 in
  (exists e, GeneratorParam_Arithmetic.set 11 p0 = (Err e, p0))
  /\ (exists e, GeneratorParam_Arithmetic.set (-1) p0 = (Err e, p0))
  /\ GeneratorParam_Arithmetic.set 7 p0
     = (Ok tt, GeneratorParam_Arithmetic.with_value p0 7).
Proof.
  pose proof arithmetic_set_enforces_bounds as (Hout & Hin & _).
  intros p0. split; [| split].
  - apply Hout. right. cbn. lia.
  - apply Hout. left. cbn. lia.
  - apply Hin. cbn. lia.
Defined.

(** ** [GeneratorParam_Bool] *)





(** ** [std::map] *)

Lemma std_map_find_In {V} (k : string) (v : V) (m : std_map.t V) :
  std_map.find k m = Some v -> In (k, v) m.
Proof.
  induction m as [| [k' v'] m IH]; cbn; [discriminate |].
  destruct (String.eqb_spec k k') as [-> | Hne].
  - intros [= ->]. now left.
  - intros Hf. right. now apply IH.
Qed.

Lemma std_map_find_keys {V} (k : string) (m : std_map.t V) :
  std_map.find k m <> None <-> In k (map fst m).
Proof.
  induction m as [| [k' v'] m IH]; cbn; [tauto |].
  destruct (String.eqb_spec k k') as [-> | Hne].
  - split; [now left | discriminate].
  - rewrite IH. split; [now right | intros [Heq | Hin]; congruence].
Qed.

Lemma std_map_sorted_find {V} (k : string) (v : V) (m : std_map.t V) :
  std_map.sorted m -> In (k, v) m -> std_map.find k m = Some v.
Proof.
  unfold std_map.sorted.
  induction m as [| [k' v'] m IH]; cbn; [tauto |].
  intros Hs Hin. apply StronglySorted_inv in Hs as [Hs Hall].
  destruct Hin as [[= -> ->] | Hin].
  - now rewrite String.eqb_refl.
  - destruct (String.eqb_spec k k') as [-> | Hne]; [| now apply IH].
    rewrite List.Forall_forall in Hall.
    assert (Hlt : String_as_OT.lt k' k').
    { apply Hall. apply in_map_iff. now exists (k', v). }
    now apply (StrictOrder_Irreflexive k') in Hlt.
Qed.

Lemma std_map_insert_keys {V} (k k0 : string) (v : V) (m : std_map.t V) :
  In k (map fst (std_map.insert k0 v m)) <-> k = k0 \/ In k (map fst m).
Proof.
  induction m as [| [k' v'] m IH]; cbn; [intuition |].
  destruct (String_as_OT.compare_spec k0 k') as [Heq | Hlt | Hgt]; cbn.
  - unfold String_as_OT.eq in Heq. subst k'. intuition.
  - intuition.
  - rewrite IH. intuition.
Qed.

Lemma std_map_insert_sorted {V} (k0 : string) (v : V) (m : std_map.t V) :
  std_map.sorted m -> std_map.sorted (std_map.insert k0 v m).
Proof.
  unfold std_map.sorted.
  induction m as [| [k' v'] m IH]; cbn; intros Hs.
  - repeat constructor.
  - pose proof Hs as Hs0.
    apply StronglySorted_inv in Hs as [Hs Hall].
    destruct (String_as_OT.compare_spec k0 k') as [Heq | Hlt | Hgt]; cbn.
    + assumption.
    + constructor; [assumption |]. constructor; [assumption |].
      eapply List.Forall_impl; [| exact Hall].
      intros a Ha. now transitivity k'.
    + constructor; [now apply IH |].
      rewrite List.Forall_forall. intros a Ha.
      apply std_map_insert_keys in Ha as [-> | Ha]; [assumption |].
      rewrite List.Forall_forall in Hall. now apply Hall.
Qed.

Lemma std_map_of_list_spec {V} (l : list (string * V)) (m0 : std_map.t V) :
  std_map.sorted m0 ->
  let m := fold_left (fun m kv => std_map.insert (fst kv) (snd kv) m) l m0 in
  std_map.sorted m
  /\ (forall k, In k (map fst m) <-> In k (map fst l) \/ In k (map fst m0)).
Proof.
  revert m0. induction l as [| [k v] l IH]; cbn; intros m0 Hs.
  - split; [assumption | intuition].
  - destruct (IH (std_map.insert k v m0) (std_map_insert_sorted k v m0 Hs))
      as [Hsorted Hkeys].
    split; [assumption |].
    intros k1. rewrite Hkeys, std_map_insert_keys. intuition.
Qed.

Lemma std_map_of_list_sorted {V} (l : list (string * V)) :
  std_map.sorted (std_map.of_list l).
Proof. apply (std_map_of_list_spec l []). constructor. Qed.

Lemma std_map_of_list_keys {V} (l : list (string * V)) (k : string) :
  In k (map fst (std_map.of_list l)) <-> In k (map fst l).
Proof.
  destruct (std_map_of_list_spec l [] ltac:(constructor)) as [_ Hkeys].
  unfold std_map.of_list. rewrite Hkeys. cbn. intuition.
Qed.

(** ** [GeneratorParam_Enum] *)

Section EnumFacts.
Context {T : Type} `{EqDecision T}.

Lemma enum_to_string_loop_In (m : std_map.t T) (v : T) (k : string) :
  enum_to_string_loop m v = Some k -> In (k, v) m.
Proof.
  induction m as [| [k' v'] m IH]; cbn; [discriminate |].
  case_bool_decide as Hv.
  - intros [= ->]. subst v'. now left.
  - intros Hl. right. now apply IH.
Qed.

Lemma enum_to_string_loop_finds (m : std_map.t T) (v : T) (k : string) :
  In (k, v) m -> exists k', enum_to_string_loop m v = Some k'.
Proof.
  induction m as [| [k' v'] m IH]; cbn; [tauto |].
  intros Hin. case_bool_decide as Hv; [eauto |].
  destruct Hin as [[= -> ->] | Hin]; [congruence | now apply IH].
Qed.

(** The object after a successful [set]. *)
Lemma enum_set_unfold (v : T) (p : GeneratorParam_Enum.t T) :
  GeneratorParam_Enum.set v p =
  (Ok tt, GeneratorParam_Enum.make
            (GeneratorParamImpl.name (GeneratorParam_Enum.base p)) v
            (GeneratorParam_Enum.enum_map p)).
Proof. reflexivity. Qed.

Lemma enum_set_from_string_unfold (s : string) (p : GeneratorParam_Enum.t T) :
  GeneratorParam_Enum.set_from_string s p =
  match std_map.find s (GeneratorParam_Enum.enum_map p) with
  | Some v => GeneratorParam_Enum.set v p
  | None => (Err (UserError "Enumeration value not found: "), p)
  end.
Proof.
  unfold GeneratorParam_Enum.set_from_string, bind, get, user_assert.
  destruct (std_map.find s (GeneratorParam_Enum.enum_map p)); reflexivity.
Qed.

End EnumFacts.

(** C5, amended.  For an enum configuration value over any table:
    [set_from_string] succeeds exactly for the names of the table and fails,
    leaving the object alone, for every other text.  After a successful
    [set_from_string(s)], [to_string] returns a name of the table that
    carries the same value as [s]; it is [s] itself when no two names of
    the table carry the same value.  With the table
    [{"paper": Paper, "plastic": Plastic}]: [set_from_string("plastic")]
    succeeds, [to_string()] is then ["plastic"], and
    [set_from_string("glass")] fails. *)
Theorem enum_set_from_string_exact_lookup :
  (forall (T : Type) (eqT : EqDecision T) (init : list (string * T))
          (name : string) (v0 : T) (s : string),
      let table := std_map.of_list init in
      let p := GeneratorParam_Enum.make name v0 table in
      (In s (map fst init) <->
       exists p1, GeneratorParam_Enum.set_from_string s p = (Ok tt, p1))
      /\ (~ In s (map fst init) ->
          exists e, GeneratorParam_Enum.set_from_string s p = (Err e, p))
      /\ (forall p1,
          GeneratorParam_Enum.set_from_string s p = (Ok tt, p1) ->
          exists s',
            GeneratorParam_Enum.to_string p1 = Ok s'
            /\ std_map.find s' table = std_map.find s table
            /\ ((forall k1 k2 v,
                    In (k1, v) table -> In (k2, v) table -> k1 = k2) ->
                s' = s)))
  /\ (exists p1,
        GeneratorParam_Enum.set_from_string "plastic" bag_type = (Ok tt, p1)
        /\ GeneratorParam_Enum.value p1 = Plastic
        /\ GeneratorParam_Enum.to_string p1 = Ok "plastic")
  /\ (exists e,
        GeneratorParam_Enum.set_from_string "glass" bag_type
        = (Err e, bag_type)).
Proof.
  split; [| split].
  - intros T eqT init name v0 s table p.
    pose proof (std_map_of_list_keys init s) as Hkeys. fold table in Hkeys.
    pose proof (std_map_find_keys s table) as Hfind.
    pose proof (std_map_of_list_sorted init) as Hsorted. fold table in Hsorted.
    split; [| split].
    + rewrite enum_set_from_string_unfold. cbn [GeneratorParam_Enum.enum_map p
        GeneratorParam_Enum.make].
      rewrite <- Hkeys, <- Hfind.
      destruct (std_map.find s table) as [v |].
      * split; [intros _; eexists; apply enum_set_unfold | congruence].
      * split; [congruence | intros [p1 Hp1]; discriminate].
    + intros Hnot. rewrite enum_set_from_string_unfold.
      cbn [GeneratorParam_Enum.enum_map p GeneratorParam_Enum.make].
      destruct (std_map.find s table) as [v |] eqn:Hf.
      * exfalso. apply Hnot, Hkeys, Hfind. congruence.
      * eexists; reflexivity.
    + intros p1. rewrite enum_set_from_string_unfold.
      cbn [GeneratorParam_Enum.enum_map p GeneratorParam_Enum.make].
      destruct (std_map.find s table) as [v |] eqn:Hf; [| discriminate].
      rewrite enum_set_unfold. intros [= <-].
      unfold GeneratorParam_Enum.to_string, enum_to_string.
      cbn [GeneratorParam_Enum.enum_map GeneratorParam_Enum.make
           GeneratorParam_Enum.value GeneratorParam_Enum.base
           GeneratorParamImpl.value GeneratorParamImpl.value_].
      apply std_map_find_In in Hf.
      destruct (enum_to_string_loop_finds table v s Hf) as [s' Hs'].
      rewrite Hs'. exists s'. apply enum_to_string_loop_In in Hs'.
      split; [reflexivity | split].
      * rewrite !(std_map_sorted_find _ v) by assumption. reflexivity.
      * intros Hinj. now apply (Hinj s' s v).
  - exists (GeneratorParam_Enum.make "bag_type" Plastic bag_type_map).
    split; [vm_compute; reflexivity | split; vm_compute; reflexivity].
  - exists (UserError "Enumeration value not found: ").
    vm_compute. reflexivity.
Qed.

(** The C5 theorem at the table of wraptest_generator.cpp: ["plastic"] is
    a name of it, and no two of its names carry the same value. *)
Lemma enum_set_from_string_exact_lookup_witness :
  exists p1,
    GeneratorParam_Enum.set_from_string "plastic" bag_type = (Ok tt, p1)
    /\ GeneratorParam_Enum.to_string p1 = Ok "plastic".
Proof.
  pose proof enum_set_from_string_exact_lookup as (Hgen & _).
  destruct (Hgen BagType _ [("paper", Paper); ("plastic", Plastic)]
              "bag_type" Paper "plastic") as (Hiff & _ & Hname).
  destruct (proj1 Hiff) as [p1 Hp1].
  { cbn. right. left. reflexivity. }
  exists p1. split; [exact Hp1 |].
  destruct (Hname p1 Hp1) as (s' & Hs' & _ & Hinj).
  rewrite Hs'. f_equal. apply Hinj.
  intros k1 k2 v Hk1 Hk2. vm_compute in Hk1, Hk2.
  destruct Hk1 as [Hk1 | [Hk1 | []]]; destruct Hk2 as [Hk2 | [Hk2 | []]];
    congruence.
Defined.

(** C5 as stated fails when two names of the table carry one value:
    with [{"a": 0, "b": 0}], [set_from_string("b")] succeeds and
    [to_string()] then returns ["a"], the first name in key order. *)
Lemma enum_to_string_returns_first_alias :
  let p := GeneratorParam_Enum.make "e" 0
             (std_map.of_list [("a", 0); ("b", 0)]) in
  exists p1,
    GeneratorParam_Enum.set_from_string "b" p = (Ok tt, p1)
    /\ GeneratorParam_Enum.to_string p1 = Ok "a"
    /\ GeneratorParam_Enum.to_string p1 <> Ok "b".
Proof.
  exists (GeneratorParam_Enum.make "e" 0 (std_map.of_list [("a", 0); ("b", 0)])).
  split; [vm_compute; reflexivity | split; [vm_compute; reflexivity |]].
  vm_compute. discriminate.
Qed.

(** ** Text round trip of configuration values *)

(** A character type reads back the one character written for a value,
    unless that character is white space. *)
Lemma extract_insert_char (t : int_type) (v : Z) :
  is_char_type t = true -> in_range t v ->
  isspace (ascii_of_N (Z.to_N (v mod 256))) = false ->
  extract t (iss_open (insert t v)) = (v, mk_iss EmptyString false).
Proof.
  intros Hchar Hv Hsp. unfold extract, insert, iss_open. cbn [failbit rdbuf].
  rewrite Hchar. unfold extract_char, insert_char. cbn [rdbuf skipws].
  rewrite Hsp.
  assert (Hm : 0 <= v mod 256 < 256) by (apply Z.mod_pos_bound; lia).
  rewrite N_ascii_embedding by lia.
  rewrite Z2N.id by lia.
  f_equal. unfold in_range, numeric_lowest, numeric_max, bits in Hv.
  unfold wrap, bits.
  destruct t; try discriminate Hchar; cbn in Hv |- *;
    change (2 ^ (1 * 8 - 1)) with 128 in *; change (2 ^ (1 * 8)) with 256 in *.
  - destruct (Z.ltb_spec ((v mod 256) mod 256) 128);
      Z.div_mod_to_equations; lia.
  - Z.div_mod_to_equations; lia.
Qed.

(** The text of a value that [extract] reads back whole is accepted by
    [set_from_string] of any object whose bounds admit the value. *)
Lemma set_from_string_of_text (ty : int_type)
  (q : GeneratorParam_Arithmetic.t Z) (v : Z) :
  extract ty (iss_open (insert ty v)) = (v, mk_iss EmptyString false) ->
  GeneratorParam_Arithmetic.min q <= v <= GeneratorParam_Arithmetic.max q ->
  GeneratorParam_Arithmetic.set_from_string (int_streamed ty) (insert ty v) q
  = (Ok tt, GeneratorParam_Arithmetic.with_value q v).
Proof.
  intros Hex Hq. rewrite set_from_string_unfold.
  cbn [op_extract int_streamed]. rewrite Hex.
  cbn zeta. cbn [fst snd failbit negb andb].
  rewrite bool_decide_eq_true_2 by reflexivity.
  rewrite set_unfold. cbn [ge le Z_ordered].
  destruct (Z.geb_spec v (GeneratorParam_Arithmetic.min q));
    destruct (Z.leb_spec v (GeneratorParam_Arithmetic.max q));
    cbn [andb]; try lia. reflexivity.
Qed.

(** Where the text of a value reads back.  [set(v)], then [to_string],
    then [set_from_string] of that text on any object of the same kind
    whose bounds admit [v], stores [v] again: for the integral types of 16,
    32 and 64 bits; for the 8-bit types when the character with code [v] is
    not white space; for bool; and for an enum when [v] is a value of the
    table. *)
Theorem text_round_trip :
  (forall (ty : int_type) (p q : GeneratorParam_Arithmetic.t Z) (v : Z),
      is_char_type ty = false \/
      isspace (ascii_of_N (Z.to_N (v mod 256))) = false ->
      in_range ty v ->
      GeneratorParam_Arithmetic.min p <= v <= GeneratorParam_Arithmetic.max p ->
      GeneratorParam_Arithmetic.min q <= v <= GeneratorParam_Arithmetic.max q ->
      GeneratorParam_Arithmetic.set v p
      = (Ok tt, GeneratorParam_Arithmetic.with_value p v)
      /\ GeneratorParam_Arithmetic.set_from_string (int_streamed ty)
           (GeneratorParam_Arithmetic.to_string (int_streamed ty)
              (GeneratorParam_Arithmetic.with_value p v)) q
         = (Ok tt, GeneratorParam_Arithmetic.with_value q v))
  /\ (forall (name name' : string) (v0 v0' v : bool),
      exists p q,
        GeneratorParam_Bool.make name v0 = Ok p
        /\ GeneratorParam_Bool.make name' v0' = Ok q
        /\ GeneratorParam_Arithmetic.set v p
           = (Ok tt, GeneratorParam_Arithmetic.with_value p v)
        /\ GeneratorParam_Bool.set_from_string
             (GeneratorParam_Bool.to_string
                (GeneratorParam_Arithmetic.with_value p v)) q
           = (Ok tt, GeneratorParam_Arithmetic.with_value q v))
  /\ (forall (T : Type) (eqT : EqDecision T) (init : list (string * T))
             (name name' : string) (v0 v0' v : T) (s : string),
      let table := std_map.of_list init in
      let p := GeneratorParam_Enum.make name v0 table in
      let q := GeneratorParam_Enum.make name' v0' table in
      In (s, v) table ->
      exists p1 text q1,
        GeneratorParam_Enum.set v p = (Ok tt, p1)
        /\ GeneratorParam_Enum.to_string p1 = Ok text
        /\ GeneratorParam_Enum.set_from_string text q = (Ok tt, q1)
        /\ GeneratorParam_Enum.value q1 = v).
Proof.
  split; [| split].
  - intros ty p q v Hkind Hv Hp Hq. split.
    + rewrite set_unfold. cbn [ge le Z_ordered].
      destruct (Z.geb_spec v (GeneratorParam_Arithmetic.min p));
        destruct (Z.leb_spec v (GeneratorParam_Arithmetic.max p));
        cbn [andb]; try lia. reflexivity.
    + unfold GeneratorParam_Arithmetic.to_string. cbn [op_insert int_streamed].
      change (GeneratorParam_Arithmetic.value
                (GeneratorParam_Arithmetic.with_value p v)) with v.
      apply set_from_string_of_text; [| assumption].
      destruct (is_char_type ty) eqn:Hchar.
      * destruct Hkind as [Hkind | Hkind]; [discriminate |].
        now apply extract_insert_char.
      * now apply extract_insert_number.
  - intros name name' v0 v0' v.
    exists (GeneratorParam_Arithmetic.mk (GeneratorParamImpl.mk name v0) false true),
           (GeneratorParam_Arithmetic.mk (GeneratorParamImpl.mk name' v0') false true).
    destruct v0, v0', v; repeat split; reflexivity.
  - intros T eqT init name name' v0 v0' v s table p q Hin.
    pose proof (std_map_of_list_sorted init) as Hsorted. fold table in Hsorted.
    destruct (enum_to_string_loop_finds table v s Hin) as [text Htext].
    exists (GeneratorParam_Enum.make name v table), text,
           (GeneratorParam_Enum.make name' v table).
    split; [reflexivity | split; [| split; [| reflexivity]]].
    + unfold GeneratorParam_Enum.to_string, enum_to_string.
      cbn. unfold GeneratorParamImpl.value. cbn. now rewrite Htext.
    + rewrite enum_set_from_string_unfold. cbn [GeneratorParam_Enum.enum_map q
        GeneratorParam_Enum.make].
      apply enum_to_string_loop_In in Htext.
      now rewrite (std_map_sorted_find text v table Hsorted Htext).
Qed.

(** The round trip at a 32-bit value, from [{"a", 0, -100, 100}] to
    [{"b", 1, -100, 100}], for [v = -42] and its text [-42]. *)
Lemma text_round_trip_witness :
  let p := GeneratorParam_Arithmetic.mk (GeneratorParamImpl.mk "a" 0) (-100) 100 in
  let q := GeneratorParam_Arithmetic.mk (GeneratorParamImpl.mk "b" 1) (-100) 100 in
  GeneratorParam_Arithmetic.to_string (int_streamed int32_t)
    (GeneratorParam_Arithmetic.with_value p (-42)) = "-42"
  /\ GeneratorParam_Arithmetic.set_from_string (int_streamed int32_t) "-42" q
     = (Ok tt, GeneratorParam_Arithmetic.with_value q (-42)).
Proof.
  pose proof text_round_trip as (Hnum & _).
  intros p q. split; [reflexivity |].
  refine (proj2 (Hnum int32_t p q (-42) _ _ _ _)).
  - left. reflexivity.
  - vm_compute. split; discriminate.
  - cbn. lia.
  - cbn. lia.
Defined.

(** C4.  The round trip is broken for the 8-bit types: [to_string] and
    [set_from_string] hand the value to the stream operators, which write
    and read an [int8_t] as a character, while [get_c_type] of the same
    class names the type as the number type it is.  On
    [GeneratorParam<int8_t> x{"x", 0}] the legal value 32 is written as a
    space, and [set_from_string] of that text fails, so the text does not
    give the value back. *)
Lemma int8_space_is_not_read_back :
  let p := GeneratorParam_Arithmetic.mk (GeneratorParamImpl.mk "x" 0)
             (numeric_lowest int8_t) (numeric_max int8_t) in
  let p1 := GeneratorParam_Arithmetic.with_value p 32 in
  in_range int8_t 32
  /\ GeneratorParam_Arithmetic.set 32 p = (Ok tt, p1)
  /\ GeneratorParam_Arithmetic.to_string (int_streamed int8_t) p1 = " "
  /\ GeneratorParam_Arithmetic.set_from_string (int_streamed int8_t) " " p
     = (Err (UserError "Unable to parse: "), p)
  /\ GeneratorParam_Arithmetic.value p <> 32
  /\ GeneratorParam_Arithmetic.get_c_type int8_t = "int8_t".
Proof.
  intros p p1. split; [| split; [| split; [| split; [| split]]]].
  - vm_compute. split; discriminate.
  - reflexivity.
  - reflexivity.
  - reflexivity.
  - cbn. lia.
  - reflexivity.
Qed.

(** ** [GIOBase]: the value lists and their accessors *)

Section DescriptorFacts.
Context (ints : string -> option Z) (types : string -> option halide_type_t).

Lemma funcs_ok_iff (g : GIOBase.t) (l : list Func) :
  GIOBase.funcs ints g = Ok l <->
  l = GIOBase.funcs_ g
  /\ Z.of_nat (length (GIOBase.funcs_ g)) = GIOBase.array_size ints g
  /\ GIOBase.exprs_ g = [].
Proof.
  unfold GIOBase.funcs.
  destruct (Z.eqb_spec (Z.of_nat (length (GIOBase.funcs_ g)))
                       (GIOBase.array_size ints g)) as [Hlen | Hlen];
    cbn [andb]; [case_bool_decide as Hempty |]; split;
    try (intros [= <-]; tauto); try discriminate; try tauto.
  intros (-> & _ & _). reflexivity.
Qed.

Lemma exprs_ok_iff (g : GIOBase.t) (l : list Expr) :
  GIOBase.exprs ints g = Ok l <->
  l = GIOBase.exprs_ g
  /\ Z.of_nat (length (GIOBase.exprs_ g)) = GIOBase.array_size ints g
  /\ GIOBase.funcs_ g = [].
Proof.
  unfold GIOBase.exprs.
  destruct (Z.eqb_spec (Z.of_nat (length (GIOBase.exprs_ g)))
                       (GIOBase.array_size ints g)) as [Hlen | Hlen];
    cbn [andb]; [case_bool_decide as Hempty |]; split;
    try (intros [= <-]; tauto); try discriminate; try tauto.
  intros (-> & _ & _). reflexivity.
Qed.

Lemma collect_length {A B} (f : A -> outcome B) (l : list A) (ys : list B) :
  GIOBase.collect f l = Ok ys -> length ys = length l.
Proof.
  revert ys. induction l as [| x l IH]; cbn; intros ys.
  - intros [= <-]. reflexivity.
  - destruct (f x); [| discriminate].
    destruct (GIOBase.collect f l); [| discriminate].
    intros [= <-]. cbn. f_equal. now apply IH.
Qed.

(** What a successful [bind_values] leaves, by the descriptor's kind. *)
Lemma bind_values_ok (inputs : list FuncOrExpr) (g g' : GIOBase.t) :
  GIOBase.bind_values ints types inputs g = (Ok tt, g') ->
  Z.of_nat (length inputs) = GIOBase.array_size ints g
  /\ match GIOBase.kind_ g with
     | Function =>
         exists fs, g' = GIOBase.with_values g fs [] /\ length fs = length inputs
     | Scalar =>
         exists es, g' = GIOBase.with_values g [] es /\ length es = length inputs
     end.
Proof.
  unfold GIOBase.bind_values, bind, get, user_assert, GIOBase.of_outcome,
    put, ret, throw, GIOBase.kind.
  destruct (Z.eqb_spec (Z.of_nat (length inputs)) (GIOBase.array_size ints g))
    as [Hlen | Hlen]; [| discriminate].
  destruct (forallb (GIOBase.type_matches types g) inputs); [| discriminate].
  destruct (GIOBase.kind_ g).
  - destruct (GIOBase.collect FuncOrExpr_.expr inputs) as [es |] eqn:Hes;
      [| discriminate].
    intros [= <-]. split; [assumption |].
    exists es. split; [reflexivity | now apply collect_length in Hes].
  - destruct (GIOBase.collect FuncOrExpr_.func inputs) as [fs |] eqn:Hfs;
      [| discriminate].
    intros [= <-]. split; [assumption |].
    exists fs. split; [reflexivity | now apply collect_length in Hfs].
Qed.

Lemma bind_values_failure_keeps_descriptor
  (inputs : list FuncOrExpr) (g g' : GIOBase.t) (e : error) :
  GIOBase.bind_values ints types inputs g = (Err e, g') -> g' = g.
Proof.
  unfold GIOBase.bind_values, bind, get, user_assert, GIOBase.of_outcome,
    put, ret, throw, GIOBase.kind.
  destruct (Z.of_nat (length inputs) =? GIOBase.array_size ints g);
    [| congruence].
  destruct (forallb (GIOBase.type_matches types g) inputs); [| congruence].
  destruct (GIOBase.kind_ g).
  - destruct (GIOBase.collect FuncOrExpr_.expr inputs); congruence.
  - destruct (GIOBase.collect FuncOrExpr_.func inputs); congruence.
Qed.

End DescriptorFacts.

(** What the accessors check.  [funcs()] succeeds exactly when [funcs_] has
    [array_size()] elements and [exprs_] is empty, [exprs()] exactly when
    [exprs_] has [array_size()] elements and [funcs_] is empty; so no read
    succeeds with both lists non-empty.  For a descriptor of multiplicity
    at least one: a read succeeds only if exactly one of the lists is
    non-empty and has [array_size()] elements, and both reads fail in every
    other state. *)
Theorem descriptor_accessors_check_population :
  forall (ints : string -> option Z) (g : GIOBase.t),
    (forall l, GIOBase.funcs ints g = Ok l <->
               l = GIOBase.funcs_ g
               /\ Z.of_nat (length (GIOBase.funcs_ g)) = GIOBase.array_size ints g
               /\ GIOBase.exprs_ g = [])
    /\ (forall l, GIOBase.exprs ints g = Ok l <->
               l = GIOBase.exprs_ g
               /\ Z.of_nat (length (GIOBase.exprs_ g)) = GIOBase.array_size ints g
               /\ GIOBase.funcs_ g = [])
    /\ (is_ok (GIOBase.funcs ints g) || is_ok (GIOBase.exprs ints g) = true ->
        ~ (GIOBase.funcs_ g <> [] /\ GIOBase.exprs_ g <> []))
    /\ (GIOBase.array_size ints g <> 0 ->
        is_ok (GIOBase.funcs ints g) || is_ok (GIOBase.exprs ints g) = true ->
        GIOBase.exactly_one_populated ints g)
    /\ (GIOBase.array_size ints g <> 0 ->
        ~ GIOBase.exactly_one_populated ints g ->
        (exists e, GIOBase.funcs ints g = Err e)
        /\ (exists e, GIOBase.exprs ints g = Err e)).
Proof.
  intros ints g.
  assert (Hread :
    is_ok (GIOBase.funcs ints g) || is_ok (GIOBase.exprs ints g) = true ->
    (Z.of_nat (length (GIOBase.funcs_ g)) = GIOBase.array_size ints g
     /\ GIOBase.exprs_ g = [])
    \/ (Z.of_nat (length (GIOBase.exprs_ g)) = GIOBase.array_size ints g
        /\ GIOBase.funcs_ g = [])).
  { intros Hok. apply orb_true_iff in Hok as [Hok | Hok].
    - destruct (GIOBase.funcs ints g) as [l |] eqn:Hl; [| discriminate].
      apply funcs_ok_iff in Hl. tauto.
    - destruct (GIOBase.exprs ints g) as [l |] eqn:Hl; [| discriminate].
      apply exprs_ok_iff in Hl. tauto. }
  assert (Hinv :
    GIOBase.array_size ints g <> 0 ->
    is_ok (GIOBase.funcs ints g) || is_ok (GIOBase.exprs ints g) = true ->
    GIOBase.exactly_one_populated ints g).
  { intros Hsize Hok.
    destruct (Hread Hok) as [[Hlen Hempty] | [Hlen Hempty]]; [left | right];
      (split; [| split; assumption]);
      intros Hnil; rewrite Hnil in Hlen; cbn [length] in Hlen; lia. }
  split; [apply funcs_ok_iff |].
  split; [apply exprs_ok_iff |].
  split; [| split; [exact Hinv |]].
  - intros Hok [Hf He]. destruct (Hread Hok) as [[_ H] | [_ H]]; contradiction.
  - intros Hsize Hnot.
    destruct (GIOBase.funcs ints g) as [l |] eqn:Hf.
    { exfalso. apply Hnot, Hinv; [assumption | reflexivity]. }
    destruct (GIOBase.exprs ints g) as [l |] eqn:He.
    { exfalso. apply Hnot, Hinv; [assumption | reflexivity]. }
    split; eexists; reflexivity.
Qed.

(** Binding as the spec describes it establishes that state: after a
    successful [bind_values] on a descriptor of multiplicity at least one,
    exactly one list is populated, with [array_size()] elements, and the
    accessor of the descriptor's kind succeeds. *)
Lemma bind_values_populates_one_list
  (ints : string -> option Z) (types : string -> option halide_type_t)
  (inputs : list FuncOrExpr) (g g' : GIOBase.t) :
  GIOBase.array_size ints g <> 0 ->
  GIOBase.bind_values ints types inputs g = (Ok tt, g') ->
  GIOBase.exactly_one_populated ints g'
  /\ GIOBase.array_size ints g' = GIOBase.array_size ints g
  /\ match GIOBase.kind_ g with
     | Function => GIOBase.funcs ints g' = Ok (GIOBase.funcs_ g')
     | Scalar => GIOBase.exprs ints g' = Ok (GIOBase.exprs_ g')
     end.
Proof.
  intros Hsize Hbind.
  apply bind_values_ok in Hbind as [Hlen Hkind].
  assert (Hpos : length inputs <> O).
  { intros Hz. rewrite Hz in Hlen. lia. }
  destruct (GIOBase.kind_ g); destruct Hkind as (vs & -> & Hvs).
  - split; [| split; [reflexivity |]].
    + right. cbn. split; [| split; [reflexivity |]].
      * intros ->. cbn [length] in Hvs. congruence.
      * rewrite Hvs. exact Hlen.
    + apply exprs_ok_iff. cbn. rewrite Hvs. repeat split. exact Hlen.
  - split; [| split; [reflexivity |]].
    + left. cbn. split; [| split; [reflexivity |]].
      * intros ->. cbn [length] in Hvs. congruence.
      * rewrite Hvs. exact Hlen.
    + apply funcs_ok_iff. cbn. rewrite Hvs. repeat split. exact Hlen.
Qed.

(** The accessors at the array input of wraptest_generator.cpp with
    [array_count = 2], holding two functions of type [UInt(8)]. *)
Lemma descriptor_accessors_check_population_witness :
  let f0 := mk_Func "in0" [UInt 8] in
  let f1 := mk_Func "in1" [UInt 8] in
  let g := GIOBase.with_values wraptest_input [f0; f1] [] in
  GIOBase.funcs (array_count_is 2) g = Ok [f0; f1]
  /\ GIOBase.exactly_one_populated (array_count_is 2) g
  /\ (exists e, GIOBase.exprs (array_count_is 2) g = Err e)
  /\ (exists e, GIOBase.funcs (array_count_is 2) wraptest_input = Err e).
Proof.
  intros f0 f1 g.
  pose proof (descriptor_accessors_check_population (array_count_is 2) g)
    as (_ & _ & _ & Hinv & _).
  pose proof (descriptor_accessors_check_population (array_count_is 2)
                wraptest_input) as (_ & _ & _ & _ & Hother).
  assert (Hread : GIOBase.funcs (array_count_is 2) g = Ok [f0; f1])
    by reflexivity.
  split; [exact Hread |].
  split; [apply Hinv; [discriminate | now rewrite Hread] |].
  split; [eexists; reflexivity |].
  refine (proj1 (Hother _ _)); [discriminate |].
  intros [(Hf & _) | (He & _)]; [apply Hf | apply He]; reflexivity.
Defined.

(** C7.  The accessors break the invariant that the comment on [funcs_]
    and [exprs_] states ("Exactly one will have nonzero length") for a
    descriptor of multiplicity zero: with [array_count = 0] the array input
    of wraptest_generator.cpp has no element, both lists are empty, no list
    is populated, and both [funcs()] and [exprs()] succeed.  Binding its
    zero elements leaves it in that state. *)
Lemma zero_sized_descriptor_reads_succeed :
  let g := wraptest_input in
  GIOBase.array_size (array_count_is 0) g = 0
  /\ GIOBase.funcs_ g = [] /\ GIOBase.exprs_ g = []
  /\ ~ GIOBase.exactly_one_populated (array_count_is 0) g
  /\ GIOBase.funcs (array_count_is 0) g = Ok []
  /\ GIOBase.exprs (array_count_is 0) g = Ok []
  /\ GIOBase.bind_values (array_count_is 0) wraptest_types [] g = (Ok tt, g).
Proof.
  cbv zeta. repeat split; try reflexivity.
  intros [(Hf & _) | (He & _)]; [apply Hf | apply He]; reflexivity.
Qed.

(** ** The lifecycle flags of [Generator<T>] *)

Section Lifecycle.
Context {Body Pipeline : Type}.
Context (pre_build pre_generate : M Body unit) (produce_pipeline : M Body Pipeline).
Implicit Types (T : @Generator.methods Body Pipeline) (g : GeneratorBase.t Body).

Ltac run_method :=
  unfold Generator.build_pipeline, Generator.call_generate,
    Generator.call_schedule, Generator.build_pipeline_impl,
    Generator.call_generate_impl, Generator.call_schedule_impl,
    bind, get, ret, throw, user_assert, internal_assert, user_error,
    GeneratorBase.on_body, GeneratorBase.set_generate_called,
    GeneratorBase.set_schedule_called,
    GeneratorBase.set_build_pipeline_called in *.

Ltac step_method :=
  repeat match goal with
         | H : context [match ?m ?x with pair _ _ => _ end] |- _ =>
             is_var m; destruct (m x) as [[? | ?] ?]; cbn in H
         | H : context [if ?b then _ else _] |- _ => destruct b eqn:?; cbn in H
         | H : (Err _, _) = (Ok _, _) |- _ => discriminate H
         | H : (Ok _, _) = (Ok _, _) |- _ => inversion H; subst; clear H
         end.

Lemma call_generate_sets_flag T g g' :
  Generator.call_generate pre_generate T g = (Ok tt, g') ->
  GeneratorBase.generate_called g' = true
  /\ GeneratorBase.schedule_called g' = GeneratorBase.schedule_called g
  /\ GeneratorBase.build_pipeline_called g'
     = GeneratorBase.build_pipeline_called g.
Proof.
  destruct T as [build | generate schedule]; run_method; [discriminate |].
  intros Hcall. cbn in Hcall. step_method. cbn. auto.
Qed.

Lemma call_schedule_sets_flag T g g' :
  Generator.call_schedule T g = (Ok tt, g') ->
  GeneratorBase.schedule_called g' = true
  /\ GeneratorBase.generate_called g' = true
  /\ GeneratorBase.build_pipeline_called g'
     = GeneratorBase.build_pipeline_called g.
Proof.
  destruct T as [build | generate schedule]; run_method; [discriminate |].
  intros Hcall. cbn in Hcall. step_method. cbn. auto.
Qed.

Lemma build_pipeline_sets_flag T g g' (p : Pipeline) :
  Generator.build_pipeline pre_build pre_generate produce_pipeline T g
  = (Ok p, g') ->
  GeneratorBase.build_pipeline_called g' = true.
Proof.
  destruct T as [build | generate schedule]; run_method;
    intros Hcall; cbn in Hcall; step_method; reflexivity.
Qed.

Lemma call_generate_again_fails T g :
  GeneratorBase.generate_called g = true ->
  exists e, Generator.call_generate pre_generate T g = (Err e, g).
Proof.
  intros Hflag. destruct T as [build | generate schedule]; run_method.
  - eexists; reflexivity.
  - rewrite Hflag. eexists; reflexivity.
Qed.

Lemma call_schedule_rejected T g :
  GeneratorBase.generate_called g = false
  \/ GeneratorBase.schedule_called g = true ->
  exists e, Generator.call_schedule T g = (Err e, g).
Proof.
  intros Hflag. destruct T as [build | generate schedule]; run_method.
  - eexists; reflexivity.
  - destruct (GeneratorBase.generate_called g); cbn;
      [| eexists; reflexivity].
    destruct Hflag as [Hflag | Hflag]; [discriminate |].
    rewrite Hflag. eexists; reflexivity.
Qed.

Lemma build_pipeline_again_fails T g :
  GeneratorBase.build_pipeline_called g = true ->
  exists e,
    Generator.build_pipeline pre_build pre_generate produce_pipeline T g
    = (Err e, g).
Proof.
  intros Hflag. destruct T as [build | generate schedule]; run_method;
    rewrite Hflag; eexists; reflexivity.
Qed.

End Lifecycle.

(** C2. With [generate()] and [schedule()]: [call_schedule] before a
    successful [call_generate] fails; after a successful [call_generate],
    [call_schedule] or [build_pipeline], the same call on the same instance
    fails (for [build_pipeline] also with [build()]).  Each of these
    failures leaves the instance exactly as it was, so what the first call
    produced is still there. *)
Theorem lifecycle_calls_once_in_order :
  forall (Body Pipeline : Type) (pre_build pre_generate : M Body unit)
         (produce_pipeline : M Body Pipeline),
    (forall (generate schedule : M Body unit) (g : GeneratorBase.t Body),
        GeneratorBase.generate_called g = false ->
        exists e,
          Generator.call_schedule
            (@Generator.WithGenerate Body Pipeline generate schedule) g
          = (Err e, g))
    /\ (forall (generate schedule : M Body unit) (b : Body),
        exists e,
          Generator.call_schedule
            (@Generator.WithGenerate Body Pipeline generate schedule)
            (GeneratorBase.make b)
          = (Err e, GeneratorBase.make b))
    /\ (forall (generate schedule : M Body unit) (g g' : GeneratorBase.t Body),
        Generator.call_generate pre_generate
          (@Generator.WithGenerate Body Pipeline generate schedule) g
        = (Ok tt, g') ->
        exists e,
          Generator.call_generate pre_generate
            (@Generator.WithGenerate Body Pipeline generate schedule) g'
          = (Err e, g'))
    /\ (forall (generate schedule : M Body unit) (g g' : GeneratorBase.t Body),
        Generator.call_schedule
          (@Generator.WithGenerate Body Pipeline generate schedule) g
        = (Ok tt, g') ->
        exists e,
          Generator.call_schedule
            (@Generator.WithGenerate Body Pipeline generate schedule) g'
          = (Err e, g'))
    /\ (forall (T : @Generator.methods Body Pipeline)
               (g g' : GeneratorBase.t Body) (p : Pipeline),
        Generator.build_pipeline pre_build pre_generate produce_pipeline T g
        = (Ok p, g') ->
        exists e,
          Generator.build_pipeline pre_build pre_generate produce_pipeline T g'
          = (Err e, g')).
Proof.
  intros Body Pipeline pre_build pre_generate produce_pipeline.
  split; [| split; [| split; [| split]]].
  - intros generate schedule g Hflag. apply call_schedule_rejected. now left.
  - intros generate schedule b. apply call_schedule_rejected. now left.
  - intros generate schedule g g' Hcall.
    apply call_generate_again_fails.
    now apply call_generate_sets_flag in Hcall.
  - intros generate schedule g g' Hcall.
    apply call_schedule_rejected. right.
    now apply call_schedule_sets_flag in Hcall.
  - intros T g g' p Hcall.
    apply build_pipeline_again_fails.
    now apply build_pipeline_sets_flag in Hcall.
Qed.

(** The C2 theorem on a fresh instance of the logging generators:
    [generate], [schedule] and [build] each succeed once and fail the
    second time, the log of the first call untouched. *)
Lemma lifecycle_calls_once_in_order_witness :
  let fresh := GeneratorBase.make ([] : list string) in
  let g1 := GeneratorBase.mk false true false "" ["generate"] in
  let g2 := GeneratorBase.mk false true true "" ["generate"; "schedule"] in
  let g3 := GeneratorBase.mk true false false "" ["build"] in
  Generator.call_generate (ret tt) phased_example fresh = (Ok tt, g1)
  /\ (exists e, Generator.call_generate (ret tt) phased_example g1 = (Err e, g1))
  /\ Generator.call_schedule phased_example g1 = (Ok tt, g2)
  /\ (exists e, Generator.call_schedule phased_example g2 = (Err e, g2))
  /\ Generator.build_pipeline (ret tt) (ret tt) (ret "produced") one_shot_example fresh
     = (Ok "pipeline", g3)
  /\ (exists e,
        Generator.build_pipeline (ret tt) (ret tt) (ret "produced") one_shot_example g3
        = (Err e, g3)).
Proof.
  intros fresh g1 g2 g3.
  pose proof (lifecycle_calls_once_in_order (list string) string
                (ret tt) (ret tt) (ret "produced"))
    as (_ & _ & Hgen & Hsched & Hbuild).
  assert (H1 : Generator.call_generate (ret tt) phased_example fresh
               = (Ok tt, g1)) by reflexivity.
  assert (H2 : Generator.call_schedule phased_example g1 = (Ok tt, g2))
    by reflexivity.
  assert (H3 : Generator.build_pipeline (ret tt) (ret tt) (ret "produced")
                 one_shot_example fresh = (Ok "pipeline", g3))
    by reflexivity.
  split; [exact H1 |].
  split; [exact (Hgen _ _ _ _ H1) |].
  split; [exact H2 |].
  split; [exact (Hsched _ _ _ _ H2) |].
  split; [exact H3 |].
  exact (Hbuild _ _ _ _ H3).
Defined.

(** ** The registry *)

Section RegistryFacts.
Context {Body : Type}.
Implicit Types (r : @GeneratorRegistry.t Body) (f : GeneratorFactory Body).

Lemma register_factory_unfold (name : string) f r :
  GeneratorRegistry.register_factory name f r =
  match GeneratorRegistry.factories r !! name with
  | None => (Ok tt, GeneratorRegistry.mk (<[name := f]> (GeneratorRegistry.factories r)))
  | Some _ => (Err (UserError "RegistryError::DuplicateName"), r)
  end.
Proof.
  unfold GeneratorRegistry.register_factory, bind, get, user_assert, put.
  destruct (GeneratorRegistry.factories r !! name) eqn:Hl.
  - rewrite bool_decide_eq_false_2 by discriminate. reflexivity.
  - rewrite bool_decide_eq_true_2 by reflexivity. reflexivity.
Qed.

End RegistryFacts.

(** C9.  Registering a factory under a name that is taken fails and leaves
    the registry as it was; under a free name it succeeds, after which
    [create] with that name runs that factory and every other name resolves
    as before.  [create] with a name that is not registered fails.  The
    instance a [SimpleGeneratorFactory] creates is the object its
    [create_func] made in this call, with the wrapper class name set and
    then the textual overrides applied to it by
    [set_generator_param_values]; a failure of either step fails
    [create]. *)
Theorem registry_rejects_duplicates_and_unknown_names :
  forall (Body : Type)
         (set_generator_param_values :
            GeneratorParamValues -> M (GeneratorBase.t Body) unit),
    (forall (r : @GeneratorRegistry.t Body) name (f f0 : GeneratorFactory Body),
        GeneratorRegistry.factories r !! name = Some f0 ->
        exists e, GeneratorRegistry.register_factory name f r = (Err e, r))
    /\ (forall (r : @GeneratorRegistry.t Body) name (f : GeneratorFactory Body),
        GeneratorRegistry.factories r !! name = None ->
        exists r',
          GeneratorRegistry.register_factory name f r = (Ok tt, r')
          /\ (forall params,
                 GeneratorRegistry.create name params r' = f params)
          /\ (forall other params,
                 other <> name ->
                 GeneratorRegistry.create other params r'
                 = GeneratorRegistry.create other params r))
    /\ (forall (r : @GeneratorRegistry.t Body) name params,
        GeneratorRegistry.factories r !! name = None ->
        exists e, GeneratorRegistry.create name params r = Err e)
    /\ (forall (r : @GeneratorRegistry.t Body) name params
               (sf : @SimpleGeneratorFactory.t Body) (g0 : GeneratorBase.t Body),
        GeneratorRegistry.factories r !! name
        = Some (SimpleGeneratorFactory.create set_generator_param_values sf) ->
        SimpleGeneratorFactory.create_func sf tt = Some g0 ->
        GeneratorRegistry.create name params r
        = match GeneratorBase.set_wrapper_class_name
                  (SimpleGeneratorFactory.wrapper_class_name sf) g0 with
          | (Ok _, g1) =>
              match set_generator_param_values params g1 with
              | (Ok _, g2) => Ok g2
              | (Err e, _) => Err e
              end
          | (Err e, _) => Err e
          end).
Proof.
  intros Body set_generator_param_values. split; [| split; [| split]].
  - intros r name f f0 Hl. eexists.
    rewrite register_factory_unfold, Hl. reflexivity.
  - intros r name f Hl.
    exists (GeneratorRegistry.mk (<[name := f]> (GeneratorRegistry.factories r))).
    split; [rewrite register_factory_unfold, Hl; reflexivity | split].
    + intros params. unfold GeneratorRegistry.create. cbn.
      now rewrite lookup_insert_eq.
    + intros other params Hne. unfold GeneratorRegistry.create. cbn.
      now rewrite lookup_insert_ne by congruence.
  - intros r name params Hl. eexists.
    unfold GeneratorRegistry.create, GeneratorFactory in *.
    rewrite Hl. reflexivity.
  - intros r name params sf g0 Hl Hnew.
    unfold GeneratorRegistry.create, GeneratorFactory in *. rewrite Hl.
    unfold SimpleGeneratorFactory.create, bind. rewrite Hnew.
    destruct (GeneratorBase.set_wrapper_class_name _ g0) as [[[] | e] g1];
      reflexivity.
Qed.

(** The C9 theorem on a registry holding the factory of
    wraptest_generator.cpp under the name [wraptest]. *)
Lemma registry_rejects_duplicates_and_unknown_names_witness :
  let f := SimpleGeneratorFactory.create recording_overrides wraptest_factory in
  let overrides : GeneratorParamValues := {[ "vectorize" := "false" ]} in
  let r1 := GeneratorRegistry.mk (<["wraptest" := f]> ∅) in
  GeneratorRegistry.register_factory "wraptest" f GeneratorRegistry.empty
  = (Ok tt, r1)
  /\ (exists e, GeneratorRegistry.register_factory "wraptest" f r1 = (Err e, r1))
  /\ (exists e, GeneratorRegistry.create "missing" overrides r1 = Err e)
  /\ GeneratorRegistry.create "wraptest" overrides r1
     = Ok (GeneratorBase.mk false false false "WrapNS1::WrapNS2::Wrapper"
             [overrides]).
Proof.
  intros f overrides r1.
  pose proof (registry_rejects_duplicates_and_unknown_names
                (list GeneratorParamValues) recording_overrides)
    as (Hdup & _ & Hmissing & Hcreate).
  assert (Hl : GeneratorRegistry.factories r1 !! "wraptest" = Some f)
    by apply lookup_insert_eq.
  assert (Hm : GeneratorRegistry.factories r1 !! "missing" = None).
  { cbn. rewrite lookup_insert_ne by discriminate. apply lookup_empty. }
  split; [| split; [| split]].
  - rewrite register_factory_unfold. cbn.
    rewrite (lookup_empty (M := gmap string)). reflexivity.
  - exact (Hdup r1 "wraptest" f f Hl).
  - exact (Hmissing r1 "missing" overrides Hm).
  - rewrite (Hcreate r1 "wraptest" overrides wraptest_factory
               (GeneratorBase.make []) Hl eq_refl).
    reflexivity.
Defined.

(** ** Metadata *)

Lemma flat_map_length_sum {A B} (f : A -> list B) (l : list A) :
  length (flat_map f l) = sum_list (map (fun x => length (f x)) l).
Proof.
  induction l as [| a l IH]; cbn; [reflexivity |].
  rewrite length_app, IH. reflexivity.
Qed.

(** The [i]-th element of the part of [x], the [k]-th member of [l], sits
    behind the parts of the members in front of [x]. *)
Lemma flat_map_lookup {A B} (f : A -> list B) (l : list A) (k i : nat) (x : A) :
  l !! k = Some x -> (i < length (f x))%nat ->
  flat_map f l !! (length (flat_map f (take k l)) + i)%nat = f x !! i.
Proof.
  revert k. induction l as [| a l IH]; intros k Hk Hi; [discriminate |].
  destruct k as [| k]; cbn in Hk |- *.
  - injection Hk as ->. now apply lookup_app_l.
  - rewrite length_app, <- Nat.add_assoc.
    rewrite lookup_app_r by lia.
    replace (length (f a) + (length (flat_map f (take k l)) + i) - length (f a))%nat
      with (length (flat_map f (take k l)) + i)%nat by lia.
    now apply IH.
Qed.

Section EmitterFacts.
Context (d : Declarations).

Lemma input_rows_length (g : GeneratorInput.t) :
  length (input_rows d g) = input_row_count d g.
Proof.
  unfold input_rows, GeneratorInput.init_internals,
    GeneratorInput.set_def_min_max, GeneratorInput.init_parameters,
    input_row_count.
  cbn [GeneratorInput.TBase GeneratorInput.with_parameters
       GeneratorInput.parameters_].
  destruct (GeneratorInput.TBase g);
    cbn [GeneratorInput.parameters_ GeneratorInput.with_parameters];
    rewrite !length_map, length_seq; reflexivity.
Qed.

Lemma input_rows_name (g : GeneratorInput.t) (i : nat) :
  (i < input_row_count d g)%nat ->
  exists row,
    input_rows d g !! i = Some row
    /\ arg_name row = GIOBase.array_name i (GeneratorInput.base g).
Proof.
  intros Hi.
  unfold input_rows, GeneratorInput.init_internals,
    GeneratorInput.set_def_min_max, GeneratorInput.init_parameters,
    input_row_count in *.
  cbn [GeneratorInput.TBase GeneratorInput.with_parameters
       GeneratorInput.parameters_].
  destruct (GeneratorInput.TBase g);
    cbn [GeneratorInput.parameters_ GeneratorInput.with_parameters];
    rewrite ?list_lookup_fmap, lookup_seq_lt by assumption;
    cbn; eexists; split; try reflexivity;
    destruct (GeneratorInput.min_ g), (GeneratorInput.max_ g); reflexivity.
Qed.

Lemma output_element_rows_length (g : GIOBase.t) (i : nat) :
  length (output_element_rows d g i) = length (GIOBase.types_ g).
Proof.
  unfold output_element_rows, GIOBase.declared_types.
  now rewrite length_imap, length_map.
Qed.

End EmitterFacts.

Lemma sum_list_constant {A} (c : nat) (l : list A) :
  sum_list (map (fun _ => c) l) = (length l * c)%nat.
Proof. induction l as [| a l IH]; cbn; [reflexivity | now rewrite IH]. Qed.

Section ArgumentOrder.
Context (d : Declarations).

Lemma input_part_length (l : list GeneratorInput.t) :
  length (flat_map (input_rows d) l) = sum_list (map (input_row_count d) l).
Proof.
  rewrite flat_map_length_sum. f_equal.
  apply map_ext. intros g. apply input_rows_length.
Qed.

Lemma output_rows_length (g : GIOBase.t) :
  length (output_rows d g) = output_row_count d g.
Proof.
  unfold output_rows, output_row_count.
  rewrite flat_map_length_sum.
  rewrite (map_ext _ (fun _ => length (GIOBase.types_ g)))
    by (intros i; apply output_element_rows_length).
  now rewrite sum_list_constant, length_seq.
Qed.

Lemma output_part_length (l : list GIOBase.t) :
  length (flat_map (output_rows d) l) = sum_list (map (output_row_count d) l).
Proof.
  rewrite flat_map_length_sum. f_equal.
  apply map_ext. intros g. apply output_rows_length.
Qed.

Lemma take_le_sum {A} (f : A -> nat) (l : list A) (k : nat) (x : A) :
  l !! k = Some x ->
  (sum_list (map f (take k l)) + f x <= sum_list (map f l))%nat.
Proof.
  revert k. induction l as [| a l IH]; intros k Hk; [discriminate |].
  destruct k as [| k]; cbn in Hk |- *.
  - injection Hk as ->. lia.
  - specialize (IH k Hk). lia.
Qed.

(** Where the row of the [i]-th element of the [k]-th input is. *)
Lemma input_row_position (k i : nat) (g : GeneratorInput.t) :
  filter_inputs d !! k = Some g ->
  (i < input_row_count d g)%nat ->
  exists row,
    metadata_arguments d !! (input_offset d k + i)%nat = Some row
    /\ arg_name row = GIOBase.array_name i (GeneratorInput.base g).
Proof.
  intros Hk Hi.
  destruct (input_rows_name d g i Hi) as (row & Hrow & Hname).
  exists row. split; [| exact Hname].
  unfold metadata_arguments, input_offset.
  pose proof (take_le_sum (input_row_count d) _ _ _ Hk) as Hle.
  rewrite lookup_app_r by (destruct (has_user_context d); cbn; lia).
  replace (_ + _ + i - _)%nat
    with (sum_list (map (input_row_count d) (take k (filter_inputs d))) + i)%nat
    by (destruct (has_user_context d); cbn; lia).
  rewrite lookup_app_l by (rewrite input_part_length; lia).
  rewrite <- input_part_length.
  rewrite flat_map_lookup with (x := g);
    [exact Hrow | exact Hk | now rewrite input_rows_length].
Qed.

(** Where the row of the [j]-th type of the [i]-th element of the [k]-th
    output is, and how it is named. *)
Lemma output_row_position (k i j : nat) (g : GIOBase.t) :
  filter_outputs d !! k = Some g ->
  (i < Z.to_nat (GIOBase.array_size (int_params d) g))%nat ->
  (j < length (GIOBase.types_ g))%nat ->
  exists row,
    metadata_arguments d
      !! (output_offset d k + i * length (GIOBase.types_ g) + j)%nat = Some row
    /\ arg_kind row = halide_argument_kind_output_buffer
    /\ arg_name row =
       if (1 <? Z.of_nat (length (GIOBase.types_ g)))
       then GIOBase.array_name i g +:+ "." +:+ print_N (N.of_nat j)
       else GIOBase.array_name i g.
Proof.
  intros Hk Hi Hj.
  set (nt := length (GIOBase.types_ g)) in *.
  assert (Hel : exists row,
             output_element_rows d g i !! j = Some row
             /\ arg_kind row = halide_argument_kind_output_buffer
             /\ arg_name row =
                if (1 <? Z.of_nat nt)
                then GIOBase.array_name i g +:+ "." +:+ print_N (N.of_nat j)
                else GIOBase.array_name i g).
  { unfold output_element_rows. rewrite list_lookup_imap.
    unfold GIOBase.declared_types. rewrite list_lookup_fmap.
    destruct (GIOBase.types_ g !! j) as [ty |] eqn:Hty.
    - cbn. eexists. split; [reflexivity | split; [reflexivity |]].
      cbn. rewrite length_map. reflexivity.
    - apply lookup_ge_None in Hty. unfold nt in Hj. lia. }
  destruct Hel as (row & Hrow & Hkind & Hname).
  exists row. split; [| split; assumption].
  assert (Hin : output_rows d g !! (i * nt + j)%nat = Some row).
  { unfold output_rows.
    pose proof (flat_map_lookup (output_element_rows d g)
                  (seq 0 (Z.to_nat (GIOBase.array_size (int_params d) g)))
                  i j i) as Hfl.
    rewrite flat_map_length_sum in Hfl.
    rewrite (map_ext _ (fun _ => nt)) in Hfl
      by (intros i0; apply output_element_rows_length).
    rewrite sum_list_constant, length_take, length_seq in Hfl.
    replace (i `min` Z.to_nat (GIOBase.array_size (int_params d) g))%nat
      with i in Hfl by lia.
    rewrite Hfl; [exact Hrow | now apply lookup_seq_lt |].
    rewrite output_element_rows_length. exact Hj. }
  unfold metadata_arguments, output_offset, input_offset.
  rewrite firstn_all.
  pose proof (take_le_sum (output_row_count d) _ _ _ Hk) as Hle.
  pose proof (output_rows_length g) as Hlen.
  assert (Hlt : (i * nt + j < output_row_count d g)%nat).
  { unfold output_row_count. fold nt. nia. }
  rewrite lookup_app_r by (destruct (has_user_context d); cbn; lia).
  rewrite lookup_app_r
    by (rewrite input_part_length; destruct (has_user_context d); cbn; lia).
  rewrite input_part_length.
  replace (_ - _ - _)%nat
    with (sum_list (map (output_row_count d) (take k (filter_outputs d)))
          + (i * nt + j))%nat
    by (destruct (has_user_context d); cbn; lia).
  rewrite <- output_part_length.
  rewrite flat_map_lookup with (x := g);
    [exact Hin | exact Hk | now rewrite Hlen].
Qed.

End ArgumentOrder.

(** ** What [check_metadata] pins down *)

Lemma match_argument_name (e a : halide_filter_argument_t) :
  match_argument e a = true -> arg_name a = arg_name e.
Proof.
  unfold match_argument. rewrite !andb_true_iff.
  intros Hall. decompose [and] Hall.
  symmetry. now apply String.eqb_eq.
Qed.

Lemma match_arguments_names (n : nat)
  (expected actual : list halide_filter_argument_t) :
  match_arguments n expected actual = true ->
  map arg_name (take n actual) = map arg_name (take n expected)
  /\ (n <= length expected)%nat /\ (n <= length actual)%nat.
Proof.
  revert expected actual.
  induction n as [| n IH]; intros expected actual; cbn.
  - intros _. repeat split; lia.
  - destruct expected as [| e expected]; [discriminate |].
    destruct actual as [| a actual]; [discriminate |].
    rewrite andb_true_iff. intros [Hrow Hrest].
    destruct (IH _ _ Hrest) as (Hnames & He & Ha).
    cbn. rewrite Hnames, (match_argument_name _ _ Hrow).
    repeat split; lia.
Qed.

(** A record that [check_metadata] accepts lists its arguments under the
    names of the table, in the order of the table. *)
Lemma check_metadata_names (md : halide_filter_metadata_t) (ucon : bool) :
  check_metadata md ucon = true ->
  map arg_name (take (Z.to_nat (num_arguments md)) (arguments md))
  = drop (if ucon then 0 else 1)%nat expected_argument_names.
Proof.
  unfold check_metadata. rewrite !andb_true_iff.
  intros (_ & Hcount & Hrows).
  apply Z.eqb_eq in Hcount.
  apply match_arguments_names in Hrows as (Hnames & Hlen & _).
  rewrite Hnames.
  change expected_argument_names with (map arg_name kExpectedArguments).
  rewrite skipn_map. f_equal.
  apply take_ge. rewrite length_drop in *.
  change (length kExpectedArguments) with 44%nat in *.
  destruct ucon; lia.
Qed.

(** C1.  The argument table of every built instance: the context argument,
    when the generator has one, is row 0; the row of element [i] of the
    [k]-th declared input stands at the number of rows of the context
    argument and of the inputs declared before it, plus [i], and is named
    by [array_name]; the rows of the [k]-th declared output stand likewise
    behind all input rows and the rows of the outputs declared before it;
    [array_name] of an array element is ["{name}_{i}"].  So rows follow
    declaration order and, inside an array, ascending index, whatever the
    names and types are.  On the side of the repository's own test: a
    record that [check_metadata] accepts lists exactly the names of
    [kExpectedArguments] in the order of the table, and the table this
    emitter makes for the generator of the test is accepted, with and
    without the context argument. *)
Theorem metadata_rows_follow_declaration_order :
  (forall g : GeneratorBase.t Declarations,
      built g = true ->
      exists md,
        emit_metadata g = Ok md
        /\ arguments md = metadata_arguments (GeneratorBase.body g)
        /\ num_arguments md = Z.of_nat (length (arguments md)))
  /\ (forall d : Declarations,
      (has_user_context d = true ->
       metadata_arguments d !! 0%nat = Some user_context_row)
      /\ (forall (k i : nat) (g : GeneratorInput.t),
          filter_inputs d !! k = Some g ->
          (i < input_row_count d g)%nat ->
          exists row,
            metadata_arguments d !! (input_offset d k + i)%nat = Some row
            /\ arg_name row = GIOBase.array_name i (GeneratorInput.base g))
      /\ (forall (k i j : nat) (g : GIOBase.t),
          filter_outputs d !! k = Some g ->
          (i < Z.to_nat (GIOBase.array_size (int_params d) g))%nat ->
          (j < length (GIOBase.types_ g))%nat ->
          exists row,
            metadata_arguments d
              !! (output_offset d k + i * length (GIOBase.types_ g) + j)%nat
            = Some row
            /\ arg_kind row = halide_argument_kind_output_buffer
            /\ arg_name row =
               if (1 <? Z.of_nat (length (GIOBase.types_ g)))
               then GIOBase.array_name i g +:+ "." +:+ print_N (N.of_nat j)
               else GIOBase.array_name i g)
      /\ length (metadata_arguments d)
         = output_offset d (length (filter_outputs d)))
  /\ (forall (g : GIOBase.t) (i : nat),
      GIOBase.is_array_ g = true ->
      GIOBase.array_name i g
      = GIOBase.name_ g +:+ "_" +:+ print_N (N.of_nat i))
  /\ (forall (md : halide_filter_metadata_t) (ucon : bool),
      check_metadata md ucon = true ->
      map arg_name (take (Z.to_nat (num_arguments md)) (arguments md))
      = drop (if ucon then 0 else 1)%nat expected_argument_names)
  /\ (forall ucon : bool,
      exists md,
        emit_metadata (GeneratorBase.mk true true true ""
                         (metadata_tester ucon)) = Ok md
        /\ check_metadata md ucon = true)
  /\ map (fun row => (arg_name row, arg_kind row, arg_dimensions row, arg_type row))
         (metadata_arguments ordering_example)
     = [("count", halide_argument_kind_input_scalar, 0, Int 32);
        ("pixels_0", halide_argument_kind_input_buffer, 3, UInt 8);
        ("pixels_1", halide_argument_kind_input_buffer, 3, UInt 8);
        ("sum", halide_argument_kind_output_buffer, 0, Float 32)].
Proof.
  split; [| split; [| split; [| split; [| split]]]].
  - intros g Hbuilt. unfold emit_metadata. rewrite Hbuilt.
    eexists. split; [reflexivity | split; reflexivity].
  - intros d. split; [| split; [| split]].
    + intros Hucon. unfold metadata_arguments. rewrite Hucon. reflexivity.
    + intros k i g. apply input_row_position.
    + intros k i j g. apply output_row_position.
    + unfold metadata_arguments, output_offset, input_offset.
      rewrite !firstn_all, !length_app, input_part_length, output_part_length.
      destruct (has_user_context d); reflexivity.
  - intros g i Harr. unfold GIOBase.array_name, GIOBase.is_array, GIOBase.name.
    now rewrite Harr.
  - apply check_metadata_names.
  - intros ucon. eexists. split; [reflexivity |].
    destruct ucon; vm_compute; reflexivity.
  - vm_compute. reflexivity.
Qed.

(** The C1 theorem on the generator of the metadata test, built with the
    context argument: [array2_i8], the 20th declared input, has its element
    1 in row 24, and the rows of [array_outputs], the third output, start
    behind the 35 rows of the context argument and the inputs and the 3
    rows of the outputs before it. *)
Lemma metadata_rows_follow_declaration_order_witness :
  let d := metadata_tester true in
  (exists row,
      metadata_arguments d !! 24%nat = Some row
      /\ arg_name row = "array2_i8_1")
  /\ (exists row,
      metadata_arguments d !! 39%nat = Some row
      /\ arg_name row = "array_outputs_1").
Proof.
  intros d.
  pose proof metadata_rows_follow_declaration_order as (_ & Hpos & _).
  destruct (Hpos d) as (_ & Hin & Hout & _).
  split.
  - destruct (Hin 19%nat 1%nat
                (GeneratorInput.with_name (ty_int int8_t) (fixed 2) true "array2_i8")
                eq_refl) as (row & Hrow & Hname).
    { vm_compute. lia. }
    exists row. split; [exact Hrow | exact Hname].
  - destruct (Hout 2%nat 1%nat 0%nat
                (GeneratorOutput.of_func array_count true "array_outputs"
                   [ArgWithParam.of_value (Float 32)] (fixed 3))
                eq_refl) as (row & Hrow & _ & Hname).
    { vm_compute. lia. }
    { vm_compute. lia. }
    exists row. split; [exact Hrow | exact Hname].
Defined.

(** ** Defaults and bounds in metadata rows *)

Lemma expect_scalar_union_eq_presence (type_code type_bits : Z)
  (e a : option halide_scalar_value_t) :
  EXPECT_SCALAR_UNION_EQ type_code type_bits e a = true ->
  (e = None <-> a = None).
Proof.
  unfold EXPECT_SCALAR_UNION_EQ, scalar_union_ptr_equal.
  destruct e, a; try discriminate; intros _; split; congruence.
Qed.

Section InputRows.
Context (d : Declarations).

(** The rows of a scalar input, element by element. *)
Lemma scalar_input_rows (T : scalar_type) (array_size : ArgWithParam.t Z)
  (is_array : bool) (n : string) (def : Z) (min max : option Z)
  (row : halide_filter_argument_t) :
  let g := GeneratorInput.mk
             (GIOBase.make array_size n Scalar
                [ArgWithParam.of_value (type_of T)] (ArgWithParam.of_value 0)
                is_array)
             [] (Some T) def min max in
  In row (input_rows d g) ->
  arg_kind row = halide_argument_kind_input_scalar
  /\ arg_type row = type_of T
  /\ arg_def row = (if is_arithmetic T then Some (scalar_of (type_of T) def)
                    else None)
  /\ arg_min row = scalar_of (type_of T) <$> min
  /\ arg_max row = scalar_of (type_of T) <$> max.
Proof.
  intros g. unfold input_rows, GeneratorInput.init_internals,
    GeneratorInput.set_def_min_max, GeneratorInput.init_parameters.
  cbn [g GeneratorInput.TBase GeneratorInput.with_parameters
       GeneratorInput.parameters_ GeneratorInput.base GeneratorInput.def_
       GeneratorInput.min_ GeneratorInput.max_].
  rewrite !map_map. intros Hin. apply in_map_iff in Hin as (i & <- & _).
  destruct T as [| t | | |]; try destruct t;
    destruct min, max; repeat split; reflexivity.
Qed.

End InputRows.



(** C8, amended.  The equality of the test tells an absent default,
    minimum or maximum from a present one, whatever its value, zero
    included: [scalar_union_ptr_equal] answers false for an absent and a
    present scalar, and two rows that [match_argument] accepts have each of
    the three present in both or absent in both.  In the rows of a scalar
    input, the minimum and the maximum are absent exactly when the input was
    declared without them, and the default is absent for a handle; for an
    arithmetic type the default is always present, being zero when the
    input was declared by name only. *)
Theorem absent_scalar_differs_from_present_zero :
  (forall (type_code type_bits : Z) (s : halide_scalar_value_t),
      scalar_union_ptr_equal type_code type_bits None (Some s) = Some false
      /\ scalar_union_ptr_equal type_code type_bits (Some s) None = Some false
      /\ scalar_union_ptr_equal type_code type_bits None None = Some true)
  /\ (forall e a : halide_filter_argument_t,
      match_argument e a = true ->
      (arg_def e = None <-> arg_def a = None)
      /\ (arg_min e = None <-> arg_min a = None)
      /\ (arg_max e = None <-> arg_max a = None))
  /\ (forall (d : Declarations) (T : scalar_type)
             (array_size : ArgWithParam.t Z) (is_array : bool) (n : string)
             (def : Z) (row : halide_filter_argument_t),
      In row (input_rows d (GeneratorInput.with_def T array_size is_array n def)) ->
      arg_min row = None /\ arg_max row = None
      /\ (arg_def row = None <-> T = ty_handle)
      /\ (is_arithmetic T = true ->
          arg_def row = Some (scalar_of (type_of T) def)))
  /\ (forall (d : Declarations) (T : scalar_type)
             (array_size : ArgWithParam.t Z) (is_array : bool) (n : string)
             (def min max : Z) (row : halide_filter_argument_t),
      In row (input_rows d (GeneratorInput.with_def_min_max T array_size
                              is_array n def min max)) ->
      arg_min row = Some (scalar_of (type_of T) min)
      /\ arg_max row = Some (scalar_of (type_of T) max)
      /\ (arg_def row = None <-> T = ty_handle)
      /\ (is_arithmetic T = true ->
          arg_def row = Some (scalar_of (type_of T) def)))
  /\ (forall (d : Declarations) (T : scalar_type)
             (array_size : ArgWithParam.t Z) (is_array : bool) (n : string)
             (row : halide_filter_argument_t),
      In row (input_rows d (GeneratorInput.with_name T array_size is_array n)) ->
      arg_min row = None /\ arg_max row = None
      /\ (arg_def row = None <-> T = ty_handle)
      /\ (is_arithmetic T = true -> arg_def row = Some (mk_scalar 0))).
Proof.
  split; [| split; [| split; [| split]]].
  - intros type_code type_bits s. repeat split.
  - intros e a. unfold match_argument. rewrite !andb_true_iff.
    intros Hall. decompose [and] Hall.
    split; [| split]; eapply expect_scalar_union_eq_presence; eassumption.
  - intros d T array_size is_array n def row Hin.
    apply (scalar_input_rows d T array_size is_array n def None None) in Hin
      as (_ & _ & Hdef & Hmin & Hmax).
    rewrite Hdef, Hmin, Hmax. split; [reflexivity | split; [reflexivity |]].
    split; [destruct T; cbn; split; congruence |].
    intros ->. reflexivity.
  - intros d T array_size is_array n def min max row Hin.
    apply (scalar_input_rows d T array_size is_array n def (Some min) (Some max))
      in Hin as (_ & _ & Hdef & Hmin & Hmax).
    rewrite Hdef, Hmin, Hmax. split; [reflexivity | split; [reflexivity |]].
    split; [destruct T; cbn; split; congruence |].
    intros ->. reflexivity.
  - intros d T array_size is_array n row Hin.
    apply (scalar_input_rows d T array_size is_array n 0 None None) in Hin
      as (_ & _ & Hdef & Hmin & Hmax).
    rewrite Hdef, Hmin, Hmax. split; [reflexivity | split; [reflexivity |]].
    split; [destruct T; cbn; split; congruence |].
    intros ->. unfold scalar_of. now rewrite Zmod_0_l.
Qed.

(** The C8 theorem at the rows [h], [i8] and [array_i8] of the metadata
    test: the handle has no default, the row of [i8] with its minimum taken
    away is not accepted in place of the expected one, [i8], declared with
    bounds, has its default 8 present, and [array_i8], declared by name
    only, has the default zero present and no bounds. *)
Lemma absent_scalar_differs_from_present_zero_witness :
  let d := metadata_tester true in
  let i8 := mk_argument "i8" halide_argument_kind_input_scalar 0 (Int 8)
              (Some (make_scalar (ty_int int8_t) 8))
              (Some (make_scalar (ty_int int8_t) (-8)))
              (Some (make_scalar (ty_int int8_t) 127)) in
  let i8_without_min :=
    mk_argument "i8" halide_argument_kind_input_scalar 0 (Int 8)
      (Some (make_scalar (ty_int int8_t) 8)) None
      (Some (make_scalar (ty_int int8_t) 127)) in
  (forall row,
      In row (input_rows d (GeneratorInput.with_def ty_handle
                              GeneratorInput.one false "h" 0)) ->
      arg_def row = None)
  /\ match_argument i8 i8 = true
  /\ match_argument i8 i8_without_min <> true
  /\ (forall row,
        In row (input_rows d (GeneratorInput.with_def_min_max (ty_int int8_t)
                                GeneratorInput.one false "i8" 8 (-8) 127)) ->
        arg_def row = Some (mk_scalar 8))
  /\ (forall row,
        In row (input_rows d (GeneratorInput.with_name (ty_int int8_t)
                                array_count true "array_i8")) ->
        arg_def row = Some (mk_scalar 0)
        /\ arg_min row = None /\ arg_max row = None).
Proof.
  intros d i8 i8_without_min.
  pose proof absent_scalar_differs_from_present_zero
    as (_ & Hpresence & Hdefault & Hbounds & Hname).
  split; [| split; [| split; [| split]]].
  - intros row Hin.
    destruct (Hdefault d ty_handle GeneratorInput.one false "h" 0 row Hin)
      as (_ & _ & Hdef & _).
    now apply Hdef.
  - vm_compute. reflexivity.
  - intros Hmatch. apply Hpresence in Hmatch as (_ & Hmin & _).
    cbn in Hmin. destruct Hmin as [_ Hmin].
    specialize (Hmin eq_refl). discriminate Hmin.
  - intros row Hin.
    destruct (Hbounds d (ty_int int8_t) GeneratorInput.one false "i8" 8 (-8) 127
                row Hin) as (_ & _ & _ & Hdef).
    exact (Hdef eq_refl).
  - intros row Hin.
    destruct (Hname d (ty_int int8_t) array_count true "array_i8" row Hin)
      as (Hmin & Hmax & _ & Hdef).
    split; [exact (Hdef eq_refl) | split; assumption].
Defined.

(** C8 as stated fails for an arithmetic input: the header cannot declare
    one without a default.  Declared by name only, [Input<int8_t> x{"x"}]
    is the very descriptor [Input<int8_t> x{"x", 0}] is, its row has the
    default present with value zero, and the test's equality accepts the
    one row for the other. *)
Lemma no_default_is_default_zero :
  let d := ordering_example in
  let undeclared := GeneratorInput.with_name (ty_int int8_t) GeneratorInput.one false "x" in
  let declared := GeneratorInput.with_def (ty_int int8_t) GeneratorInput.one false "x" 0 in
  let row := mk_argument "x" halide_argument_kind_input_scalar 0 (Int 8)
               (Some (mk_scalar 0)) None None in
  undeclared = declared
  /\ input_rows d undeclared = [row]
  /\ input_rows d declared = [row]
  /\ arg_def row <> None
  /\ match_argument row row = true.
Proof.
  cbv zeta. split; [reflexivity |].
  split; [vm_compute; reflexivity |].
  split; [vm_compute; reflexivity |].
  split; [discriminate | vm_compute; reflexivity].
Qed.

(** * Further properties of the code *)

(** ** [GeneratorParam_Arithmetic]: what the constructor and the setters keep *)

(** The value of every arithmetic parameter a program can hold lies within
    the parameter's bounds: the constructor fails for a default outside
    them, and neither [set] nor [set_from_string] ever stores a value
    outside them or changes the bounds. *)
Theorem arithmetic_value_stays_within_bounds :
  forall (T : Type) (ord : Ordered T) (io : Streamed T)
         (p : GeneratorParam_Arithmetic.t T),
    constructed io p ->
    ge (GeneratorParam_Arithmetic.value p) (GeneratorParam_Arithmetic.min p)
    && le (GeneratorParam_Arithmetic.value p) (GeneratorParam_Arithmetic.max p)
    = true.
Proof.
  intros T ord io p Hp. induction Hp as [name v lo hi p Hmake | v p Hp IH | s p Hp IH].
  - unfold GeneratorParam_Arithmetic.make in Hmake.
    rewrite set_unfold in Hmake. cbn in Hmake.
    destruct (ge v lo && le v hi) eqn:Hb; [| discriminate].
    injection Hmake as <-. exact Hb.
  - rewrite set_unfold.
    destruct (ge v _ && le v _) eqn:Hb; [exact Hb | exact IH].
  - rewrite set_from_string_unfold. cbn zeta.
    destruct (negb _ && _); [| exact IH].
    rewrite set_unfold.
    destruct (ge (fst (op_extract (iss_open s))) _
              && le (fst (op_extract (iss_open s))) _) eqn:Hb;
      [exact Hb | exact IH].
Qed.

(** The invariant on [GeneratorParam<int32_t> p{"p", 5, 0, 10}] after
    [set_from_string("7")], [set(11)] (refused) and [set_from_string("x")]
    (refused). *)
Lemma arithmetic_value_stays_within_bounds_witness :
  let p0 := GeneratorParam_Arithmetic.mk (GeneratorParamImpl.mk "p" 5) 0 10 in
  let p1 := snd (GeneratorParam_Arithmetic.set_from_string
                   (int_streamed int32_t) "7" p0) in
  let p2 := snd (GeneratorParam_Arithmetic.set 11 p1) in
  let p3 := snd (GeneratorParam_Arithmetic.set_from_string
                   (int_streamed int32_t) "x" p2) in
  GeneratorParam_Arithmetic.value p3 = 7
  /\ ge (GeneratorParam_Arithmetic.value p3) (GeneratorParam_Arithmetic.min p3)
     && le (GeneratorParam_Arithmetic.value p3) (GeneratorParam_Arithmetic.max p3)
     = true.
Proof.
  intros p0 p1 p2 p3. split; [reflexivity |].
  apply (arithmetic_value_stays_within_bounds Z Z_ordered (int_streamed int32_t)).
  apply constructed_set_from_string, constructed_set,
    constructed_set_from_string.
  apply (constructed_make _ "p" 5 0 10). reflexivity.
Defined.

(** ** [set_from_string]: what text an integer parameter accepts *)

Lemma append_String (a : ascii) (s t : string) :
  String a s +:+ t = String a (s +:+ t).
Proof. reflexivity. Qed.

Lemma append_EmptyString (t : string) : EmptyString +:+ t = t.
Proof. reflexivity. Qed.

Lemma put_digits_app (fuel : nat) (n : N) (acc rest : string) :
  put_digits fuel n acc +:+ rest = put_digits fuel n (acc +:+ rest).
Proof.
  revert n acc. induction fuel as [| fuel IH]; intros n acc; cbn [put_digits].
  - reflexivity.
  - destruct (n / 10 =? 0)%N; [reflexivity |].
    rewrite IH, append_String. reflexivity.
Qed.

(** The digit loop stops at the first character that is no digit. *)
Lemma get_digits_stops (c : ascii) (r : string) (a : option N) :
  digit_of c = None -> get_digits (String c r) a = (a, String c r).
Proof. intros Hc. cbn [get_digits]. rewrite Hc. reflexivity. Qed.

Lemma get_digits_print_N_app (n : N) (c : ascii) (r : string) :
  digit_of c = None ->
  get_digits (print_N n +:+ String c r) None = (Some n, String c r).
Proof.
  intros Hc. unfold print_N. rewrite put_digits_app, append_EmptyString.
  destruct (get_put_digits (N.size_nat n) n (String c r) (size_nat_bound n))
    as [k Hk].
  rewrite Hk, get_digits_stops by assumption. cbn [default].
  do 2 f_equal; lia.
Qed.

(** [operator>>] reads the text of a value and leaves what follows it, when
    that starts with a character that is no digit. *)
Lemma extract_insert_number_app (t : int_type) (v : Z) (c : ascii) (r : string) :
  is_char_type t = false -> in_range t v -> digit_of c = None ->
  extract t (iss_open (insert t v +:+ String c r))
  = (v, mk_iss (String c r) false).
Proof.
  intros Hchar Hv Hc. unfold extract, insert, iss_open. cbn [failbit rdbuf].
  rewrite Hchar. unfold extract_number, insert_number. cbn [rdbuf].
  destruct (Z.ltb_spec v 0) as [Hneg | Hpos].
  - rewrite append_String. cbn [skipws].
    change (isspace "-") with false. cbn [get_sign].
    rewrite get_digits_print_N_app by assumption.
    assert (Hs : is_unsigned t = false).
    { destruct t; try reflexivity; unfold in_range in Hv; cbn in Hv; lia. }
    rewrite Hs. cbn [negb andb].
    assert (Habs : Z.of_N (Z.abs_N v) = - v) by lia.
    rewrite Habs.
    destruct (Z.leb_spec (- v) (- numeric_lowest t)) as [_ | Hbad].
    + rewrite Z.opp_involutive, wrap_in_range by assumption. reflexivity.
    + unfold in_range in Hv. lia.
  - destruct (print_N_head (Z.to_N v)) as (d & r' & Hd & Hhead).
    rewrite Hhead, append_String. cbn [skipws].
    rewrite digit_char_not_space by assumption.
    rewrite get_sign_digit by assumption.
    rewrite <- append_String, <- Hhead.
    rewrite get_digits_print_N_app by assumption. cbn [andb].
    rewrite Z2N.id by assumption.
    destruct (Z.leb_spec v (numeric_max t)) as [_ | Hbad].
    + rewrite wrap_in_range by assumption. reflexivity.
    + unfold in_range in Hv. lia.
Qed.

(** A parameter of an integral type wider than 8 bits refuses the text of a
    number followed by anything that does not continue the number: a
    letter, a decimal point, a blank.  The value is not changed. *)
Theorem trailing_characters_are_rejected :
  forall (ty : int_type) (v : Z) (c : ascii) (r : string)
         (p : GeneratorParam_Arithmetic.t Z),
    is_char_type ty = false -> in_range ty v -> digit_of c = None ->
    GeneratorParam_Arithmetic.set_from_string (int_streamed ty)
      (insert ty v +:+ String c r) p
    = (Err (UserError "Unable to parse: "), p).
Proof.
  intros ty v c r p Hchar Hv Hc. rewrite set_from_string_unfold.
  cbn [op_extract int_streamed].
  rewrite extract_insert_number_app by assumption.
  reflexivity.
Qed.

(** [GeneratorParam<int> array_count{"array_count", 2}] refuses "3 " and
    "3.5" and keeps the value 2. *)
Lemma trailing_characters_are_rejected_witness :
  let p := GeneratorParam_Arithmetic.mk (GeneratorParamImpl.mk "array_count" 2)
             (numeric_lowest int32_t) (numeric_max int32_t) in
  GeneratorParam_Arithmetic.set_from_string (int_streamed int32_t) "3 " p
  = (Err (UserError "Unable to parse: "), p)
  /\ GeneratorParam_Arithmetic.set_from_string (int_streamed int32_t) "3.5" p
     = (Err (UserError "Unable to parse: "), p).
Proof.
  intros p. split.
  - apply (trailing_characters_are_rejected int32_t 3 " " "" p);
      [reflexivity | vm_compute; split; discriminate | reflexivity].
  - apply (trailing_characters_are_rejected int32_t 3 "." "5" p);
      [reflexivity | vm_compute; split; discriminate | reflexivity].
Defined.

(** White space in front of the text is skipped, for every integral type:
    [operator>>] starts by skipping it. *)
Theorem leading_white_space_is_skipped :
  forall (ty : int_type) (c : ascii) (s : string)
         (p : GeneratorParam_Arithmetic.t Z),
    isspace c = true ->
    GeneratorParam_Arithmetic.set_from_string (int_streamed ty) (String c s) p
    = GeneratorParam_Arithmetic.set_from_string (int_streamed ty) s p.
Proof.
  intros ty c s p Hc. rewrite !set_from_string_unfold.
  cbn [op_extract int_streamed].
  assert (Hex : extract ty (iss_open (String c s)) = extract ty (iss_open s)).
  { unfold extract, iss_open. cbn [failbit rdbuf].
    destruct (is_char_type ty).
    - unfold extract_char. cbn [rdbuf skipws]. rewrite Hc. reflexivity.
    - unfold extract_number. cbn [rdbuf skipws]. rewrite Hc. reflexivity. }
  rewrite Hex. reflexivity.
Qed.

(** " 7" and a tab followed by "7" set a [GeneratorParam<int>] like "7". *)
Lemma leading_white_space_is_skipped_witness :
  let p := GeneratorParam_Arithmetic.mk (GeneratorParamImpl.mk "array_count" 2)
             (numeric_lowest int32_t) (numeric_max int32_t) in
  GeneratorParam_Arithmetic.set_from_string (int_streamed int32_t) " 7" p
  = (Ok tt, GeneratorParam_Arithmetic.with_value p 7).
Proof.
  intros p.
  rewrite (leading_white_space_is_skipped int32_t " " "7" p eq_refl).
  reflexivity.
Defined.

(** A text with nothing but white space in it, the empty text included, is
    refused by a parameter of every integral type, and the value stays. *)
Theorem blank_text_is_rejected :
  forall (ty : int_type) (s : string) (p : GeneratorParam_Arithmetic.t Z),
    skipws s = EmptyString ->
    GeneratorParam_Arithmetic.set_from_string (int_streamed ty) s p
    = (Err (UserError "Unable to parse: "), p).
Proof.
  intros ty s p Hs. rewrite set_from_string_unfold.
  cbn [op_extract int_streamed].
  unfold extract, iss_open. cbn [failbit rdbuf].
  destruct (is_char_type ty).
  - unfold extract_char. cbn [rdbuf]. rewrite Hs. reflexivity.
  - unfold extract_number. cbn [rdbuf]. rewrite Hs. reflexivity.
Qed.

(** The empty text and a text of two blanks, on an [int8_t] and on an
    [int64_t] parameter. *)
Lemma blank_text_is_rejected_witness :
  let p := GeneratorParam_Arithmetic.mk (GeneratorParamImpl.mk "p" 2) 0 10 in
  GeneratorParam_Arithmetic.set_from_string (int_streamed int8_t) "" p
  = (Err (UserError "Unable to parse: "), p)
  /\ GeneratorParam_Arithmetic.set_from_string (int_streamed int64_t) "  " p
     = (Err (UserError "Unable to parse: "), p).
Proof.
  intros p. split.
  - exact (blank_text_is_rejected int8_t "" p eq_refl).
  - exact (blank_text_is_rejected int64_t "  " p eq_refl).
Defined.

(** The text of a number the type cannot hold is refused, whatever the
    parameter's own bounds are: [operator>>] sets the fail bit on overflow.
    With a minus sign the magnitude may reach the one of the lowest value
    of a signed type, and the largest value of an unsigned one. *)
Theorem out_of_range_text_is_rejected :
  forall (ty : int_type) (n : N) (p : GeneratorParam_Arithmetic.t Z),
    is_char_type ty = false ->
    (numeric_max ty < Z.of_N n ->
     GeneratorParam_Arithmetic.set_from_string (int_streamed ty) (print_N n) p
     = (Err (UserError "Unable to parse: "), p))
    /\ ((if is_unsigned ty then numeric_max ty else - numeric_lowest ty)
        < Z.of_N n ->
        GeneratorParam_Arithmetic.set_from_string (int_streamed ty)
          (String "-" (print_N n)) p
        = (Err (UserError "Unable to parse: "), p)).
Proof.
  intros ty n p Hchar. split; intros Hn; rewrite set_from_string_unfold;
    cbn [op_extract int_streamed]; unfold extract, iss_open;
    cbn [failbit rdbuf]; rewrite Hchar; unfold extract_number; cbn [rdbuf].
  - destruct (print_N_head n) as (d & r & Hd & Hhead).
    rewrite Hhead. cbn [skipws]. rewrite digit_char_not_space by assumption.
    rewrite get_sign_digit by assumption. rewrite <- Hhead.
    rewrite get_digits_print_N. cbn [andb].
    destruct (Z.leb_spec (Z.of_N n) (numeric_max ty)); [lia | reflexivity].
  - cbn [skipws]. change (isspace "-") with false. cbn [get_sign].
    rewrite get_digits_print_N. cbn [andb].
    destruct (is_unsigned ty); cbn [negb].
    + destruct (Z.leb_spec (Z.of_N n) (numeric_max ty)); [lia | reflexivity].
    + destruct (Z.leb_spec (Z.of_N n) (- numeric_lowest ty));
        [lia | reflexivity].
Qed.

(** "2147483648" and "-2147483649" on a [GeneratorParam<int>], "65536" on a
    [GeneratorParam<uint16_t>]. *)
Lemma out_of_range_text_is_rejected_witness :
  let p := GeneratorParam_Arithmetic.mk (GeneratorParamImpl.mk "p" 2)
             (numeric_lowest int32_t) (numeric_max int32_t) in
  GeneratorParam_Arithmetic.set_from_string (int_streamed int32_t)
    "2147483648" p = (Err (UserError "Unable to parse: "), p)
  /\ GeneratorParam_Arithmetic.set_from_string (int_streamed int32_t)
       "-2147483649" p = (Err (UserError "Unable to parse: "), p)
  /\ GeneratorParam_Arithmetic.set_from_string (int_streamed uint16_t)
       "65536" p = (Err (UserError "Unable to parse: "), p).
Proof.
  intros p. split; [| split].
  - apply (proj1 (out_of_range_text_is_rejected int32_t 2147483648 p eq_refl)).
    reflexivity.
  - apply (proj2 (out_of_range_text_is_rejected int32_t 2147483649 p eq_refl)).
    reflexivity.
  - apply (proj1 (out_of_range_text_is_rejected uint16_t 65536 p eq_refl)).
    reflexivity.
Defined.

(** Negation in an unsigned type is modulo [2 ^ bits]. *)
Lemma wrap_unsigned_opp (ty : int_type) (n : Z) :
  is_unsigned ty = true -> 0 < n <= numeric_max ty ->
  wrap ty (- n) = 2 ^ bits ty - n.
Proof.
  unfold wrap, numeric_max, bits. intros Hu. rewrite Hu.
  destruct ty; try discriminate Hu; cbn; intros Hn;
    Z.div_mod_to_equations; lia.
Qed.

(** A minus sign is no error for an unsigned parameter: the text of [-n],
    for [n] up to the largest value of the type, is read as
    [2 ^ bits - n], which the parameter then checks against its bounds like
    any other value. *)
Theorem negative_text_wraps_for_unsigned :
  forall (ty : int_type) (n : N) (p : GeneratorParam_Arithmetic.t Z),
    is_char_type ty = false -> is_unsigned ty = true ->
    0 < Z.of_N n <= numeric_max ty ->
    GeneratorParam_Arithmetic.set_from_string (int_streamed ty)
      (String "-" (print_N n)) p
    = GeneratorParam_Arithmetic.set (2 ^ bits ty - Z.of_N n) p.
Proof.
  intros ty n p Hchar Hu Hn. rewrite set_from_string_unfold.
  cbn [op_extract int_streamed]. unfold extract, iss_open.
  cbn [failbit rdbuf]. rewrite Hchar. unfold extract_number. cbn [rdbuf skipws].
  change (isspace "-") with false. cbn [get_sign].
  rewrite get_digits_print_N, Hu. cbn [negb andb].
  destruct (Z.leb_spec (Z.of_N n) (numeric_max ty)) as [_ | Hbad]; [| lia].
  rewrite wrap_unsigned_opp by assumption. reflexivity.
Qed.

(** "-1" sets a [GeneratorParam<uint32_t>] with the default bounds to
    4294967295. *)
Lemma negative_text_wraps_for_unsigned_witness :
  let p := GeneratorParam_Arithmetic.mk (GeneratorParamImpl.mk "p" 2)
             (numeric_lowest uint32_t) (numeric_max uint32_t) in
  GeneratorParam_Arithmetic.set_from_string (int_streamed uint32_t) "-1" p
  = (Ok tt, GeneratorParam_Arithmetic.with_value p 4294967295).
Proof.
  intros p. etransitivity.
  - apply (negative_text_wraps_for_unsigned uint32_t 1 p eq_refl eq_refl).
    vm_compute. split; [reflexivity | discriminate].
  - reflexivity.
Defined.

(** A parameter of type [int8_t] or [uint8_t] reads its text as one
    character, not as a number: a single character that is not white space
    is accepted and stands for its character code (converted to the type),
    and any text that goes on after that character is refused.  So "7"
    offers the value 55, and "12" is refused. *)
Theorem char_typed_parameter_reads_one_character :
  forall (ty : int_type) (c : ascii) (p : GeneratorParam_Arithmetic.t Z),
    is_char_type ty = true -> isspace c = false ->
    GeneratorParam_Arithmetic.set_from_string (int_streamed ty)
      (String c EmptyString) p
    = GeneratorParam_Arithmetic.set (wrap ty (Z.of_N (N_of_ascii c))) p
    /\ (forall (d : ascii) (r : string),
           GeneratorParam_Arithmetic.set_from_string (int_streamed ty)
             (String c (String d r)) p
           = (Err (UserError "Unable to parse: "), p)).
Proof.
  intros ty c p Hchar Hc. split; [| intros d r];
    rewrite set_from_string_unfold; cbn [op_extract int_streamed];
    unfold extract, iss_open; cbn [failbit rdbuf]; rewrite Hchar;
    unfold extract_char; cbn [rdbuf skipws]; rewrite Hc; reflexivity.
Qed.

(** [GeneratorParam<int8_t> p{"p", 0}]: "7" stores 55, "12" is refused. *)
Lemma char_typed_parameter_reads_one_character_witness :
  let p := GeneratorParam_Arithmetic.mk (GeneratorParamImpl.mk "p" 0)
             (numeric_lowest int8_t) (numeric_max int8_t) in
  GeneratorParam_Arithmetic.set_from_string (int_streamed int8_t) "7" p
  = (Ok tt, GeneratorParam_Arithmetic.with_value p 55)
  /\ GeneratorParam_Arithmetic.set_from_string (int_streamed int8_t) "12" p
     = (Err (UserError "Unable to parse: "), p).
Proof.
  intros p.
  destruct (char_typed_parameter_reads_one_character int8_t "7" p
              eq_refl eq_refl) as [H7 _].
  destruct (char_typed_parameter_reads_one_character int8_t "1" p
              eq_refl eq_refl) as [_ H12].
  split; [rewrite H7; reflexivity | exact (H12 "2"%char EmptyString)].
Defined.

(** ** [enum_to_string] and [enum_from_string] *)

(** On a [std::map] (its keys are distinct), the name that [enum_to_string]
    returns for a value is read back by [enum_from_string] as that value. *)
Theorem enum_from_string_inverts_enum_to_string :
  forall (T : Type) (eqT : EqDecision T) (enum_map : std_map.t T)
         (v : T) (key : string),
    std_map.sorted enum_map ->
    enum_to_string enum_map v = Ok key ->
    enum_from_string enum_map key = Ok v.
Proof.
  intros T eqT enum_map v key Hsorted Hto.
  unfold enum_to_string in Hto. unfold enum_from_string.
  destruct (enum_to_string_loop enum_map v) as [k |] eqn:Hloop;
    [| discriminate].
  injection Hto as ->.
  apply enum_to_string_loop_In in Hloop.
  now rewrite (std_map_sorted_find _ _ _ Hsorted Hloop).
Qed.

(** The table of [bag_type] in wraptest_generator.cpp: [Plastic] is written
    as "plastic", which reads back as [Plastic]. *)
Lemma enum_from_string_inverts_enum_to_string_witness :
  enum_to_string bag_type_map Plastic = Ok "plastic"
  /\ enum_from_string bag_type_map "plastic" = Ok Plastic.
Proof.
  split; [reflexivity |].
  apply (enum_from_string_inverts_enum_to_string BagType _ bag_type_map).
  - apply std_map_of_list_sorted.
  - reflexivity.
Defined.

(** The two functions fail exactly on what the table does not hold:
    [enum_to_string] when no name carries the value, [enum_from_string]
    when the text is no name of the table.  Both then report a user
    error. *)
Theorem enum_strings_fail_exactly_on_missing_entries :
  forall (T : Type) (eqT : EqDecision T) (enum_map : std_map.t T),
    (forall v : T,
        enum_to_string enum_map v = Err (UserError "Enumeration value not found.")
        <-> ~ In v (map snd enum_map))
    /\ (forall v : T, is_ok (enum_to_string enum_map v) = true
                      <-> In v (map snd enum_map))
    /\ (forall s : string,
        enum_from_string enum_map s
        = Err (UserError "Enumeration value not found: ")
        <-> ~ In s (map fst enum_map))
    /\ (forall s : string, is_ok (enum_from_string enum_map s) = true
                           <-> In s (map fst enum_map)).
Proof.
  intros T eqT enum_map.
  assert (Hto : forall v, enum_to_string_loop enum_map v = None
                          <-> ~ In v (map snd enum_map)).
  { intros v. induction enum_map as [| [k' v'] m IH]; cbn; [tauto |].
    case_bool_decide as Hv.
    - split; [discriminate | intros Hn; exfalso; apply Hn; now left].
    - rewrite IH. split; [intros Hn [Heq | Hin]; congruence | tauto]. }
  assert (Hfrom : forall s, std_map.find s enum_map = None
                            <-> ~ In s (map fst enum_map)).
  { intros s. rewrite <- std_map_find_keys.
    destruct (std_map.find s enum_map).
    - split; [discriminate | intros Hn; exfalso; apply Hn; discriminate].
    - split; [intros _ Hn; now apply Hn | reflexivity]. }
  split; [| split; [| split]].
  - intros v. rewrite <- Hto. unfold enum_to_string.
    destruct (enum_to_string_loop enum_map v); split; congruence.
  - intros v. unfold enum_to_string.
    destruct (enum_to_string_loop enum_map v) as [k |] eqn:Hl; cbn.
    + split; [intros _ | reflexivity].
      apply enum_to_string_loop_In in Hl.
      apply in_map_iff. now exists (k, v).
    + split; [discriminate | intros Hin]. now apply Hto in Hl.
  - intros s. rewrite <- Hfrom. unfold enum_from_string.
    destruct (std_map.find s enum_map); split; congruence.
  - intros s. unfold enum_from_string.
    destruct (std_map.find s enum_map) as [v |] eqn:Hf; cbn.
    + split; [intros _ | reflexivity].
      apply std_map_find_keys. congruence.
    + split; [discriminate | intros Hin]. now apply Hfrom in Hf.
Qed.

(** ** [FuncOrExpr] and [to_func_or_expr_vector] *)

Lemma to_func_or_expr_vector_of_vector_map {T} `{IntoFuncOrExpr T} (v : list T) :
  to_func_or_expr_vector_of_vector v = map into_FuncOrExpr v.
Proof.
  unfold to_func_or_expr_vector_of_vector.
  assert (Hgen : forall r : list FuncOrExpr,
             fold_left (fun r f => (r ++ [into_FuncOrExpr f])%list) v r
             = (r ++ map into_FuncOrExpr v)%list).
  { induction v as [| x v IH]; intros r; cbn.
    - now rewrite app_nil_r.
    - rewrite IH, <- app_assoc. reflexivity. }
  apply Hgen.
Qed.

(** A vector of [Func]s turned into [FuncOrExpr]s keeps its length and its
    order: [func()] on the i-th element returns the i-th [Func], and
    [expr()] fails on every element.  The same holds with the roles
    exchanged for a vector of [Expr]s.  On any [FuncOrExpr] exactly one of
    the two accessors succeeds, the one [kind()] names. *)
Theorem func_or_expr_vector_reads_back :
  (forall fs : list Func,
      map FuncOrExpr_.func (to_func_or_expr_vector_of_vector fs) = map Ok fs
      /\ Forall (fun x => FuncOrExpr_.kind x = Function
                          /\ is_ok (FuncOrExpr_.expr x) = false)
                (to_func_or_expr_vector_of_vector fs))
  /\ (forall es : list Expr,
      map FuncOrExpr_.expr (to_func_or_expr_vector_of_vector es) = map Ok es
      /\ Forall (fun x => FuncOrExpr_.kind x = Scalar
                          /\ is_ok (FuncOrExpr_.func x) = false)
                (to_func_or_expr_vector_of_vector es))
  /\ (forall x : FuncOrExpr,
      is_ok (FuncOrExpr_.func x) = bool_decide (FuncOrExpr_.kind x = Function)
      /\ is_ok (FuncOrExpr_.expr x) = bool_decide (FuncOrExpr_.kind x = Scalar)
      /\ is_ok (FuncOrExpr_.func x) = negb (is_ok (FuncOrExpr_.expr x))).
Proof.
  split; [| split].
  - intros fs. rewrite to_func_or_expr_vector_of_vector_map. split.
    + rewrite map_map. reflexivity.
    + apply List.Forall_forall. intros x Hx.
      apply in_map_iff in Hx as (f & <- & _). split; reflexivity.
  - intros es. rewrite to_func_or_expr_vector_of_vector_map. split.
    + rewrite map_map. reflexivity.
    + apply List.Forall_forall. intros x Hx.
      apply in_map_iff in Hx as (f & <- & _). split; reflexivity.
  - intros [f | e]; repeat split.
Qed.

(** ** [GIOBase::type_at] and [GIOBase::type] *)

(** [type_at(i)] succeeds exactly for the indices of the declared types and
    returns the i-th of them, a type given by a [GeneratorParam<Type>]
    read at the time of the call.  [type()] succeeds exactly when one type
    is declared and is then [type_at(0)]: on an output declared with a
    tuple of types it fails, though [type_at(0)] succeeds. *)
Theorem type_accessors_check_the_type_list :
  forall (types : string -> option halide_type_t) (g : GIOBase.t),
    (forall i : nat,
        (GIOBase.type_at types i g
         = Err (InternalError "i < types_.size()")
         <-> (length (GIOBase.types_ g) <= i)%nat)
        /\ (forall ty, GIOBase.type_at types i g = Ok ty
                       <-> nth_error (GIOBase.declared_types types g) i
                           = Some ty))
    /\ (GIOBase.type types g = Err (InternalError "Expected type_size() == 1")
        <-> length (GIOBase.types_ g) <> 1%nat)
    /\ (length (GIOBase.types_ g) = 1%nat ->
        GIOBase.type types g = GIOBase.type_at types 0 g
        /\ is_ok (GIOBase.type types g) = true)
    /\ ((2 <= length (GIOBase.types_ g))%nat ->
        is_ok (GIOBase.type types g) = false
        /\ is_ok (GIOBase.type_at types 0 g) = true).
Proof.
  intros types g.
  assert (Hat : forall i, GIOBase.type_at types i g
                = match nth_error (GIOBase.declared_types types g) i with
                  | Some ty => Ok ty
                  | None => Err (InternalError "i < types_.size()")
                  end).
  { intros i. unfold GIOBase.type_at, GIOBase.declared_types.
    rewrite nth_error_map.
    destruct (nth_error (GIOBase.types_ g) i); reflexivity. }
  assert (Hlen : length (GIOBase.declared_types types g)
                 = length (GIOBase.types_ g))
    by apply length_map.
  assert (Htype : GIOBase.type types g
                  = if Nat.eqb (length (GIOBase.types_ g)) 1
                    then GIOBase.type_at types 0 g
                    else Err (InternalError "Expected type_size() == 1")).
  { unfold GIOBase.type, GIOBase.type_size.
    destruct (Z.eqb_spec (Z.of_nat (length (GIOBase.types_ g))) 1) as [He | Hne];
      destruct (Nat.eqb_spec (length (GIOBase.types_ g)) 1) as [He' | Hne'];
      try reflexivity; lia. }
  split; [| split; [| split]].
  - intros i. rewrite Hat. split.
    + rewrite <- Hlen, <- nth_error_None.
      destruct (nth_error _ i); split; congruence.
    + intros ty. destruct (nth_error _ i); split; congruence.
  - rewrite Htype.
    destruct (Nat.eqb_spec (length (GIOBase.types_ g)) 1) as [He | Hne].
    + rewrite Hat.
      destruct (nth_error (GIOBase.declared_types types g) 0) eqn:Hn.
      * split; [discriminate | congruence].
      * apply nth_error_None in Hn. lia.
    + split; [intros _; exact Hne | reflexivity].
  - intros He. rewrite Htype, He. cbn [Nat.eqb]. split; [reflexivity |].
    rewrite Hat.
    destruct (nth_error (GIOBase.declared_types types g) 0) eqn:Hn;
      [reflexivity |].
    apply nth_error_None in Hn. lia.
  - intros Hge. rewrite Htype.
    destruct (Nat.eqb_spec (length (GIOBase.types_ g)) 1) as [He | Hne];
      [lia |].
    split; [reflexivity |]. rewrite Hat.
    destruct (nth_error (GIOBase.declared_types types g) 0) eqn:Hn;
      [reflexivity |].
    apply nth_error_None in Hn. lia.
Qed.

(** The output [output] of the metadata test, declared with the two types
    of a tuple: [type()] fails, [type_at(1)] is [Float(32)], and
    [type_at(2)] fails. *)
Lemma type_accessors_check_the_type_list_witness :
  let g := GeneratorOutput.of_func GeneratorInput.one false "output"
             [ArgWithParam.of_value (Float 32); ArgWithParam.of_value (Float 32)]
             (fixed 3) in
  is_ok (GIOBase.type (fun _ => None) g) = false
  /\ GIOBase.type_at (fun _ => None) 1 g = Ok (Float 32)
  /\ GIOBase.type_at (fun _ => None) 2 g
     = Err (InternalError "i < types_.size()").
Proof.
  intros g.
  destruct (type_accessors_check_the_type_list (fun _ => None) g)
    as (Hat & _ & _ & Htuple).
  split; [apply Htuple; cbn; lia |].
  split; [apply (proj2 (Hat 1%nat)); reflexivity |].
  apply (proj1 (Hat 2%nat)). cbn. lia.
Defined.

(** ** [Generator<T>]: how the lifecycle methods compose *)

Section LifecycleComposition.
Context {Body Pipeline : Type}.
Context (pre_build pre_generate : M Body unit) (produce_pipeline : M Body Pipeline).
Implicit Types (T : @Generator.methods Body Pipeline) (g : GeneratorBase.t Body).

Ltac unfold_methods :=
  unfold Generator.build_pipeline, Generator.call_generate,
    Generator.call_schedule, Generator.build_pipeline_impl,
    Generator.call_generate_impl, Generator.call_schedule_impl,
    bind, get, ret, throw, user_assert, internal_assert, user_error,
    GeneratorBase.on_body, GeneratorBase.set_generate_called,
    GeneratorBase.set_schedule_called,
    GeneratorBase.set_build_pipeline_called in *.

Lemma call_generate_failure_keeps_flags T g g' (e : error) :
  Generator.call_generate pre_generate T g = (Err e, g') -> flags g' = flags g.
Proof.
  destruct T as [build | generate schedule]; unfold_methods; cbn.
  - now intros [= _ <-].
  - destruct (GeneratorBase.generate_called g) eqn:Hg; cbn;
      [now intros [= _ <-] |].
    destruct (pre_generate (GeneratorBase.body g)) as [[[] | e1] b1]; cbn;
      [| intros [= _ <-]; unfold flags; cbn; now rewrite Hg].
    destruct (generate b1) as [[[] | e2] b2]; cbn; [discriminate |].
    intros [= _ <-]. unfold flags; cbn. now rewrite Hg.
Qed.

Lemma call_schedule_failure_keeps_flags T g g' (e : error) :
  Generator.call_schedule T g = (Err e, g') -> flags g' = flags g.
Proof.
  destruct T as [build | generate schedule]; unfold_methods; cbn.
  - now intros [= _ <-].
  - destruct (GeneratorBase.generate_called g) eqn:Hg; cbn;
      [| now intros [= _ <-]].
    destruct (GeneratorBase.schedule_called g) eqn:Hs; cbn;
      [now intros [= _ <-] |].
    destruct (schedule (GeneratorBase.body g)) as [[[] | e1] b1]; cbn;
      [discriminate |].
    intros [= _ <-]. unfold flags; cbn. now rewrite Hg, Hs.
Qed.

End LifecycleComposition.

(** A lifecycle call that fails sets no flag: after a failed
    [call_generate] or [call_schedule] the three flags are what they were,
    also when the failure came from the user's [generate()] or [schedule()]
    and not from the check of the flags.  What the user's method did to
    the rest of the instance before it failed stays done. *)
Theorem failed_phase_sets_no_flag :
  forall (Body Pipeline : Type) (pre_generate : M Body unit)
         (T : @Generator.methods Body Pipeline)
         (g g' : GeneratorBase.t Body) (e : error),
    (Generator.call_generate pre_generate T g = (Err e, g') ->
     flags g' = flags g)
    /\ (Generator.call_schedule T g = (Err e, g') -> flags g' = flags g).
Proof.
  intros Body Pipeline pre_generate T g g' e. split.
  - apply call_generate_failure_keeps_flags.
  - apply call_schedule_failure_keeps_flags.
Qed.

(** A [generate()] that logs its start and then fails: the instance is
    still not generated, the log entry is there, and [call_generate] may
    be tried again. *)
Lemma failed_phase_sets_no_flag_witness :
  let T := @Generator.WithGenerate (list string) string
             failing_generate (logging "schedule") in
  let g := GeneratorBase.make ([] : list string) in
  let g' := GeneratorBase.mk false false false "" ["generate"] in
  Generator.call_generate (ret tt) T g
  = (Err (UserError "generate() failed"), g')
  /\ flags g' = flags g.
Proof.
  intros T g g'.
  assert (Hcall : Generator.call_generate (ret tt) T g
                  = (Err (UserError "generate() failed"), g'))
    by reflexivity.
  split; [exact Hcall |].
  exact (proj1 (failed_phase_sets_no_flag (list string) string (ret tt) T g g'
                  (UserError "generate() failed")) Hcall).
Defined.

(** [build_pipeline] of a generator with [generate()] and [schedule()], on
    an instance on which nothing has been called: [pre_generate],
    [generate()], [schedule()] and [produce_pipeline] run in this order, each
    on what the one before left ([pre_build] does not run), and the result
    is the one of [produce_pipeline].  All three flags are set by then:
    [build_pipeline_called] is written before [produce_pipeline] runs, so
    an instance whose [produce_pipeline] failed counts as built. *)
Theorem build_pipeline_runs_the_phases_in_order :
  forall (Body Pipeline : Type) (pre_build pre_generate : M Body unit)
         (produce_pipeline : M Body Pipeline) (generate schedule : M Body unit)
         (g : GeneratorBase.t Body) (b1 b2 b3 b4 : Body) (r : outcome Pipeline),
    flags g = (false, false, false) ->
    pre_generate (GeneratorBase.body g) = (Ok tt, b1) ->
    generate b1 = (Ok tt, b2) ->
    schedule b2 = (Ok tt, b3) ->
    produce_pipeline b3 = (r, b4) ->
    Generator.build_pipeline pre_build pre_generate produce_pipeline
      (Generator.WithGenerate generate schedule) g
    = (r, GeneratorBase.mk true true true (GeneratorBase.wrapper_class_name g) b4).
Proof.
  intros Body Pipeline pre_build pre_generate produce_pipeline generate
    schedule g b1 b2 b3 b4 r Hflags Hpre Hgen Hsched Hprod.
  unfold flags in Hflags. injection Hflags as Hb Hg Hs.
  unfold Generator.build_pipeline, Generator.build_pipeline_impl,
    Generator.call_generate_impl, Generator.call_schedule_impl,
    bind, get, ret, user_assert, internal_assert,
    GeneratorBase.on_body, GeneratorBase.set_generate_called,
    GeneratorBase.set_schedule_called, GeneratorBase.set_build_pipeline_called.
  rewrite Hb. cbn. rewrite Hg. cbn. rewrite Hpre. cbn. rewrite Hgen. cbn.
  rewrite Hs. cbn. rewrite Hsched. cbn. rewrite Hprod. reflexivity.
Qed.

(** The logging generator: the log shows the order, and with a
    [produce_pipeline] that fails the instance is left with all three
    flags set. *)
Lemma build_pipeline_runs_the_phases_in_order_witness :
  let g := GeneratorBase.make ([] : list string) in
  let failing_produce : M (list string) string :=
    fun log => (Err (InternalError "produce_pipeline failed"),
                (log ++ ["produce_pipeline"])%list) in
  Generator.build_pipeline (logging "pre_build") (logging "pre_generate")
    failing_produce phased_example g
  = (Err (InternalError "produce_pipeline failed"),
     GeneratorBase.mk true true true ""
       ["pre_generate"; "generate"; "schedule"; "produce_pipeline"]).
Proof.
  intros g failing_produce.
  apply (build_pipeline_runs_the_phases_in_order (list string) string
           (logging "pre_build") (logging "pre_generate") failing_produce
           (logging "generate") (logging "schedule") g
           ["pre_generate"] ["pre_generate"; "generate"]
           ["pre_generate"; "generate"; "schedule"]);
    reflexivity.
Defined.

(** The two ways of driving a generator with [generate()] and [schedule()]
    do not mix.  After a successful [call_generate], [build_pipeline] fails
    and leaves the instance alone, because it would call [generate()] again;
    after a [build_pipeline] that returned, [call_generate] and
    [call_schedule] fail and leave the instance alone. *)
Theorem build_pipeline_and_phase_calls_do_not_mix :
  forall (Body Pipeline : Type) (pre_build pre_generate : M Body unit)
         (produce_pipeline : M Body Pipeline) (generate schedule : M Body unit),
    let T := @Generator.WithGenerate Body Pipeline generate schedule in
    (forall g g1 : GeneratorBase.t Body,
        Generator.call_generate pre_generate T g = (Ok tt, g1) ->
        exists e,
          Generator.build_pipeline pre_build pre_generate produce_pipeline T g1
          = (Err e, g1))
    /\ (forall (g g1 : GeneratorBase.t Body) (p : Pipeline),
        Generator.build_pipeline pre_build pre_generate produce_pipeline T g
        = (Ok p, g1) ->
        (exists e, Generator.call_generate pre_generate T g1 = (Err e, g1))
        /\ (exists e, Generator.call_schedule T g1 = (Err e, g1))).
Proof.
  intros Body Pipeline pre_build pre_generate produce_pipeline generate
    schedule T. split.
  - intros g g1 Hcall.
    apply call_generate_sets_flag in Hcall as (Hg & _ & _).
    unfold Generator.build_pipeline, Generator.build_pipeline_impl, T,
      Generator.call_generate_impl, bind, get, internal_assert, user_assert,
      ret, throw.
    destruct (GeneratorBase.build_pipeline_called g1); cbn;
      [eexists; reflexivity |].
    rewrite Hg. cbn. eexists; reflexivity.
  - intros g g1 p Hcall.
    assert (Hflags : GeneratorBase.generate_called g1 = true
                     /\ GeneratorBase.schedule_called g1 = true).
    { revert Hcall.
      unfold Generator.build_pipeline, Generator.build_pipeline_impl, T,
        Generator.call_generate_impl, Generator.call_schedule_impl,
        bind, get, ret, throw, user_assert, internal_assert,
        GeneratorBase.on_body, GeneratorBase.set_generate_called,
        GeneratorBase.set_schedule_called,
        GeneratorBase.set_build_pipeline_called.
      destruct (GeneratorBase.build_pipeline_called g); cbn; [discriminate |].
      destruct (GeneratorBase.generate_called g); cbn; [discriminate |].
      destruct (pre_generate (GeneratorBase.body g)) as [[[] | e1] b1]; cbn;
        [| discriminate].
      destruct (generate b1) as [[[] | e2] b2]; cbn; [| discriminate].
      destruct (GeneratorBase.schedule_called g); cbn; [discriminate |].
      destruct (schedule b2) as [[[] | e3] b3]; cbn; [| discriminate].
      destruct (produce_pipeline b3) as [[p' | e4] b4]; cbn; [| discriminate].
      intros [= _ <-]. cbn. split; reflexivity. }
    destruct Hflags as [Hg Hs]. split.
    + now apply call_generate_again_fails.
    + apply call_schedule_rejected. now right.
Qed.

(** On the logging generator: [call_generate], then [build_pipeline]. *)
Lemma build_pipeline_and_phase_calls_do_not_mix_witness :
  let g := GeneratorBase.make ([] : list string) in
  let g1 := GeneratorBase.mk false true false "" ["generate"] in
  Generator.call_generate (ret tt) phased_example g = (Ok tt, g1)
  /\ exists e,
       Generator.build_pipeline (ret tt) (ret tt) (ret "produced")
         phased_example g1 = (Err e, g1).
Proof.
  intros g g1.
  assert (Hcall : Generator.call_generate (ret tt) phased_example g
                  = (Ok tt, g1)) by reflexivity.
  split; [exact Hcall |].
  exact (proj1 (build_pipeline_and_phase_calls_do_not_mix (list string) string
                  (ret tt) (ret tt) (ret "produced")
                  (logging "generate") (logging "schedule"))
           g g1 Hcall).
Defined.

(** ** [GeneratorWrapper]: construct, schedule, realize *)

(** A wrapper is generated when it is constructed and has to be scheduled
    before it is realized.  The instance a successful constructor leaves
    has [generate_called] set and [schedule_called] as the factory left it;
    while [schedule_called] is not set, [realize] fails with a user error
    and touches nothing; after a [schedule] that returned, [realize] is the
    realization of the first output. *)
Theorem wrapper_is_generated_then_scheduled_then_realized :
  forall (Body Pipeline Realization Target LoopLevels : Type)
         (set_generator_param_values :
            GeneratorParamValues -> LoopLevels -> M Body unit)
         (set_inputs : list (list FuncOrExpr) -> M Body unit)
         (realize_first_output : M Body Realization)
         (set_target : Target -> Body -> Body)
         (pre_generate : M Body unit)
         (T : @Generator.methods Body Pipeline),
    (forall context_target (generator_factory : GeneratorFactory Body)
            generator_params inputs g0 g,
        generator_factory generator_params = Ok g0 ->
        GeneratorWrapper.make set_inputs set_target pre_generate T
          context_target generator_factory generator_params inputs = Ok g ->
        GeneratorBase.generate_called g = true
        /\ GeneratorBase.schedule_called g = GeneratorBase.schedule_called g0)
    /\ (forall g : GeneratorBase.t Body,
        GeneratorBase.schedule_called g = false ->
        GeneratorWrapper.realize realize_first_output g
        = (Err (UserError "Must call schedule() before calling "), g))
    /\ (forall schedule_params looplevels (g g1 : GeneratorBase.t Body),
        GeneratorWrapper.schedule set_generator_param_values T
          schedule_params looplevels g = (Ok tt, g1) ->
        GeneratorWrapper.realize realize_first_output g1
        = GeneratorBase.on_body realize_first_output g1).
Proof.
  intros Body Pipeline Realization Target LoopLevels
    set_generator_param_values set_inputs realize_first_output set_target
    pre_generate T.
  split; [| split].
  - intros context_target generator_factory generator_params inputs g0 g
      Hfactory Hmake.
    unfold GeneratorWrapper.make in Hmake. rewrite Hfactory in Hmake.
    unfold bind, GeneratorBase.on_body in Hmake. cbn in Hmake.
    destruct (set_inputs inputs (set_target context_target (GeneratorBase.body g0)))
      as [[[] | e1] b1]; cbn in Hmake; [| discriminate].
    destruct (Generator.call_generate pre_generate T _) as [[[] | e2] g2] eqn:Hgen;
      [| discriminate].
    injection Hmake as <-.
    apply call_generate_sets_flag in Hgen as (Hg & Hs & _).
    split; [exact Hg | exact Hs].
  - intros g Hs. unfold GeneratorWrapper.realize,
      GeneratorWrapper.check_scheduled, bind, get, user_assert.
    rewrite Hs. reflexivity.
  - intros schedule_params looplevels g g1 Hsched.
    assert (Hs : GeneratorBase.schedule_called g1 = true).
    { unfold GeneratorWrapper.schedule, bind in Hsched.
      destruct (GeneratorBase.on_body _ g) as [[[] | e1] g']; [| discriminate].
      now apply call_schedule_sets_flag in Hsched as (Hs & _). }
    unfold GeneratorWrapper.realize, GeneratorWrapper.check_scheduled,
      bind, get, user_assert.
    rewrite Hs. reflexivity.
Qed.

(** A wrapper over the logging generator: constructed, it cannot be
    realized; scheduled, it can. *)
Lemma wrapper_is_generated_then_scheduled_then_realized_witness :
  let factory : GeneratorFactory (list string) :=
    fun _ => Ok (GeneratorBase.make []) in
  let set_params (_ : GeneratorParamValues) (_ : unit) := logging "set_params" in
  let set_inputs (_ : list (list FuncOrExpr)) := logging "set_inputs" in
  let realize : M (list string) string :=
    fun log => (Ok "realization", (log ++ ["realize"])%list) in
  let g := GeneratorBase.mk false true false ""
             ["set_target"; "set_inputs"; "generate"] in
  let g1 := GeneratorBase.mk false true true ""
              ["set_target"; "set_inputs"; "generate"; "set_params"; "schedule"] in
  GeneratorWrapper.make set_inputs (fun (_ : unit) log => (log ++ ["set_target"])%list)
    (ret tt) phased_example tt factory ∅ [] = Ok g
  /\ GeneratorWrapper.realize realize g
     = (Err (UserError "Must call schedule() before calling "), g)
  /\ GeneratorWrapper.schedule set_params phased_example ∅ tt g = (Ok tt, g1)
  /\ GeneratorWrapper.realize realize g1
     = GeneratorBase.on_body realize g1.
Proof.
  intros factory set_params set_inputs realize g g1.
  pose proof (wrapper_is_generated_then_scheduled_then_realized
                (list string) string string unit unit
                set_params set_inputs realize
                (fun (_ : unit) log => (log ++ ["set_target"])%list)
                (ret tt) phased_example) as (_ & Hrealize & Hafter).
  assert (Hsched : GeneratorWrapper.schedule set_params phased_example ∅ tt g
                   = (Ok tt, g1)) by reflexivity.
  split; [reflexivity |].
  split; [exact (Hrealize g eq_refl) |].
  split; [exact Hsched |].
  exact (Hafter ∅ tt g g1 Hsched).
Defined.

(** A wrapper can be scheduled once.  The second [schedule] fails, but
    only after it has applied its parameters: the schedule parameters of
    the refused call are in the instance. *)
Theorem wrapper_second_schedule_fails_after_applying_params :
  forall (Body Pipeline LoopLevels : Type)
         (set_generator_param_values :
            GeneratorParamValues -> LoopLevels -> M Body unit)
         (T : @Generator.methods Body Pipeline)
         (params1 params2 : GeneratorParamValues) (levels1 levels2 : LoopLevels)
         (g g1 : GeneratorBase.t Body) (b2 : Body),
    GeneratorWrapper.schedule set_generator_param_values T params1 levels1 g
    = (Ok tt, g1) ->
    set_generator_param_values params2 levels2 (GeneratorBase.body g1)
    = (Ok tt, b2) ->
    exists e,
      GeneratorWrapper.schedule set_generator_param_values T params2 levels2 g1
      = (Err e,
         GeneratorBase.mk (GeneratorBase.build_pipeline_called g1)
           (GeneratorBase.generate_called g1) (GeneratorBase.schedule_called g1)
           (GeneratorBase.wrapper_class_name g1) b2).
Proof.
  intros Body Pipeline LoopLevels set_generator_param_values T params1 params2
    levels1 levels2 g g1 b2 Hsched Hset.
  assert (Hs : GeneratorBase.schedule_called g1 = true).
  { unfold GeneratorWrapper.schedule, bind in Hsched.
    destruct (GeneratorBase.on_body _ g) as [[[] | e1] g']; [| discriminate].
    now apply call_schedule_sets_flag in Hsched as (Hs & _). }
  unfold GeneratorWrapper.schedule, bind, GeneratorBase.on_body.
  rewrite Hset.
  apply call_schedule_rejected. right. exact Hs.
Qed.

(** The logging generator scheduled twice: the second call fails and the
    log has its [set_params] entry. *)
Lemma wrapper_second_schedule_fails_after_applying_params_witness :
  let set_params (_ : GeneratorParamValues) (_ : unit) := logging "set_params" in
  let g := GeneratorBase.mk false true false "" ["generate"] in
  let g1 := GeneratorBase.mk false true true ""
              ["generate"; "set_params"; "schedule"] in
  GeneratorWrapper.schedule set_params phased_example ∅ tt g = (Ok tt, g1)
  /\ exists e,
       GeneratorWrapper.schedule set_params phased_example ∅ tt g1
       = (Err e,
          GeneratorBase.mk false true true ""
            ["generate"; "set_params"; "schedule"; "set_params"]).
Proof.
  intros set_params g g1.
  assert (Hsched : GeneratorWrapper.schedule set_params phased_example ∅ tt g
                   = (Ok tt, g1)) by reflexivity.
  split; [exact Hsched |].
  exact (wrapper_second_schedule_fails_after_applying_params
           (list string) string unit set_params phased_example ∅ ∅ tt tt
           g g1 _ Hsched eq_refl).
Defined.

(** No wrapper can be made over a generator that defines [build()]: the
    constructor ends with [call_generate], which such a generator does not
    implement, so the constructor fails whatever the factory, the
    parameters and the inputs are. *)
Theorem wrapper_needs_generate_and_schedule :
  forall (Body Pipeline Target : Type)
         (set_inputs : list (list FuncOrExpr) -> M Body unit)
         (set_target : Target -> Body -> Body)
         (pre_generate : M Body unit) (build : M Body Pipeline)
         (context_target : Target) (generator_factory : GeneratorFactory Body)
         (generator_params : GeneratorParamValues)
         (inputs : list (list FuncOrExpr)),
    is_ok (GeneratorWrapper.make set_inputs set_target pre_generate
             (Generator.WithBuild build) context_target generator_factory
             generator_params inputs) = false.
Proof.
  intros Body Pipeline Target set_inputs set_target pre_generate build
    context_target generator_factory generator_params inputs.
  unfold GeneratorWrapper.make.
  destruct (generator_factory generator_params) as [g0 | e]; [| reflexivity].
  unfold bind, GeneratorBase.on_body. cbn.
  destruct (set_inputs inputs _) as [[[] | e1] b1]; reflexivity.
Qed.

(** ** [RegisterGeneratorAndWrapper]: the statics behind [create] *)

(** What the constructor does to the statics: the two [init] calls. *)
Lemma constructor_statics {Body : Type}
  (set_generator_param_values :
     GeneratorParamValues -> M (GeneratorBase.t Body) unit)
  (create_func : @SimpleGeneratorFactory.GeneratorCreateFunc Body)
  (registry_name wrapper_class_name : string)
  (s : RegisterGeneratorAndWrapper.statics) (r : @GeneratorRegistry.t Body) :
  fst (snd (RegisterGeneratorAndWrapper.constructor set_generator_param_values
              create_func registry_name wrapper_class_name (s, r)))
  = snd (RegisterGeneratorAndWrapper.init_wrapper_class_name
           (Some wrapper_class_name)
           (snd (RegisterGeneratorAndWrapper.init_create_func create_func s))).
Proof.
  unfold RegisterGeneratorAndWrapper.constructor.
  destruct (RegisterGeneratorAndWrapper.init_create_func create_func s)
    as [f1 s1].
  cbn [snd].
  destruct (RegisterGeneratorAndWrapper.init_wrapper_class_name
              (Some wrapper_class_name) s1) as [n2 s2].
  destruct (SimpleGeneratorFactory.make create_func wrapper_class_name)
    as [sf | e]; [| reflexivity].
  match goal with
  | |- context [GeneratorRegistry.register_factory ?a ?b ?c] =>
      destruct (GeneratorRegistry.register_factory a b c) as [o r']
  end.
  reflexivity.
Qed.

(** [create] called before the registration object is constructed fails
    with a user error, and it fails for good: its call of
    [init_create_func(nullptr)] is the one that initialises the static, to
    null, so the constructor's later call finds the static initialised and
    stores nothing.  From then on every [create] fails the same way,
    whatever is registered afterwards. *)
Theorem create_before_registration_disables_create :
  forall (Body : Type)
         (set_generator_param_values :
            GeneratorParamValues -> M (GeneratorBase.t Body) unit),
    let not_initialized :=
      UserError
        "RegisterGeneratorAndWrapper was not initialized; this is probably a wrong value for wrapper_class_name." in
    let disabled (s : @RegisterGeneratorAndWrapper.statics Body) :=
      RegisterGeneratorAndWrapper.create_func_storage s = Some None in
    (exists s,
        RegisterGeneratorAndWrapper.create
          RegisterGeneratorAndWrapper.uninitialised
        = (Some (Err not_initialized), s)
        /\ disabled s)
    /\ (forall s, disabled s ->
          RegisterGeneratorAndWrapper.create s = (Some (Err not_initialized), s))
    /\ (forall s r create_func registry_name wrapper_class_name,
          disabled s ->
          disabled
            (fst (snd (RegisterGeneratorAndWrapper.constructor
                         set_generator_param_values create_func registry_name
                         wrapper_class_name (s, r))))).
Proof.
  intros Body set_generator_param_values not_initialized disabled.
  subst not_initialized disabled. cbn beta.
  split; [| split].
  - eexists. split; reflexivity.
  - intros [f n] Hs. cbn in Hs. subst f. reflexivity.
  - intros [f n] r create_func registry_name wrapper_class_name Hs.
    cbn in Hs. subst f. rewrite constructor_statics.
    destruct n as [n |]; reflexivity.
Qed.

(** [create] before the registration of wraptest_generator.cpp, then the
    registration, then [create] again. *)
Lemma create_before_registration_disables_create_witness :
  let f (_ : unit) := Some (GeneratorBase.make ([] : list GeneratorParamValues)) in
  let s0 := fst (snd (RegisterGeneratorAndWrapper.constructor
                        recording_overrides (Some f) "wraptest"
                        "WrapNS1::WrapNS2::Wrapper"
                        (snd (RegisterGeneratorAndWrapper.create
                                RegisterGeneratorAndWrapper.uninitialised),
                         GeneratorRegistry.empty))) in
  is_ok (default (Ok (GeneratorBase.make []))
           (fst (RegisterGeneratorAndWrapper.create s0))) = false.
Proof.
  intros f s0.
  destruct (create_before_registration_disables_create
              (list GeneratorParamValues) recording_overrides)
    as (_ & Hcreate & Hctor).
  assert (Hs0 : RegisterGeneratorAndWrapper.create_func_storage s0 = Some None).
  { apply Hctor. reflexivity. }
  rewrite (Hcreate s0 Hs0). reflexivity.
Defined.

(** The first registration of a wrapper class decides what [create] does.
    After the constructor has run on uninitialised statics with a create
    function [f] and the name [n], every [create] returns the instance
    that [f] makes in that call with [n] as its wrapper class name, and a
    further registration for the same wrapper class, with whatever create
    function and name, changes neither the statics nor what [create]
    returns. *)
Theorem first_registration_decides_create :
  forall (Body : Type)
         (set_generator_param_values :
            GeneratorParamValues -> M (GeneratorBase.t Body) unit)
         (f : unit -> option (GeneratorBase.t Body))
         (registry_name n : string) (r : @GeneratorRegistry.t Body),
    let s1 := RegisterGeneratorAndWrapper.mk_statics (Some (Some f))
                (Some (Some n)) in
    fst (snd (RegisterGeneratorAndWrapper.constructor
                set_generator_param_values (Some f) registry_name n
                (RegisterGeneratorAndWrapper.uninitialised, r))) = s1
    /\ (forall create_func' registry_name' n' r',
           fst (snd (RegisterGeneratorAndWrapper.constructor
                       set_generator_param_values create_func' registry_name'
                       n' (s1, r'))) = s1)
    /\ (forall g : GeneratorBase.t Body,
           f tt = Some g ->
           RegisterGeneratorAndWrapper.create s1
           = (Some (match GeneratorBase.set_wrapper_class_name n g with
                    | (Ok _, g') => Ok g'
                    | (Err e, _) => Err e
                    end), s1)).
Proof.
  intros Body set_generator_param_values f registry_name n r s1.
  split; [| split].
  - rewrite constructor_statics. reflexivity.
  - intros create_func' registry_name' n' r'.
    rewrite constructor_statics. reflexivity.
  - intros g Hg.
    unfold RegisterGeneratorAndWrapper.create,
      RegisterGeneratorAndWrapper.init_create_func,
      RegisterGeneratorAndWrapper.init_wrapper_class_name, s1.
    cbn [RegisterGeneratorAndWrapper.create_func_storage
         RegisterGeneratorAndWrapper.init_wrapper_class_name_storage].
    rewrite Hg.
    destruct (GeneratorBase.set_wrapper_class_name n g) as [[[] | e] g'];
      reflexivity.
Qed.

(** The registration of wraptest_generator.cpp, followed by a second one
    for the same wrapper class under another name: [create] still makes
    an instance named after the first. *)
Lemma first_registration_decides_create_witness :
  let f (_ : unit) := Some (GeneratorBase.make ([] : list GeneratorParamValues)) in
  let s1 := RegisterGeneratorAndWrapper.mk_statics (Some (Some f))
              (Some (Some "WrapNS1::WrapNS2::Wrapper")) in
  fst (snd (RegisterGeneratorAndWrapper.constructor recording_overrides
              (Some f) "wraptest" "WrapNS1::WrapNS2::Wrapper"
              (RegisterGeneratorAndWrapper.uninitialised,
               GeneratorRegistry.empty))) = s1
  /\ RegisterGeneratorAndWrapper.create s1
     = (Some (Ok (GeneratorBase.mk false false false
                    "WrapNS1::WrapNS2::Wrapper" [])), s1).
Proof.
  intros f s1.
  destruct (first_registration_decides_create (list GeneratorParamValues)
              recording_overrides f "wraptest" "WrapNS1::WrapNS2::Wrapper"
              GeneratorRegistry.empty) as (Hfirst & _ & Hcreate).
  split; [exact Hfirst |].
  exact (Hcreate (GeneratorBase.make []) eq_refl).
Defined.

(** ** The comparisons of metadata_tester_aottest.cpp *)

(** [scalar_union_equal] has no [break] between its cases and no [default]
    in its inner switches.  It reaches the [exit(-1)] behind the switch
    exactly for a type code that is none of the four enumerators.  For the
    four codes, a width that the case of the code does not list falls
    through to the cases below it: a width that is none of 1, 8, 16, 32
    and 64 ends in the comparison of the [handle] members, whatever the
    code; an [int] of width 1 is compared like a [bool]; a [float] of width
    8 or 16 is compared as a [handle]. *)
Theorem scalar_union_equal_falls_through :
  forall (type_code type_bits : Z) (e a : halide_scalar_value_t),
    (scalar_union_equal type_code type_bits e a = None
     <-> ~ (0 <= type_code <= 3))
    /\ (0 <= type_code <= 3 ->
        type_bits <> 1 -> type_bits <> 8 -> type_bits <> 16 ->
        type_bits <> 32 -> type_bits <> 64 ->
        scalar_union_equal type_code type_bits e a
        = Some (u_handle e =? u_handle a))
    /\ scalar_union_equal (type_code_number halide_type_int) 1 e a
       = Some (u_b e =? u_b a)
    /\ (type_bits = 1 \/ type_bits = 8 \/ type_bits = 16 ->
        scalar_union_equal (type_code_number halide_type_float) type_bits e a
        = Some (u_handle e =? u_handle a)).
Proof.
  intros type_code type_bits e a.
  assert (Hcode : forall P : Z -> Prop,
             0 <= type_code <= 3 ->
             P 0 -> P 1 -> P 2 -> P 3 -> P type_code).
  { intros P Hc P0 P1 P2 P3.
    assert (Hcases : type_code = 0 \/ type_code = 1 \/ type_code = 2
                     \/ type_code = 3) by lia.
    destruct Hcases as [-> | [-> | [-> | ->]]]; assumption. }
  split; [| split; [| split]].
  - unfold scalar_union_equal, type_code_number.
    destruct (Z.eqb_spec type_code 0) as [-> | H0];
      [| destruct (Z.eqb_spec type_code 1) as [-> | H1];
         [| destruct (Z.eqb_spec type_code 2) as [-> | H2];
            [| destruct (Z.eqb_spec type_code 3) as [-> | H3]]]].
    5: { split; [intros _; lia | reflexivity]. }
    all: repeat match goal with
           | |- context [if ?b then _ else _] => destruct b
           end; (split; [discriminate | lia]).
  - intros Hc H1 H8 H16 H32 H64.
    unfold scalar_union_equal, type_code_number.
    rewrite (proj2 (Z.eqb_neq type_bits 1) H1),
      (proj2 (Z.eqb_neq type_bits 8) H8),
      (proj2 (Z.eqb_neq type_bits 16) H16),
      (proj2 (Z.eqb_neq type_bits 32) H32),
      (proj2 (Z.eqb_neq type_bits 64) H64).
    apply (Hcode (fun c =>
                    (if c =? 0 then _ else
                     if c =? 1 then _ else
                     if c =? 2 then _ else
                     if c =? 3 then _ else None) = Some _) Hc);
      reflexivity.
  - reflexivity.
  - intros [-> | [-> | ->]]; reflexivity.
Qed.

Lemma float_eq_sym (w inf x y : Z) : float_eq w inf x y = float_eq w inf y x.
Proof.
  unfold float_eq. rewrite (Z.eqb_sym x y).
  destruct (inf <? x mod 2 ^ w), (inf <? y mod 2 ^ w),
    (x mod 2 ^ w =? 0), (y mod 2 ^ w =? 0), (y =? x); reflexivity.
Qed.

Lemma scalar_union_equal_sym (type_code type_bits : Z)
  (e a : halide_scalar_value_t) :
  scalar_union_equal type_code type_bits e a
  = scalar_union_equal type_code type_bits a e.
Proof.
  unfold scalar_union_equal, f32_eq, f64_eq.
  rewrite (float_eq_sym 31 _ (u_f32 e)), (float_eq_sym 63 _ (u_f64 e)),
    (Z.eqb_sym (u_handle e)), (Z.eqb_sym (u_b e)),
    (Z.eqb_sym (u_int uint8_t e)), (Z.eqb_sym (u_int uint16_t e)),
    (Z.eqb_sym (u_int uint32_t e)), (Z.eqb_sym (u_int uint64_t e)),
    (Z.eqb_sym (u_int int8_t e)), (Z.eqb_sym (u_int int16_t e)),
    (Z.eqb_sym (u_int int32_t e)), (Z.eqb_sym (u_int int64_t e)).
  reflexivity.
Qed.

Lemma scalar_union_ptr_equal_sym (type_code type_bits : Z)
  (e a : option halide_scalar_value_t) :
  scalar_union_ptr_equal type_code type_bits e a
  = scalar_union_ptr_equal type_code type_bits a e.
Proof.
  destruct e as [e |], a as [a |]; cbn; try reflexivity.
  apply scalar_union_equal_sym.
Qed.

(** The checks of the test do not depend on which side is the expected
    one: [scalar_union_ptr_equal] gives the same answer with its two
    scalars exchanged, and [match_argument] accepts a pair of rows exactly
    when it accepts the pair the other way round, although it takes the
    type code and the width for the scalar comparisons from its first
    argument only. *)
Theorem match_argument_is_symmetric :
  (forall (type_code type_bits : Z) (e a : option halide_scalar_value_t),
      scalar_union_ptr_equal type_code type_bits e a
      = scalar_union_ptr_equal type_code type_bits a e)
  /\ (forall e a : halide_filter_argument_t,
         match_argument e a = match_argument a e).
Proof.
  split; [exact scalar_union_ptr_equal_sym |].
  intros e a. unfold match_argument, EXPECT_SCALAR_UNION_EQ.
  rewrite (String.eqb_sym (arg_name e)), (Z.eqb_sym (arg_dimensions e)),
    (Z.eqb_sym (type_bits (arg_type e))).
  assert (Hk : bool_decide (arg_kind e = arg_kind a)
               = bool_decide (arg_kind a = arg_kind e))
    by (apply bool_decide_ext; split; congruence).
  assert (Hc : bool_decide (code (arg_type e) = code (arg_type a))
               = bool_decide (code (arg_type a) = code (arg_type e)))
    by (apply bool_decide_ext; split; congruence).
  rewrite Hk, Hc.
  destruct (bool_decide_reflect (code (arg_type a) = code (arg_type e)))
    as [Hcode | _]; [| now rewrite !andb_false_r].
  destruct (Z.eqb_spec (type_bits (arg_type a)) (type_bits (arg_type e)))
    as [Hbits | _]; [| now rewrite !andb_false_r].
  rewrite Hcode, Hbits.
  rewrite (scalar_union_ptr_equal_sym _ _ (arg_def e)),
    (scalar_union_ptr_equal_sym _ _ (arg_min e)),
    (scalar_union_ptr_equal_sym _ _ (arg_max e)).
  reflexivity.
Qed.

Lemma float_eq_refl (w inf x : Z) :
  float_eq w inf x x = negb (inf <? x mod 2 ^ w).
Proof.
  unfold float_eq. rewrite Z.eqb_refl, orb_true_r, andb_true_r.
  now destruct (inf <? x mod 2 ^ w).
Qed.

Lemma scalar_union_equal_refl (c : halide_type_code_t) (type_bits : Z)
  (e : halide_scalar_value_t) :
  c <> halide_type_float ->
  scalar_union_equal (type_code_number c) type_bits e e = Some true.
Proof.
  intros Hc. unfold scalar_union_equal. rewrite !Z.eqb_refl.
  set (b1 := type_bits =? 1). set (b8 := type_bits =? 8).
  set (b16 := type_bits =? 16). set (b32 := type_bits =? 32).
  set (b64 := type_bits =? 64). clearbody b1 b8 b16 b32 b64.
  destruct c; try congruence; cbn;
    destruct b1, b8, b16, b32, b64; reflexivity.
Qed.

(** A scalar compares equal to itself under every type code but [float],
    whatever the width.  Under [float] it does so exactly when it is no
    NaN (a bit pattern above the one of infinity, the sign left out).  So a
    row whose type is not a floating-point one always matches itself, and
    a floating-point default that is a NaN can never pass the test. *)
Theorem scalar_equals_itself_unless_nan :
  forall (width : Z) (e : halide_scalar_value_t),
    (forall c : halide_type_code_t,
        c <> halide_type_float ->
        scalar_union_equal (type_code_number c) width e e = Some true)
    /\ scalar_union_equal (type_code_number halide_type_float) 32 e e
       = Some (negb (0x7F800000 <? u_f32 e mod 2 ^ 31))
    /\ scalar_union_equal (type_code_number halide_type_float) 64 e e
       = Some (negb (0x7FF0000000000000 <? u_f64 e mod 2 ^ 63))
    /\ (forall row : halide_filter_argument_t,
        code (arg_type row) <> halide_type_float ->
        match_argument row row = true).
Proof.
  intros width e. split; [| split; [| split]].
  - intros c Hc. now apply scalar_union_equal_refl.
  - unfold scalar_union_equal, f32_eq. cbn [type_code_number Z.eqb].
    now rewrite float_eq_refl.
  - unfold scalar_union_equal, f64_eq. cbn [type_code_number Z.eqb].
    now rewrite float_eq_refl.
  - intros row Hrow. unfold match_argument, EXPECT_SCALAR_UNION_EQ.
    rewrite String.eqb_refl, !Z.eqb_refl, !bool_decide_eq_true_2 by reflexivity.
    assert (Hptr : forall s : option halide_scalar_value_t,
               scalar_union_ptr_equal (type_code_number (code (arg_type row)))
                 (type_bits (arg_type row)) s s = Some true).
    { intros [s |]; cbn; [now apply scalar_union_equal_refl | reflexivity]. }
    now rewrite !Hptr.
Qed.

(** The default of a [float] input that is a quiet NaN does not compare
    equal to itself. *)
Example nan_default_does_not_match_itself :
  scalar_union_equal (type_code_number halide_type_float) 32
    (make_scalar ty_float 0x7FC00000) (make_scalar ty_float 0x7FC00000)
  = Some false.
Proof. reflexivity. Qed.

Lemma u_int_make_scalar (t : int_type) (v : Z) :
  in_range t v -> u_int t (make_scalar (ty_int t) v) = v.
Proof.
  intros Hv. rewrite <- (wrap_in_range t v Hv) at 2.
  unfold u_int, make_scalar, wrap. cbn [raw]. now rewrite Zmod_mod.
Qed.

(** Scalars made by [make_scalar] of two values of an integral type compare
    equal, under the code and the width of that type, exactly when the
    values are equal: the comparison reads the member that [make_scalar]
    wrote, for each of the eight types. *)
Theorem make_scalar_compares_by_value :
  forall (t : int_type) (v w : Z),
    in_range t v -> in_range t w ->
    scalar_union_equal (type_code_number (code (type_of (ty_int t))))
      (type_bits (type_of (ty_int t)))
      (make_scalar (ty_int t) v) (make_scalar (ty_int t) w)
    = Some (v =? w).
Proof.
  intros t v w Hv Hw.
  rewrite <- (u_int_make_scalar t v Hv) at 2.
  rewrite <- (u_int_make_scalar t w Hw) at 2.
  destruct t; reflexivity.
Qed.

(** [make_scalar<int8_t>(-8)] and [make_scalar<int8_t>(127)], the bounds of
    the row [i8]. *)
Lemma make_scalar_compares_by_value_witness :
  scalar_union_equal (type_code_number halide_type_int) 8
    (make_scalar (ty_int int8_t) (-8)) (make_scalar (ty_int int8_t) 127)
  = Some false.
Proof.
  apply (make_scalar_compares_by_value int8_t (-8) 127);
    vm_compute; split; discriminate.
Defined.

(** [check_metadata] accepts a record in one mode at most.  What it
    accepts has 44 arguments when the context argument is expected and 43
    when it is not, and a target string with "x86", "powerpc" or "arm" in
    it; so no record passes both with and without [expect_ucon_at_0]. *)
Theorem check_metadata_accepts_one_mode :
  forall md : halide_filter_metadata_t,
    (forall expect_ucon_at_0 : bool,
        check_metadata md expect_ucon_at_0 = true ->
        num_arguments md = (if expect_ucon_at_0 then 44 else 43)
        /\ strstr (target md) "x86" || strstr (target md) "powerpc"
           || strstr (target md) "arm" = true)
    /\ check_metadata md true && check_metadata md false = false.
Proof.
  intros md.
  assert (Hlen : Z.of_nat (length kExpectedArguments) = 44)
    by (vm_compute; reflexivity).
  assert (Hmode : forall u, check_metadata md u = true ->
                    num_arguments md = (if u then 44 else 43)
                    /\ strstr (target md) "x86" || strstr (target md) "powerpc"
                       || strstr (target md) "arm" = true).
  { intros u Hcheck. unfold check_metadata in Hcheck. cbv zeta in Hcheck.
    rewrite Hlen in Hcheck.
    apply andb_prop in Hcheck as [Htarget Hrest].
    apply andb_prop in Hrest as [Hcount _].
    apply Z.eqb_eq in Hcount. split; [| exact Htarget].
    destruct u; lia. }
  split; [exact Hmode |].
  destruct (check_metadata md true) eqn:Ht; [| reflexivity].
  destruct (check_metadata md false) eqn:Hf; [| reflexivity].
  apply Hmode in Ht as [Ht _]. apply Hmode in Hf as [Hf _]. cbn in Ht, Hf. lia.
Qed.

(** The record that holds the expected table itself, for an x86 target:
    accepted with the context argument, refused without. *)
Lemma check_metadata_accepts_one_mode_witness :
  let md := mk_metadata 44 kExpectedArguments "x86-64-sse41"
              "metadata_tester_ucon" in
  check_metadata md true = true /\ check_metadata md false = false.
Proof.
  intros md.
  assert (Ht : check_metadata md true = true) by (vm_compute; reflexivity).
  split; [exact Ht |].
  pose proof (proj2 (check_metadata_accepts_one_mode md)) as Hone.
  rewrite Ht in Hone. exact Hone.
Defined.

(** ** [GeneratorInput]: [set_def_min_max] *)

(** [set_def_min_max] can be run again without effect, and it changes
    nothing of a parameter but the stored scalar and the bounds: names,
    types, kinds and dimensions stay.  For a scalar input every parameter
    holds the input's default afterwards.  A bound that the input does not
    define is not cleared: the parameter keeps the one it had. *)
Theorem set_def_min_max_is_idempotent :
  forall g : GeneratorInput.t,
    let g' := GeneratorInput.set_def_min_max g in
    GeneratorInput.set_def_min_max g' = g'
    /\ map InternalParameter.name (GeneratorInput.parameters_ g')
       = map InternalParameter.name (GeneratorInput.parameters_ g)
    /\ map InternalParameter.type (GeneratorInput.parameters_ g')
       = map InternalParameter.type (GeneratorInput.parameters_ g)
    /\ map InternalParameter.is_buffer (GeneratorInput.parameters_ g')
       = map InternalParameter.is_buffer (GeneratorInput.parameters_ g)
    /\ map InternalParameter.dimensions (GeneratorInput.parameters_ g')
       = map InternalParameter.dimensions (GeneratorInput.parameters_ g)
    /\ (GeneratorInput.TBase g <> None ->
        Forall (fun p => InternalParameter.scalar p = GeneratorInput.def_ g)
               (GeneratorInput.parameters_ g'))
    /\ (GeneratorInput.min_ g = None ->
        map InternalParameter.min_value (GeneratorInput.parameters_ g')
        = map InternalParameter.min_value (GeneratorInput.parameters_ g))
    /\ (GeneratorInput.max_ g = None ->
        map InternalParameter.max_value (GeneratorInput.parameters_ g')
        = map InternalParameter.max_value (GeneratorInput.parameters_ g)).
Proof.
  intros g g'. subst g'. unfold GeneratorInput.set_def_min_max.
  destruct g as [base ps tbase def mn mx]. cbn.
  destruct tbase as [T |]; cbn.
  - repeat split.
    + unfold GeneratorInput.with_parameters. cbn. f_equal.
      rewrite map_map. apply map_ext. intros p.
      destruct mn, mx; reflexivity.
    + rewrite map_map. apply map_ext. intros p. destruct mn, mx; reflexivity.
    + rewrite map_map. apply map_ext. intros p. destruct mn, mx; reflexivity.
    + rewrite map_map. apply map_ext. intros p. destruct mn, mx; reflexivity.
    + rewrite map_map. apply map_ext. intros p. destruct mn, mx; reflexivity.
    + intros _. apply List.Forall_forall. intros p Hp.
      apply in_map_iff in Hp as (p0 & <- & _). destruct mn, mx; reflexivity.
    + intros ->. rewrite map_map. apply map_ext. intros p.
      destruct mx; reflexivity.
    + intros ->. rewrite map_map. apply map_ext. intros p.
      destruct mn; reflexivity.
  - repeat split; congruence.
Qed.

(** ** [GeneratorBase::set_wrapper_class_name] *)

Lemma set_wrapper_class_name_unfold {Body} (n : string) (g : GeneratorBase.t Body) :
  GeneratorBase.set_wrapper_class_name n g
  = if bool_decide (GeneratorBase.wrapper_class_name g = EmptyString)
    then (Ok tt,
          GeneratorBase.mk (GeneratorBase.build_pipeline_called g)
            (GeneratorBase.generate_called g) (GeneratorBase.schedule_called g)
            n (GeneratorBase.body g))
    else (Err (InternalError "wrapper_class_name.empty()"), g).
Proof.
  unfold GeneratorBase.set_wrapper_class_name, bind, get, internal_assert, put.
  destruct (bool_decide (GeneratorBase.wrapper_class_name g = EmptyString));
    reflexivity.
Qed.

(** The wrapper class name of an instance is given once.  Setting it
    succeeds exactly when the instance has none (an empty one), and
    changes nothing else; once a non-empty name is set, every further
    [set_wrapper_class_name] fails and leaves the instance alone, while
    after setting the empty name (as [RegisterGenerator] does through its
    factory) the name can still be given.  So a [SimpleGeneratorFactory]
    fails on a create function that returns an instance that already has
    a name. *)
Theorem wrapper_class_name_is_set_once :
  forall (Body : Type) (n : string) (g : GeneratorBase.t Body),
    (is_ok (fst (GeneratorBase.set_wrapper_class_name n g)) = true
     <-> GeneratorBase.wrapper_class_name g = EmptyString)
    /\ (forall g1 : GeneratorBase.t Body,
        GeneratorBase.set_wrapper_class_name n g = (Ok tt, g1) ->
        GeneratorBase.wrapper_class_name g1 = n
        /\ flags g1 = flags g /\ GeneratorBase.body g1 = GeneratorBase.body g
        /\ (forall n' : string,
               GeneratorBase.set_wrapper_class_name n' g1
               = if bool_decide (n = EmptyString)
                 then (Ok tt,
                       GeneratorBase.mk (GeneratorBase.build_pipeline_called g)
                         (GeneratorBase.generate_called g)
                         (GeneratorBase.schedule_called g)
                         n' (GeneratorBase.body g))
                 else (Err (InternalError "wrapper_class_name.empty()"), g1)))
    /\ (forall (set_generator_param_values :
                  GeneratorParamValues -> M (GeneratorBase.t Body) unit)
               (sf : @SimpleGeneratorFactory.t Body)
               (params : GeneratorParamValues),
        SimpleGeneratorFactory.create_func sf tt = Some g ->
        GeneratorBase.wrapper_class_name g <> EmptyString ->
        SimpleGeneratorFactory.create set_generator_param_values sf params
        = Err (InternalError "wrapper_class_name.empty()")).
Proof.
  intros Body n g. split; [| split].
  - rewrite set_wrapper_class_name_unfold.
    case_bool_decide as Hn; cbn; split; congruence.
  - intros g1. rewrite set_wrapper_class_name_unfold.
    case_bool_decide as Hn; [| discriminate].
    intros [= <-].
    split; [reflexivity | split; [reflexivity | split; [reflexivity |]]].
    intros n'. rewrite set_wrapper_class_name_unfold.
    cbn [GeneratorBase.wrapper_class_name GeneratorBase.build_pipeline_called
         GeneratorBase.generate_called GeneratorBase.schedule_called
         GeneratorBase.body].
    destruct (bool_decide (n = EmptyString)); reflexivity.
  - intros set_generator_param_values sf params Hnew Hname.
    unfold SimpleGeneratorFactory.create, bind. rewrite Hnew.
    rewrite set_wrapper_class_name_unfold.
    rewrite bool_decide_eq_false_2 by assumption. reflexivity.
Qed.

(** The instance the factory of wraptest_generator.cpp creates has its
    wrapper class name, and a second name is refused. *)
Lemma wrapper_class_name_is_set_once_witness :
  let g := GeneratorBase.make ([] : list GeneratorParamValues) in
  let g1 := GeneratorBase.mk false false false "WrapNS1::WrapNS2::Wrapper" [] in
  GeneratorBase.set_wrapper_class_name "WrapNS1::WrapNS2::Wrapper" g = (Ok tt, g1)
  /\ GeneratorBase.set_wrapper_class_name "Other" g1
     = (Err (InternalError "wrapper_class_name.empty()"), g1).
Proof.
  intros g g1.
  assert (Hset : GeneratorBase.set_wrapper_class_name
                   "WrapNS1::WrapNS2::Wrapper" g = (Ok tt, g1)) by reflexivity.
  split; [exact Hset |].
  destruct (wrapper_class_name_is_set_once (list GeneratorParamValues)
              "WrapNS1::WrapNS2::Wrapper" g) as (_ & Hafter & _).
  destruct (Hafter g1 Hset) as (_ & _ & _ & Hagain).
  rewrite (Hagain "Other"). reflexivity.
Defined.

(** ** Reading the elements of an array input or output *)

Section ElementAccess.
Context {ValueType : Type} (get_values : GIOBase.t -> outcome (list ValueType))
        (array_size : GIOBase.t -> Z).
Hypothesis get_values_length :
  forall g v, get_values g = Ok v -> Z.of_nat (length v) = array_size g.

Lemma size_is_array_size (g : GIOBase.t) (n : Z) :
  Input.size get_values g = Ok n -> n = array_size g.
Proof.
  unfold Input.size. destruct (get_values g) as [v | e] eqn:Hv; [| discriminate].
  intros [= <-]. now apply get_values_length.
Qed.

Lemma at_out_of_range (i : nat) (g : GIOBase.t) :
  Input.at_ get_values i g = Thrown std_out_of_range
  <-> is_ok (get_values g) = true /\ array_size g <= Z.of_nat i.
Proof.
  unfold Input.at_. destruct (get_values g) as [v | e] eqn:Hv; cbn.
  - apply get_values_length in Hv. rewrite <- Hv.
    destruct (nth_error v i) as [x |] eqn:Hn.
    + split; [discriminate |]. intros [_ Hle].
      assert (Hlt : (i < length v)%nat)
        by (apply nth_error_Some; congruence).
      lia.
    + apply nth_error_None in Hn.
      split; [intros _; split; [reflexivity | lia] | reflexivity].
  - split; [discriminate | intros [Hok _]; discriminate].
Qed.

Lemma at_returns (i : nat) (g : GIOBase.t) (x : ValueType) :
  Input.at_ get_values i g = Returned x
  <-> exists v, get_values g = Ok v /\ nth_error v i = Some x.
Proof.
  unfold Input.at_. destruct (get_values g) as [v | e]; cbn.
  - destruct (nth_error v i) as [y |] eqn:Hn.
    + split; [intros [= ->]; eauto | intros (v' & [= <-] & Hx); congruence].
    + split; [discriminate | intros (v' & [= <-] & Hx); congruence].
  - split; [discriminate | intros (v' & Hv & _); discriminate].
Qed.

End ElementAccess.

(** [size()] and [at(i)] of an array input or output.  Whenever [size()]
    returns, it returns [array_size()].  [at(i)] returns exactly when the
    descriptor's values can be read and [i] is an index of them, and then
    it is the i-th value; it throws [std::out_of_range], not a Halide
    error, exactly when the values can be read and [i] is [array_size()] or
    more; in every other case it fails with the internal error of
    [funcs()] or [exprs()].  This holds over [funcs()] (a [Func] input, an
    output) and over [exprs()] (a scalar input). *)
Theorem array_element_access_checks_binding_and_index :
  forall (ints : string -> option Z) (g : GIOBase.t) (i : nat),
    (forall n, Input.size (GIOBase.funcs ints) g = Ok n ->
               n = GIOBase.array_size ints g)
    /\ (forall n, Input.size (GIOBase.exprs ints) g = Ok n ->
                  n = GIOBase.array_size ints g)
    /\ (forall f, Input.at_ (GIOBase.funcs ints) i g = Returned f
                  <-> is_ok (GIOBase.funcs ints g) = true
                      /\ nth_error (GIOBase.funcs_ g) i = Some f)
    /\ (forall e, Input.at_ (GIOBase.exprs ints) i g = Returned e
                  <-> is_ok (GIOBase.exprs ints g) = true
                      /\ nth_error (GIOBase.exprs_ g) i = Some e)
    /\ (Input.at_ (GIOBase.funcs ints) i g = Thrown std_out_of_range
        <-> is_ok (GIOBase.funcs ints g) = true
            /\ GIOBase.array_size ints g <= Z.of_nat i)
    /\ (Input.at_ (GIOBase.exprs ints) i g = Thrown std_out_of_range
        <-> is_ok (GIOBase.exprs ints g) = true
            /\ GIOBase.array_size ints g <= Z.of_nat i).
Proof.
  intros ints g i.
  assert (Hf : forall g v, GIOBase.funcs ints g = Ok v ->
                 Z.of_nat (length v) = GIOBase.array_size ints g).
  { intros g0 v Hv. apply funcs_ok_iff in Hv as (-> & Hlen & _). exact Hlen. }
  assert (He : forall g v, GIOBase.exprs ints g = Ok v ->
                 Z.of_nat (length v) = GIOBase.array_size ints g).
  { intros g0 v Hv. apply exprs_ok_iff in Hv as (-> & Hlen & _). exact Hlen. }
  split; [| split; [| split; [| split; [| split]]]].
  - intros n. now apply size_is_array_size.
  - intros n. now apply size_is_array_size.
  - intros f. rewrite at_returns. split.
    + intros (v & Hv & Hn). rewrite Hv.
      apply funcs_ok_iff in Hv as (-> & _). now split.
    + intros (Hok & Hn). exists (GIOBase.funcs_ g). split; [| exact Hn].
      destruct (GIOBase.funcs ints g) as [v |] eqn:Hv; [| discriminate].
      now apply funcs_ok_iff in Hv as (-> & _).
  - intros e. rewrite at_returns. split.
    + intros (v & Hv & Hn). rewrite Hv.
      apply exprs_ok_iff in Hv as (-> & _). now split.
    + intros (Hok & Hn). exists (GIOBase.exprs_ g). split; [| exact Hn].
      destruct (GIOBase.exprs ints g) as [v |] eqn:Hv; [| discriminate].
      now apply exprs_ok_iff in Hv as (-> & _).
  - now apply at_out_of_range.
  - now apply at_out_of_range.
Qed.

(** The array input of wraptest_generator.cpp bound to two [Func]s:
    [size()] is 2, [at(1)] is the second [Func], [at(2)] throws
    [std::out_of_range]. *)
Lemma array_element_access_checks_binding_and_index_witness :
  let f0 := mk_Func "f0" [UInt 8] in
  let f1 := mk_Func "f1" [UInt 8] in
  let g := GIOBase.with_values wraptest_input [f0; f1] [] in
  Input.size (GIOBase.funcs (array_count_is 2)) g = Ok 2
  /\ Input.at_ (GIOBase.funcs (array_count_is 2)) 1 g = Returned f1
  /\ Input.at_ (GIOBase.funcs (array_count_is 2)) 2 g
     = Thrown std_out_of_range.
Proof.
  intros f0 f1 g. split; [reflexivity |].
  destruct (array_element_access_checks_binding_and_index
              (array_count_is 2) g 1) as (_ & _ & Hat & _).
  destruct (array_element_access_checks_binding_and_index
              (array_count_is 2) g 2) as (_ & _ & _ & _ & Hrange & _).
  split; [apply Hat; split; reflexivity |].
  apply Hrange. split; [reflexivity | vm_compute; discriminate].
Defined.

(** ** A descriptor sized by a [GeneratorParam] *)

(** An [ArgWithParam] holds a pointer to its parameter, so [array_size()]
    is the parameter's value at the time of the call.  A descriptor whose
    values were readable stops being readable when the parameter that
    sizes it is set to another value afterwards: [funcs()] and [exprs()]
    then fail, until the parameter has the old size again. *)
Theorem resizing_parameter_invalidates_values :
  forall (ints ints' : string -> option Z) (g : GIOBase.t) (param : string)
         (n m : Z),
    ArgWithParam.param_ (GIOBase.array_size_ g) = Some param ->
    ints param = Some n -> ints' param = Some m ->
    wrap uint64_t m <> wrap uint64_t n ->
    (is_ok (GIOBase.funcs ints g) = true ->
     GIOBase.funcs ints' g
     = Err (InternalError "funcs_.size() == array_size() && exprs_.empty()"))
    /\ (is_ok (GIOBase.exprs ints g) = true ->
        GIOBase.exprs ints' g
        = Err (InternalError "exprs_.size() == array_size() && funcs_.empty()")).
Proof.
  intros ints ints' g param n m Hparam Hn Hm Hne.
  assert (Hsize : GIOBase.array_size ints g = wrap uint64_t n
                  /\ GIOBase.array_size ints' g = wrap uint64_t m).
  { unfold GIOBase.array_size, ArgWithParam.value.
    rewrite Hparam, Hn, Hm. split; reflexivity. }
  destruct Hsize as [Hs Hs']. split; intros Hok.
  - destruct (GIOBase.funcs ints g) as [v |] eqn:Hv; [| discriminate].
    apply funcs_ok_iff in Hv as (_ & Hlen & _).
    unfold GIOBase.funcs.
    destruct (Z.eqb_spec (Z.of_nat (length (GIOBase.funcs_ g)))
                (GIOBase.array_size ints' g)) as [Heq | _]; [| reflexivity].
    congruence.
  - destruct (GIOBase.exprs ints g) as [v |] eqn:Hv; [| discriminate].
    apply exprs_ok_iff in Hv as (_ & Hlen & _).
    unfold GIOBase.exprs.
    destruct (Z.eqb_spec (Z.of_nat (length (GIOBase.exprs_ g)))
                (GIOBase.array_size ints' g)) as [Heq | _]; [| reflexivity].
    congruence.
Qed.

(** The array input of wraptest_generator.cpp, bound to two [Func]s while
    [array_count] is 2: readable, and no longer readable when [array_count]
    is then set to 3. *)
Lemma resizing_parameter_invalidates_values_witness :
  let f := mk_Func "f" [UInt 8] in
  let g := GIOBase.with_values wraptest_input [f; f] [] in
  GIOBase.funcs (array_count_is 2) g = Ok [f; f]
  /\ GIOBase.funcs (array_count_is 3) g
     = Err (InternalError "funcs_.size() == array_size() && exprs_.empty()").
Proof.
  intros f g. split; [reflexivity |].
  apply (proj1 (resizing_parameter_invalidates_values
                  (array_count_is 2) (array_count_is 3) g "array_count" 2 3
                  eq_refl eq_refl eq_refl ltac:(discriminate)));
    reflexivity.
Defined.
